(** * Offline-first task sync: queue, batch transmission, conflict resolution

    A shallow embedding of the task service (services/taskService.ts), the
    sync service (services/syncService.ts), the SQLite wrapper
    (db/database.ts), the task routes (routes/tasks.ts) and the sync routes
    (routes/sync.ts).

    Conventions of the embedding
    - a JavaScript [Date] is the instant it denotes, in milliseconds since
      the epoch ([Z]); [new Date()] reads a clock that is passed as [now];
    - [uuidv4()] draws are passed as arguments, one per call in the source;
    - the answer of the remote authority to [axios.post] is an input;
    - a table is the list of its rows in insertion order; a PRIMARY KEY is
      enforced by the INSERT, which throws on a duplicate (the FOREIGN KEY
      of sync_queue is not enforced: SQLite leaves it off by default and the
      code never turns it on);
    - an [async] method is a function from the database to the database it
      leaves behind and either a value or the error it throws. *)

From Stdlib Require Import List String Ascii ZArith Bool Lia Sorted Permutation.
Import ListNotations.
Open Scope string_scope.
Open Scope list_scope.
Open Scope Z_scope.

(** ** Data contracts (types/index.ts, as the services use them) *)

Inductive SyncStatus : Type := pending | synced | error.

Inductive Operation : Type := create | update | delete.

Record Task : Type := mkTask {
  id : string;
  title : string;
  description : option string;
  completed : bool;
  created_at : Z;
  updated_at : Z;
  is_deleted : bool;
  sync_status : SyncStatus;
  server_id : option string;
  last_synced_at : option Z
}.

(** [Partial<Task>]: every field may be absent. *)
Record PartialTask : Type := mkPartial {
  p_id : option string;
  p_title : option string;
  p_description : option string;
  p_completed : option bool;
  p_created_at : option Z;
  p_updated_at : option Z;
  p_is_deleted : option bool;
  p_sync_status : option SyncStatus;
  p_server_id : option string;
  p_last_synced_at : option Z
}.

Definition emptyPartial : PartialTask :=
  mkPartial None None None None None None None None None None.

(** The JSON values that travel through the [data] column. The snapshots this
    repository enqueues are whole tasks, the empty object [{}] or [null];
    [JText j] is the text [JSON.stringify] produces for [j]. *)
Inductive Json : Type :=
| JTask (t : Task)
| JEmpty
| JNull
| JText (encoded : Json).

Definition JSON_stringify (j : Json) : Json := JText j.

(** [JSON.parse] of a text gives the value back; anything that is not a text
    is first coerced to a string that is no JSON, and the parse throws. *)
Definition JSON_parse (j : Json) : option Json :=
  match j with
  | JText v => Some v
  | _ => None
  end.

(** What SQLite holds in a DATETIME column: a [Date] parameter is bound as a
    number, an ISO string stays a text. [SqlIso ms] stands for the text
    [toISOString] gives for the instant [ms]. *)
Inductive SqlDate : Type :=
| SqlNum (ms : Z)
| SqlIso (ms : Z).

(** The object the task service hands to [Database.addToSyncQueue]. *)
Record SyncQueueItem : Type := mkItem {
  i_id : string;
  i_task_id : string;
  i_operation : Operation;
  i_data : Json;
  i_created_at : Z;
  i_retry_count : Z;
  i_error_message : option string
}.

(** A row of sync_queue; [SELECT *] rows are what [sync] casts to
    [SyncQueueItem[]], so [q_data] is the stored text. The column
    updated_at, which no statement writes or reads, is left out. *)
Record QueueRow : Type := mkRow {
  q_id : string;
  q_task_id : string;
  q_operation : Operation;
  q_data : Json;
  q_status : SyncStatus;
  q_created_at : SqlDate;
  q_retry_count : Z;
  q_error_message : option string
}.

(** A row of dead_letter_queue: the table has no retry_count column. *)
Record DeadLetterRow : Type := mkDead {
  d_id : string;
  d_task_id : string;
  d_operation : Operation;
  d_data : Json;
  d_created_at : SqlDate;
  d_error_message : option string;
  d_failed_at : Z
}.

(** What [getSyncQueue] and [getDeadLetterQueue] hand out. *)
Record QueueView : Type := mkView {
  v_id : string;
  v_task_id : string;
  v_operation : Operation;
  v_data : Json;
  v_created_at : SqlDate;
  v_retry_count : Z;
  v_error_message : option string
}.

(** Modelled from the spec: the strategy tag of [ConflictResolution], whose
    declaration (types/index.ts) is not among the sources; the three values
    are the policies the README weighs. *)
Inductive Strategy : Type := last_write_wins | client_wins | server_wins.

Record ConflictResolution : Type := mkResolution {
  strategy : Strategy;
  resolved_task : Json
}.

Inductive ResultStatus : Type := st_success | st_conflict | st_error.

Record ProcessedItem : Type := mkProcessed {
  client_id : string;
  r_server_id : string;
  r_status : ResultStatus;
  resolved_data : option Task;
  r_operation : option Operation;
  r_error : option string
}.

Record BatchSyncResponse : Type := mkResponse {
  processed_items : list ProcessedItem
}.

(** The operation of a reported error: an operation of the queue, or the
    string 'unknown'. *)
Inductive ErrorOperation : Type :=
| known (o : Operation)
| unknown.

Record SyncError : Type := mkSyncError {
  e_task_id : string;
  e_operation : ErrorOperation;
  e_error : string;
  e_timestamp : Z
}.

Record SyncResult : Type := mkSyncResult {
  success : bool;
  synced_items : Z;
  failed_items : Z;
  errors : list SyncError
}.

(** What [axios.post] does: it resolves with the body of a 2xx answer and
    throws otherwise, with the message of the error. A rejected batch
    (status 400, "Checksum mismatch") is such a throw. *)
Inductive PostOutcome : Type :=
| NetworkError (message : string)
| HttpStatusError (code : Z) (message : string)
| Resolved (body : BatchSyncResponse).

(** ** The database and the effect of an async method *)

Record Database : Type := mkDb {
  tasks : list Task;
  sync_queue : list QueueRow;
  dead_letter_queue : list DeadLetterRow
}.

Definition emptyDb : Database := mkDb [] [] [].

Inductive Outcome (A : Type) : Type :=
| Returned (a : A)
| Thrown (message : string).
Arguments Returned {A} a.
Arguments Thrown {A} message.

Definition Async (A : Type) : Type := Database -> Database * Outcome A.

Definition ret {A} (a : A) : Async A := fun db => (db, Returned a).

Definition throw {A} (message : string) : Async A :=
  fun db => (db, Thrown message).

Definition bind {A B} (m : Async A) (k : A -> Async B) : Async B :=
  fun db =>
    match m db with
    | (db', Returned a) => k a db'
    | (db', Thrown e) => (db', Thrown e)
    end.

(** [try { m } catch (err) { h err }] *)
Definition try_catch {A} (m : Async A) (h : string -> Async A) : Async A :=
  fun db =>
    match m db with
    | (db', Returned a) => (db', Returned a)
    | (db', Thrown e) => h e db'
    end.

Declare Scope async_scope.
Delimit Scope async_scope with async.
Notation "x <- m ;; k" := (bind m (fun x => k))
  (at level 61, m at next level, right associativity) : async_scope.
Notation "m ;; k" := (bind m (fun _ => k))
  (at level 61, right associativity) : async_scope.
Open Scope async_scope.

Definition run_db {A} (m : Async A) (db : Database) : Database := fst (m db).
Definition result_of {A} (m : Async A) (db : Database) : Outcome A := snd (m db).

(** ** db/database.ts *)

Definition same_id (a b : string) : bool := (a =? b)%string.
Arguments same_id : simpl never.

Definition with_tasks (db : Database) (ts : list Task) : Database :=
  mkDb ts (sync_queue db) (dead_letter_queue db).

Definition with_queue (db : Database) (q : list QueueRow) : Database :=
  mkDb (tasks db) q (dead_letter_queue db).

Definition with_dead (db : Database) (d : list DeadLetterRow) : Database :=
  mkDb (tasks db) (sync_queue db) d.

(** INSERT INTO tasks (...) VALUES (...) *)
Definition insertTask (task : Task) : Async unit :=
  fun db =>
    if existsb (fun row => same_id (id row) (id task)) (tasks db)
    then (db, Thrown "SQLITE_CONSTRAINT: UNIQUE constraint failed: tasks.id")
    else (with_tasks db (tasks db ++ [task]), Returned tt).

(** The SET list of [updateTask]: every column but id and created_at. *)
Definition set_task_columns (task row : Task) : Task :=
  mkTask (id row) (title task) (description task) (completed task)
         (created_at row) (updated_at task) (is_deleted task)
         (sync_status task) (server_id task) (last_synced_at task).

Definition replace_task (task : Task) (rows : list Task) : list Task :=
  map (fun row => if same_id (id row) (id task)
                  then set_task_columns task row else row) rows.

(** UPDATE tasks SET ... WHERE id = ? *)
Definition updateTask (task : Task) : Async unit :=
  fun db => (with_tasks db (replace_task task (tasks db)), Returned tt).

(** SELECT * FROM tasks WHERE id = ? *)
Definition getTaskById (i : string) : Async (option Task) :=
  fun db => (db, Returned (find (fun row => same_id (id row) i) (tasks db))).

(** SELECT * FROM tasks WHERE is_deleted = 0 *)
Definition getAllTasks : Async (list Task) :=
  fun db => (db, Returned (filter (fun row => negb (is_deleted row)) (tasks db))).

Definition queue_has (i : string) (q : list QueueRow) : bool :=
  existsb (fun row => same_id (q_id row) i) q.
Arguments queue_has : simpl never.

Definition insert_queue_row (row : QueueRow) : Async unit :=
  fun db =>
    if queue_has (q_id row) (sync_queue db)
    then (db, Thrown "SQLITE_CONSTRAINT: UNIQUE constraint failed: sync_queue.id")
    else (with_queue db (sync_queue db ++ [row]), Returned tt).

(** [Database.addToSyncQueue]: the INSERT names no status, the column
    default 'pending' applies; [created_at] is a Date. *)
Definition Database_addToSyncQueue (item : SyncQueueItem) : Async unit :=
  insert_queue_row
    (mkRow (i_id item) (i_task_id item) (i_operation item)
           (JSON_stringify (i_data item)) pending (SqlNum (i_created_at item))
           (i_retry_count item) (i_error_message item)).

Fixpoint parse_all {A} (data_of : A -> Json) (mk : A -> Json -> QueueView)
         (rows : list A) : Outcome (list QueueView) :=
  match rows with
  | [] => Returned []
  | row :: rest =>
      match JSON_parse (data_of row) with
      | None => Thrown "Unexpected token in JSON"
      | Some j =>
          match parse_all data_of mk rest with
          | Returned vs => Returned (mk row j :: vs)
          | Thrown e => Thrown e
          end
      end
  end.

(** SELECT * FROM sync_queue, every row of whatever status. *)
Definition getSyncQueue : Async (list QueueView) :=
  fun db =>
    (db, parse_all q_data
           (fun row j => mkView (q_id row) (q_task_id row) (q_operation row) j
                                (q_created_at row) (q_retry_count row)
                                (q_error_message row))
           (sync_queue db)).

(** DELETE FROM sync_queue *)
Definition clearSyncQueue : Async unit :=
  fun db => (with_queue db [], Returned tt).

(** [addToDeadLetterQueue]: the item's retry_count is not among the columns;
    failed_at takes its default, the current time. *)
Definition addToDeadLetterQueue (item : QueueRow) (now : Z) : Async unit :=
  fun db =>
    if existsb (fun row => same_id (d_id row) (q_id item)) (dead_letter_queue db)
    then (db, Thrown "SQLITE_CONSTRAINT: UNIQUE constraint failed: dead_letter_queue.id")
    else (with_dead db
            (dead_letter_queue db ++
             [mkDead (q_id item) (q_task_id item) (q_operation item)
                     (JSON_stringify (q_data item)) (q_created_at item)
                     (q_error_message item) now]),
          Returned tt).

Definition getDeadLetterQueue : Async (list QueueView) :=
  fun db =>
    (db, parse_all d_data
           (fun row j => mkView (d_id row) (d_task_id row) (d_operation row) j
                                (d_created_at row) 3 (d_error_message row))
           (dead_letter_queue db)).

(** ** services/taskService.ts *)

Definition or_else {A} (o : option A) (d : A) : A :=
  match o with Some a => a | None => d end.

(** [createTask(data)]: [uuid_task] and [uuid_item] are the two draws of
    [uuidv4()] (the first is drawn only when [data.id] is absent). *)
Definition createTask (data : PartialTask) (uuid_task uuid_item : string)
           (now : Z) : Async Task :=
  let task :=
    mkTask (or_else (p_id data) uuid_task)
           (or_else (p_title data) "Untitled Task")
           (p_description data)
           (or_else (p_completed data) false)
           now now false pending None None in
  insertTask task ;;
  Database_addToSyncQueue (mkItem uuid_item (id task) create (JTask task) now 0 None) ;;
  ret task.

(** [{ ...existing, ...updates }] *)
Definition spread (existing : Task) (updates : PartialTask) : Task :=
  mkTask (or_else (p_id updates) (id existing))
         (or_else (p_title updates) (title existing))
         (match p_description updates with
          | Some d => Some d | None => description existing end)
         (or_else (p_completed updates) (completed existing))
         (or_else (p_created_at updates) (created_at existing))
         (or_else (p_updated_at updates) (updated_at existing))
         (or_else (p_is_deleted updates) (is_deleted existing))
         (or_else (p_sync_status updates) (sync_status existing))
         (match p_server_id updates with
          | Some d => Some d | None => server_id existing end)
         (match p_last_synced_at updates with
          | Some d => Some d | None => last_synced_at existing end).

Definition set_updated_pending (t : Task) (now : Z) : Task :=
  mkTask (id t) (title t) (description t) (completed t) (created_at t)
         now (is_deleted t) pending (server_id t) (last_synced_at t).

Definition taskService_updateTask (i : string) (updates : PartialTask)
           (uuid_item : string) (now : Z) : Async (option Task) :=
  existing <- getTaskById i ;;
  match existing with
  | None => ret None
  | Some existing =>
      let updated := set_updated_pending (spread existing updates) now in
      updateTask updated ;;
      Database_addToSyncQueue
        (mkItem uuid_item (id updated) update (JTask updated) now 0 None) ;;
      ret (Some updated)
  end.

Definition deleteTask (i : string) (uuid_item : string) (now : Z) : Async bool :=
  existing <- getTaskById i ;;
  match existing with
  | None => ret false
  | Some existing =>
      let deleted :=
        mkTask (id existing) (title existing) (description existing)
               (completed existing) (created_at existing) now true pending
               (server_id existing) (last_synced_at existing) in
      updateTask deleted ;;
      Database_addToSyncQueue
        (mkItem uuid_item (id deleted) delete (JTask deleted) now 0 None) ;;
      ret true
  end.

Definition getTask (i : string) : Async (option Task) :=
  task <- getTaskById i ;;
  match task with
  | None => ret None
  | Some t => if is_deleted t then ret None else ret (Some t)
  end.

Definition updateTaskAfterSync (taskId serverId : string) (now : Z) : Async unit :=
  task <- getTaskById taskId ;;
  match task with
  | None => ret tt
  | Some task =>
      updateTask
        (mkTask (id task) (title task) (description task) (completed task)
                (created_at task) (updated_at task) (is_deleted task)
                synced (Some serverId) (Some now))
  end.

(** [saveResolvedTask]: an object without an id reaches UPDATE ... WHERE
    id = NULL, which matches no row. *)
Definition saveResolvedTask (resolvedTask : Json) (now : Z) : Async unit :=
  match resolvedTask with
  | JTask t =>
      updateTask
        (mkTask (id t) (title t) (description t) (completed t) (created_at t)
                (updated_at t) (is_deleted t) synced (server_id t) (Some now))
  | _ => ret tt
  end.

(** ** services/syncService.ts *)

(** [Date.prototype.toISOString]: YYYY-MM-DDTHH:mm:ss.sssZ in UTC, with
    the signed six-digit year outside the years 0000 to 9999. The calendar
    date is computed from the day number in the proleptic Gregorian
    calendar. It is applied to readings of the clock only, which are time
    values of a Date. *)
Definition digit (n : Z) : ascii := ascii_of_nat (48 + Z.to_nat (n mod 10)).

Fixpoint digits (width : nat) (n : Z) : string :=
  match width with
  | O => EmptyString
  | S w => String.append (digits w (n / 10)) (String (digit n) EmptyString)
  end.

Definition civil_from_days (days : Z) : Z * Z * Z :=
  let z := days + 719468 in
  let era := z / 146097 in
  let doe := z - era * 146097 in
  let yoe := (doe - doe / 1460 + doe / 36524 - doe / 146096) / 365 in
  let doy := doe - (365 * yoe + yoe / 4 - yoe / 100) in
  let mp := (5 * doy + 2) / 153 in
  let d := doy - (153 * mp + 2) / 5 + 1 in
  let m := if mp <? 10 then mp + 3 else mp - 9 in
  let y := yoe + era * 400 in
  (if m <=? 2 then y + 1 else y, m, d).

Definition toISOString (t : Z) : string :=
  let ms := t mod 86400000 in
  let '(y, m, d) := civil_from_days (t / 86400000) in
  String.concat ""
    [if (0 <=? y) && (y <=? 9999) then digits 4 y
     else String.append (if y <? 0 then "-" else "+") (digits 6 (Z.abs y));
     "-"; digits 2 m; "-"; digits 2 d; "T";
     digits 2 (ms / 3600000); ":"; digits 2 (ms / 60000 mod 60); ":";
     digits 2 (ms / 1000 mod 60); "."; digits 3 (ms mod 1000); "Z"].

(** ORDER BY task_id, created_at ASC. In a column numbers sort before
    texts; numbers compare by value; [SqlIso ms] is the text
    [toISOString ms], and texts compare byte-wise. *)
Definition sqldate_compare (a b : SqlDate) : comparison :=
  match a, b with
  | SqlNum x, SqlNum y => x ?= y
  | SqlNum _, SqlIso _ => Lt
  | SqlIso _, SqlNum _ => Gt
  | SqlIso x, SqlIso y => String.compare (toISOString x) (toISOString y)
  end.

Definition row_compare (a b : QueueRow) : comparison :=
  match String.compare (q_task_id a) (q_task_id b) with
  | Eq => sqldate_compare (q_created_at a) (q_created_at b)
  | c => c
  end.

Definition row_leb (a b : QueueRow) : bool :=
  match row_compare a b with Gt => false | _ => true end.

Fixpoint insert_sorted (r : QueueRow) (l : list QueueRow) : list QueueRow :=
  match l with
  | [] => [r]
  | x :: rest => if row_leb r x then r :: l else x :: insert_sorted r rest
  end.

Definition order_by_task_created (l : list QueueRow) : list QueueRow :=
  fold_right insert_sorted [] l.

Definition is_pending (r : QueueRow) : bool :=
  match q_status r with pending => true | _ => false end.

(** SELECT * FROM sync_queue WHERE status = 'pending'
    ORDER BY task_id, created_at ASC *)
Definition select_pending : Async (list QueueRow) :=
  fun db => (db, Returned (order_by_task_created (filter is_pending (sync_queue db)))).

(** [SyncService.addToSyncQueue]: status 'pending' is written out and
    created_at is the ISO text. *)
Definition addToSyncQueue (taskId : string) (operation : Operation) (data : Json)
           (uuid : string) (now : Z) : Async unit :=
  insert_queue_row
    (mkRow uuid taskId operation (JSON_stringify data) pending (SqlIso now) 0 None).

(** The rows with id [i] rewritten by [f]: UPDATE sync_queue ... WHERE id = ? *)
Definition update_rows (i : string) (f : QueueRow -> QueueRow)
           (q : list QueueRow) : list QueueRow :=
  map (fun row => if same_id (q_id row) i then f row else row) q.

Definition update_queue (i : string) (f : QueueRow -> QueueRow) : Async unit :=
  fun db => (with_queue db (update_rows i f (sync_queue db)), Returned tt).

Definition delete_rows (i : string) (q : list QueueRow) : list QueueRow :=
  filter (fun row => negb (same_id (q_id row) i)) q.

(** DELETE FROM sync_queue WHERE id = ? *)
Definition delete_queue_row (i : string) : Async unit :=
  fun db => (with_queue db (delete_rows i (sync_queue db)), Returned tt).

(** UPDATE sync_queue SET retry_count = ?, error_message = ?, status = ?
    WHERE id = ? *)
Definition retry_row (count : Z) (message : string) (row : QueueRow) : QueueRow :=
  mkRow (q_id row) (q_task_id row) (q_operation row) (q_data row) pending
        (q_created_at row) count (Some message).

Definition set_retry (i : string) (count : Z) (message : string) : Async unit :=
  update_queue i (retry_row count message).

(** UPDATE sync_queue SET status = 'synced', error_message = NULL WHERE id = ? *)
Definition synced_clear_row (row : QueueRow) : QueueRow :=
  mkRow (q_id row) (q_task_id row) (q_operation row) (q_data row) synced
        (q_created_at row) (q_retry_count row) None.

Definition set_synced_clear (i : string) : Async unit :=
  update_queue i synced_clear_row.

(** UPDATE sync_queue SET status = 'synced' WHERE id = ? *)
Definition synced_row (row : QueueRow) : QueueRow :=
  mkRow (q_id row) (q_task_id row) (q_operation row) (q_data row) synced
        (q_created_at row) (q_retry_count row) (q_error_message row).

Definition set_synced (i : string) : Async unit :=
  update_queue i synced_row.

Definition maxRetries : Z := 3.

Definition handleSyncError (item : QueueRow) (message : string) (now : Z)
  : Async unit :=
  let newRetryCount := q_retry_count item + 1 in
  if maxRetries <=? newRetryCount then
    addToDeadLetterQueue
      (mkRow (q_id item) (q_task_id item) (q_operation item) (q_data item)
             (q_status item) (q_created_at item) newRetryCount (Some message))
      now ;;
    delete_queue_row (q_id item)
  else
    set_retry (q_id item) newRetryCount message.

(** A JavaScript number that may be NaN. *)
Definition JsNumber : Type := option Z.

Definition js_gt (a b : JsNumber) : bool :=
  match a, b with
  | Some x, Some y => y <? x
  | _, _ => false
  end.

(** The time values a [Date] can hold: 8.64e15 ms either side of the epoch. *)
Definition max_time : Z := 8640000000000000.

Definition in_date_range (ms : Z) : Prop := - max_time <= ms <= max_time.

(** [new Date(value).getTime()]: the value itself within the range of
    [Date], NaN outside of it. *)
Definition time_clip (ms : Z) : JsNumber :=
  if (- max_time <=? ms) && (ms <=? max_time) then Some ms else None.

(** [new Date(task.updated_at).getTime()]: reading a property of [null]
    throws (the text is the error's message); a missing property gives an
    invalid date, whose time is NaN. *)
Definition updated_time (task : Json) : Outcome JsNumber :=
  match task with
  | JTask t => Returned (time_clip (updated_at t))
  | JNull => Thrown "Cannot read properties of null (reading 'updated_at')"
  | _ => Returned None
  end.

Definition resolveConflict (localTask serverTask : Json)
           (_localOp _serverOp : Operation) : Async ConflictResolution :=
  match updated_time localTask with
  | Thrown e => throw e
  | Returned localUpdated =>
      match updated_time serverTask with
      | Thrown e => throw e
      | Returned serverUpdated =>
          if js_gt localUpdated serverUpdated then
            ret (mkResolution last_write_wins localTask)
          else if js_gt serverUpdated localUpdated then
            ret (mkResolution last_write_wins serverTask)
          else
            ret (mkResolution last_write_wins serverTask)
      end
  end.

(** [s || fallback] on an optional string: absent and empty are falsy. *)
Definition string_or (s : option string) (fallback : string) : string :=
  match s with
  | Some m => if (m =? "")%string then fallback else m
  | None => fallback
  end.

Definition find_item (items : list QueueRow) (i : string) : option QueueRow :=
  find (fun item => same_id (q_id item) i) items.

(** The body of the loop over [response.data.processed_items]. *)
Definition apply_result (items : list QueueRow) (now : Z) (result : ProcessedItem)
  : Async unit :=
  match find_item items (client_id result) with
  | None => ret tt
  | Some item =>
      match r_status result, resolved_data result with
      | st_success, _ =>
          set_synced_clear (q_id item) ;;
          updateTaskAfterSync (q_task_id item) (r_server_id result) now
      | st_conflict, Some serverTask =>
          match JSON_parse (q_data item) with
          | None => throw "Unexpected token in JSON"
          | Some localTask =>
              resolution <- resolveConflict localTask (JTask serverTask)
                              (q_operation item)
                              (or_else (r_operation result) update) ;;
              saveResolvedTask (resolved_task resolution) now ;;
              set_synced (q_id item)
          end
      | _, _ =>
          handleSyncError item (string_or (r_error result) "Unknown error") now
      end
  end.

Fixpoint for_each {A} (l : list A) (body : A -> Async unit) : Async unit :=
  match l with
  | [] => ret tt
  | x :: rest => body x ;; for_each rest body
  end.

Definition processBatch (items : list QueueRow) (post : PostOutcome) (now : Z)
  : Async BatchSyncResponse :=
  match post with
  | NetworkError e => throw e
  | HttpStatusError _ e => throw e
  | Resolved body =>
      for_each (processed_items body) (apply_result items now) ;;
      ret body
  end.

Definition has_status (s : ResultStatus) (r : ProcessedItem) : bool :=
  match r_status r, s with
  | st_success, st_success | st_conflict, st_conflict | st_error, st_error => true
  | _, _ => false
  end.

Definition count {A} (l : list A) : Z := Z.of_nat (List.length l).

Definition sync (post : PostOutcome) (now : Z) : Async SyncResult :=
  pendingItems <- select_pending ;;
  match pendingItems with
  | [] => ret (mkSyncResult true 0 0 [])
  | _ =>
      try_catch
        (batchResponse <- processBatch pendingItems post now ;;
         let synced_n :=
           count (filter (has_status st_success) (processed_items batchResponse)) in
         let failed_n :=
           count (filter (has_status st_error) (processed_items batchResponse)) in
         let errs :=
           map (fun r =>
                  mkSyncError (client_id r)
                    (match find_item pendingItems (client_id r) with
                     | Some i => known (q_operation i)
                     | None => unknown
                     end)
                    (string_or (r_error r) "Unknown error")
                    now)
               (filter (has_status st_error) (processed_items batchResponse)) in
         ret (mkSyncResult true synced_n failed_n errs))
        (fun err =>
           ret (mkSyncResult false 0 (count pendingItems)
                  (map (fun item =>
                          mkSyncError (q_id item) (known (q_operation item)) err now)
                       pendingItems)))
  end.

(** ** routes/tasks.ts *)

Inductive ResponseBody : Type :=
| TaskBody (t : option Task)
| ErrorBody (message : string)
| SuccessBody.

Record Response : Type := mkHttp {
  status_code : Z;
  res_body : ResponseBody
}.

Definition truthy (s : option string) : bool :=
  match s with
  | Some m => negb (m =? "")%string
  | None => false
  end.

(** POST /: [uuid_task] and [uuid_item] are drawn inside [createTask],
    [uuid_route] inside the route's own [addToSyncQueue]. *)
Definition post_task (title description : option string)
           (uuid_task uuid_item uuid_route : string) (now : Z) : Async Response :=
  try_catch
    (if truthy title then
       task <- createTask
                 (mkPartial None title (Some (string_or description ""))
                            (Some false) None (Some now) None None None None)
                 uuid_task uuid_item now ;;
       addToSyncQueue (id task) create (JTask task) uuid_route now ;;
       ret (mkHttp 201 (TaskBody (Some task)))
     else ret (mkHttp 400 (ErrorBody "Title is required")))
    (fun e => ret (mkHttp 500 (ErrorBody (string_or (Some e) "Failed to create task")))).

Definition with_updated_at (body : PartialTask) (now : Z) : PartialTask :=
  mkPartial (p_id body) (p_title body) (p_description body) (p_completed body)
            (p_created_at body) (Some now) (p_is_deleted body)
            (p_sync_status body) (p_server_id body) (p_last_synced_at body).

(** PUT /:id *)
Definition put_task (i : string) (body : PartialTask)
           (uuid_item uuid_route : string) (now : Z) : Async Response :=
  try_catch
    (existing <- getTask i ;;
     match existing with
     | None => ret (mkHttp 404 (ErrorBody "Task not found"))
     | Some _ =>
         updated <- taskService_updateTask i (with_updated_at body now) uuid_item now ;;
         addToSyncQueue i update
           (match updated with Some u => JTask u | None => JNull end)
           uuid_route now ;;
         ret (mkHttp 200 (TaskBody updated))
     end)
    (fun e => ret (mkHttp 500 (ErrorBody (string_or (Some e) "Failed to update task")))).

(** DELETE /:id *)
Definition delete_task (i : string) (uuid_item uuid_route : string) (now : Z)
  : Async Response :=
  try_catch
    (deleted <- deleteTask i uuid_item now ;;
     if deleted then
       addToSyncQueue i delete JEmpty uuid_route now ;;
       ret (mkHttp 200 SuccessBody)
     else ret (mkHttp 404 (ErrorBody "Task not found")))
    (fun e => ret (mkHttp 500 (ErrorBody (string_or (Some e) "Failed to delete task")))).

(** ** Running examples *)

Definition task_A : Task :=
  mkTask "t1" "x" (Some "") false 1000 1000 false pending None None.

(** A remote version of [task_A], updated later. *)
Definition task_B : Task :=
  mkTask "t1" "y" (Some "") true 1000 2000 false synced (Some "srv1") None.

(** [task_A] with another title and the same timestamps. *)
Definition task_A' : Task :=
  mkTask "t1" "z" (Some "") false 1000 1000 false pending None None.

Definition entry_A : QueueRow :=
  mkRow "q1" "t1" create (JText (JTask task_A)) pending (SqlNum 1000) 0 None.

Definition db_A : Database := mkDb [task_A] [entry_A] [].

Definition success_for (i sid : string) : ProcessedItem :=
  mkProcessed i sid st_success None None None.

Definition error_for (i message : string) : ProcessedItem :=
  mkProcessed i "" st_error None None (Some message).

(** The pending entries of [after] that reference task [taskId] and were
    not in the queue of [before]. *)
Definition new_pending_entries (taskId : string) (before after : Database)
  : list QueueRow :=
  filter (fun r => same_id (q_task_id r) taskId && is_pending r &&
                   negb (queue_has (q_id r) (sync_queue before)))
         (sync_queue after).

(** The order of the values of a created_at column, spelled out: a number
    stands before any text, two numbers in numeric order, two texts in the
    byte order of the texts. *)
Definition stored_before (a b : SqlDate) : Prop :=
  match a, b with
  | SqlNum x, SqlNum y => x <= y
  | SqlNum _, SqlIso _ => True
  | SqlIso _, SqlNum _ => False
  | SqlIso x, SqlIso y => String.leb (toISOString x) (toISOString y) = true
  end.

(** [a] stands no later than [b] in (task_id, created_at) order. *)
Definition task_then_created (a b : QueueRow) : Prop :=
  String.compare (q_task_id a) (q_task_id b) = Lt \/
  (q_task_id a = q_task_id b /\
   stored_before (q_created_at a) (q_created_at b)).

(** The queue after PUT /t1 at the clock 1000 and again at 2000. *)
Definition db_two_puts : Database :=
  run_db (put_task "t1" emptyPartial "s2" "r2" 2000)
         (run_db (put_task "t1" emptyPartial "s1" "r1" 1000)
                 (mkDb [task_A] [] [])).

(** The primary key of sync_queue: no two rows share an id. *)
Definition unique_ids (q : list QueueRow) : Prop := NoDup (map q_id q).

Definition dead_has (i : string) (d : list DeadLetterRow) : bool :=
  existsb (fun row => same_id (d_id row) i) d.

(** The row of [e] after a recorded failure that stays below the ceiling. *)
Definition retried (e : QueueRow) (message : string) : QueueRow :=
  mkRow (q_id e) (q_task_id e) (q_operation e) (q_data e) pending
        (q_created_at e) (q_retry_count e + 1) (Some message).

(** A cycle in which the authority answers with one error, for entry [i]. *)
Definition failing_cycle (i message : string) (now : Z) : Async SyncResult :=
  sync (Resolved (mkResponse [error_for i message])) now.

(** What a cycle leaves behind for the entry with id [i] and the task with
    id [taskId]. *)
Definition row_kept (i : string) (db : Database) : Prop :=
  queue_has i (sync_queue db) = true.

Definition rows_synced (i : string) (db : Database) : Prop :=
  forall row, In row (sync_queue db) -> q_id row = i -> q_status row = synced.

Definition task_stored (taskId : string) (db : Database) : Prop :=
  existsb (fun row => same_id (id row) taskId) (tasks db) = true.

Definition task_synced (taskId : string) (db : Database) : Prop :=
  forall row, In row (tasks db) -> id row = taskId -> sync_status row = synced.

Definition task_has_server_id (taskId : string) (db : Database) : Prop :=
  forall row, In row (tasks db) -> id row = taskId -> server_id row <> None.

Definition no_conflict (results : list ProcessedItem) : Prop :=
  Forall (fun r => r_status r <> st_conflict) results.

(** ** The read side of services/taskService.ts *)

Definition taskService_getAllTasks : Async (list Task) := getAllTasks.

Definition needs_sync (t : Task) : bool :=
  match sync_status t with
  | pending | error => true
  | synced => false
  end.

Definition getTasksNeedingSync : Async (list Task) :=
  ts <- getAllTasks ;;
  ret (filter needs_sync ts).

(** ** The read routes of routes/tasks.ts *)

Inductive ListBody : Type :=
| TasksBody (ts : list Task)
| ListErrorBody (message : string).

Record ListResponse : Type := mkList {
  list_status : Z;
  list_body : ListBody
}.

(** GET / *)
Definition get_tasks : Async ListResponse :=
  try_catch
    (ts <- taskService_getAllTasks ;;
     ret (mkList 200 (TasksBody ts)))
    (fun e => ret (mkList 500 (ListErrorBody (string_or (Some e) "Failed to fetch tasks")))).

(** GET /:id *)
Definition get_task (i : string) : Async Response :=
  try_catch
    (task <- getTask i ;;
     match task with
     | None => ret (mkHttp 404 (ErrorBody "Task not found"))
     | Some t => ret (mkHttp 200 (TaskBody (Some t)))
     end)
    (fun e => ret (mkHttp 500 (ErrorBody (string_or (Some e) "Failed to fetch task")))).

(** The version [saveResolvedTask] writes for a winning task. *)
Definition as_synced (t : Task) (now : Z) : Task :=
  mkTask (id t) (title t) (description t) (completed t) (created_at t)
         (updated_at t) (is_deleted t) synced (server_id t) (Some now).

Definition conflict_for (i : string) (serverTask : option Task) : ProcessedItem :=
  mkProcessed i "" st_conflict serverTask None None.

(** ** routes/sync.ts and the connectivity probe *)

(** What [axios.get] of the health endpoint does within its timeout. *)
Inductive GetOutcome : Type :=
| GetResolved
| GetThrew (message : string).

Definition checkConnectivity (health : GetOutcome) : Async bool :=
  try_catch
    (match health with
     | GetResolved => ret tt
     | GetThrew e => throw e
     end ;;
     ret true)
    (fun _ => ret false).

(** The bodies of POST /sync: the summary of [sync]; the fixed body of the
    503 answer (success false, zero counts, one error 'Server unreachable'
    with task_id '' and operation 'sync'); the like body of the 500 answer
    with the message of the exception. *)
Inductive SyncRouteBody : Type :=
| SummaryBody (result : SyncResult)
| UnreachableBody (timestamp : Z)
| SyncErrorBody (message : string) (timestamp : Z).

Record SyncRouteResponse : Type := mkSyncHttp {
  sync_code : Z;
  sync_body : SyncRouteBody
}.

(** POST /sync *)
Definition post_sync (health : GetOutcome) (post : PostOutcome) (now : Z)
  : Async SyncRouteResponse :=
  try_catch
    (online <- checkConnectivity health ;;
     if online then
       result <- sync post now ;;
       ret (mkSyncHttp 200 (SummaryBody result))
     else ret (mkSyncHttp 503 (UnreachableBody now)))
    (fun err =>
       ret (mkSyncHttp 500
              (SyncErrorBody (string_or (Some err) "Unknown sync error") now))).

Record SyncStatusBody : Type := mkStatus {
  pending_sync_count : Z;
  in_progress : Z;
  synced_count : Z;
  error_count : Z;
  failed_count : Z;
  dead_letter : Z;
  last_sync_timestamp : option Z;
  is_online : bool;
  sync_queue_size : Z
}.

Inductive StatusRouteBody : Type :=
| StatusBody (s : SyncStatusBody)
| StatusErrorBody (message : string).

Record StatusResponse : Type := mkStatusHttp {
  status_http_code : Z;
  status_http_body : StatusRouteBody
}.

Definition has_queue_status (s : SyncStatus) (row : QueueRow) : bool :=
  match q_status row, s with
  | pending, pending | synced, synced | error, error => true
  | _, _ => false
  end.

(** SUM(CASE WHEN status = ... THEN 1 ELSE 0 END), with [|| 0] for the NULL
    of an empty table. *)
Definition count_status (s : SyncStatus) : Async Z :=
  fun db => (db, Returned (count (filter (has_queue_status s) (sync_queue db)))).

(** SELECT COUNT( * ) FROM dead_letter_queue *)
Definition count_dead_letter : Async Z :=
  fun db => (db, Returned (count (dead_letter_queue db))).

Definition max_option (a b : option Z) : option Z :=
  match a, b with
  | Some x, Some y => Some (Z.max x y)
  | Some x, None => Some x
  | None, _ => b
  end.

(** SELECT MAX(last_synced_at) FROM tasks, every row, and [|| null], for
    which the instant 0 is falsy too. *)
Definition max_last_synced_at : Async (option Z) :=
  fun db =>
    (db, Returned
           (match fold_right max_option None (map last_synced_at (tasks db)) with
            | Some 0 => None
            | m => m
            end)).

(** GET /status. No row carries the status 'in-progress' or 'failed', which
    no statement writes, so those two sums are 0. *)
Definition get_status (health : GetOutcome) : Async StatusResponse :=
  try_catch
    (n_pending <- count_status pending ;;
     n_synced <- count_status synced ;;
     n_error <- count_status error ;;
     n_dead <- count_dead_letter ;;
     lastSynced <- max_last_synced_at ;;
     online <- checkConnectivity health ;;
     ret (mkStatusHttp 200
            (StatusBody (mkStatus n_pending 0 n_synced n_error 0 n_dead lastSynced
                                  online (n_pending + 0 + n_error)))))
    (fun err =>
       ret (mkStatusHttp 500
              (StatusErrorBody (string_or (Some err) "Failed to fetch sync status")))).

(** The batch as it travels: the rows, the client's clock and the digest. *)
Record BatchSyncRequest : Type := mkRequest {
  req_items : list QueueRow;
  client_timestamp : Z;
  checksum : string
}.

(** [{ ...i.data, id: i.task_id, updated_at: new Date() }], the
    resolved_data the mock authority attaches to every item. *)
Record EchoData : Type := mkEchoData {
  spread_of : Json;
  echo_id : string;
  echo_updated_at : Z
}.

Record EchoItem : Type := mkEcho {
  echo_client_id : string;
  echo_server_id : string;
  echo_status : ResultStatus;
  echo_resolved_data : EchoData
}.

(** The answers of POST /batch: 200 with the processed items, or 400
    'Checksum mismatch' with no processed item. *)
Inductive BatchAnswer : Type :=
| Accepted (processed : list EchoItem)
| ChecksumMismatch (timestamp : Z).

Section BatchIntegrity.

(** The hex SHA-256 digest of [JSON.stringify(items)]. *)
Variable sha256_hex : list QueueRow -> string.

(** The request [processBatch] posts. *)
Definition batchRequest (items : list QueueRow) (now : Z) : BatchSyncRequest :=
  mkRequest items now (sha256_hex items).

Definition echo (now : Z) (i : QueueRow) : EchoItem :=
  mkEcho (q_id i) (q_task_id i) st_success
         (mkEchoData (q_data i) (q_task_id i) now).

(** POST /batch, the authority's side. *)
Definition post_batch (req : BatchSyncRequest) (now : Z) : BatchAnswer :=
  if (sha256_hex (req_items req) =? checksum req)%string
  then Accepted (map (echo now) (req_items req))
  else ChecksumMismatch now.

(** What the client's [axios.post] makes of an answer; [typed] is how the
    client reads the resolved_data it was sent. *)
Definition axios_post (typed : EchoData -> option Task) (answer : BatchAnswer)
  : PostOutcome :=
  match answer with
  | Accepted processed =>
      Resolved
        (mkResponse
           (map (fun x => mkProcessed (echo_client_id x) (echo_server_id x)
                                      (echo_status x)
                                      (typed (echo_resolved_data x)) None None)
                processed))
  | ChecksumMismatch _ =>
      HttpStatusError 400 "Request failed with status code 400"
  end.

(** A cycle against the mock authority: the drained rows are posted as
    [processBatch] builds the request, and the answer comes back. *)
Definition sync_with_mock (typed : EchoData -> option Task)
           (now server_now : Z) : Async SyncResult :=
  fun db =>
    sync (axios_post typed
            (post_batch
               (batchRequest
                  (order_by_task_created (filter is_pending (sync_queue db))) now)
               server_now))
         now db.

End BatchIntegrity.

(** * Properties *)

(** Expose the plumbing of [Async] once the methods are unfolded. *)
Ltac unfold_async := unfold try_catch, bind, ret, throw.

(** ** Conflict resolution *)

Lemma js_gt_some (a b : Z) : js_gt (Some a) (Some b) = (b <? a).
Proof. reflexivity. Qed.

Lemma time_clip_in_range (ms : Z) :
  in_date_range ms -> time_clip ms = Some ms.
Proof.
  unfold in_date_range, time_clip. intros [H1 H2].
  apply Z.leb_le in H1, H2. now rewrite H1, H2.
Qed.

Lemma time_clip_out_of_range (ms : Z) :
  ~ in_date_range ms -> time_clip ms = None.
Proof.
  unfold in_date_range, time_clip. intros H.
  destruct (Z.leb_spec (- max_time) ms), (Z.leb_spec ms max_time);
    simpl; try reflexivity. exfalso. apply H. now split.
Qed.

Lemma in_date_range_dec (ms : Z) : in_date_range ms \/ ~ in_date_range ms.
Proof. unfold in_date_range. lia. Qed.

Lemma resolveConflict_tasks (l r : Task) (op1 op2 : Operation) (db : Database) :
  resolveConflict (JTask l) (JTask r) op1 op2 db =
  (db, Returned (mkResolution last_write_wins
                   (if js_gt (time_clip (updated_at l)) (time_clip (updated_at r))
                    then JTask l else JTask r))).
Proof.
  unfold resolveConflict; simpl.
  destruct (js_gt (time_clip (updated_at l)) (time_clip (updated_at r)));
    [reflexivity|].
  destruct (js_gt (time_clip (updated_at r)) (time_clip (updated_at l)));
    reflexivity.
Qed.

Lemma js_gt_out_of_range (a b : Z) :
  ~ in_date_range a \/ ~ in_date_range b ->
  js_gt (time_clip a) (time_clip b) = false.
Proof.
  intros [H|H]; rewrite (time_clip_out_of_range _ H); [reflexivity|].
  now destruct (time_clip a).
Qed.

(** C4: whatever the two tasks and operations, the resolver returns without
    touching the database and its strategy is last-write-wins, not one of
    the other policies. When both updated_at values are time values of a
    Date (within 8.64e15 ms of the epoch), it picks the local task when that
    one is strictly later, the remote task when the remote one is strictly
    later, and the remote task on equal timestamps; when one of them is
    not, it picks the remote task. *)
Theorem resolveConflict_last_write_wins :
  forall (localTask remoteTask : Task) (localOp serverOp : Operation)
         (db : Database),
  exists res,
    resolveConflict (JTask localTask) (JTask remoteTask) localOp serverOp db
      = (db, Returned res) /\
    strategy res = last_write_wins /\
    (in_date_range (updated_at localTask) ->
     in_date_range (updated_at remoteTask) ->
     (updated_at localTask > updated_at remoteTask ->
        resolved_task res = JTask localTask) /\
     (updated_at remoteTask > updated_at localTask ->
        resolved_task res = JTask remoteTask) /\
     (updated_at localTask = updated_at remoteTask ->
        resolved_task res = JTask remoteTask)) /\
    (~ in_date_range (updated_at localTask) \/
     ~ in_date_range (updated_at remoteTask) ->
     resolved_task res = JTask remoteTask).
Proof.
  intros l r op1 op2 db.
  eexists. split; [apply resolveConflict_tasks|]. simpl.
  split; [reflexivity|]. split.
  - intros Hl Hr.
    rewrite (time_clip_in_range _ Hl), (time_clip_in_range _ Hr), js_gt_some.
    destruct (Z.ltb_spec (updated_at r) (updated_at l)); repeat split; intros;
      try reflexivity; lia.
  - intros H. now rewrite js_gt_out_of_range.
Qed.

Lemma resolveConflict_last_write_wins_witness :
  exists res,
    resolveConflict (JTask task_A) (JTask task_B) create update emptyDb
      = (emptyDb, Returned res) /\
    resolved_task res = JTask task_B.
Proof.
  destruct (resolveConflict_last_write_wins task_A task_B create update emptyDb)
    as (res & E & _ & Hrange & _).
  exists res. split; [exact E|].
  assert (HA : in_date_range (updated_at task_A)) by (now vm_compute).
  assert (HB : in_date_range (updated_at task_B)) by (now vm_compute).
  destruct (Hrange HA HB) as (_ & Hremote & _).
  apply Hremote. reflexivity.
Defined.

(** C5: for two tasks whose updated_at values are time values of a Date, on
    distinct timestamps both argument orders resolve to the same task; on
    equal timestamps the resolver returns its second argument, so swapping
    two different tasks swaps the result. *)
Theorem resolveConflict_argument_order :
  forall (A B : Task) (op1 op2 op3 op4 : Operation) (db : Database),
    in_date_range (updated_at A) ->
    in_date_range (updated_at B) ->
  exists r1 r2,
    resolveConflict (JTask A) (JTask B) op1 op2 db = (db, Returned r1) /\
    resolveConflict (JTask B) (JTask A) op3 op4 db = (db, Returned r2) /\
    (updated_at A <> updated_at B -> resolved_task r1 = resolved_task r2) /\
    (updated_at A = updated_at B ->
       resolved_task r1 = JTask B /\ resolved_task r2 = JTask A /\
       (A <> B -> resolved_task r1 <> resolved_task r2)).
Proof.
  intros A B op1 op2 op3 op4 db HA HB.
  do 2 eexists.
  split; [apply resolveConflict_tasks|].
  split; [apply resolveConflict_tasks|]. simpl.
  rewrite (time_clip_in_range _ HA), (time_clip_in_range _ HB), !js_gt_some.
  destruct (Z.ltb_spec (updated_at B) (updated_at A));
    destruct (Z.ltb_spec (updated_at A) (updated_at B));
    split; intros; try reflexivity; try lia.
  repeat split. intros Hne Heq. apply Hne. now inversion Heq.
Qed.

Lemma resolveConflict_argument_order_witness :
  exists r1 r2,
    resolveConflict (JTask task_A) (JTask task_B) create update emptyDb
      = (emptyDb, Returned r1) /\
    resolveConflict (JTask task_B) (JTask task_A) update create emptyDb
      = (emptyDb, Returned r2) /\
    resolved_task r1 = resolved_task r2 /\
    exists r3 r4,
      resolveConflict (JTask task_A) (JTask task_A') create update emptyDb
        = (emptyDb, Returned r3) /\
      resolveConflict (JTask task_A') (JTask task_A) update create emptyDb
        = (emptyDb, Returned r4) /\
      resolved_task r3 = JTask task_A' /\ resolved_task r4 = JTask task_A /\
      resolved_task r3 <> resolved_task r4.
Proof.
  assert (HA : in_date_range (updated_at task_A)) by (now vm_compute).
  assert (HB : in_date_range (updated_at task_B)) by (now vm_compute).
  assert (HA' : in_date_range (updated_at task_A')) by (now vm_compute).
  destruct (resolveConflict_argument_order task_A task_B create update update
              create emptyDb HA HB) as (r1 & r2 & E1 & E2 & Hdiff & _).
  exists r1, r2. repeat (split; [assumption|]).
  split; [apply Hdiff; discriminate|].
  destruct (resolveConflict_argument_order task_A task_A' create update update
              create emptyDb HA HA') as (r3 & r4 & E3 & E4 & _ & Hsame).
  exists r3, r4. repeat (split; [assumption|]).
  destruct (Hsame eq_refl) as (H3 & H4 & Hne).
  repeat (split; [assumption|]). apply Hne. discriminate.
Defined.

(** ** Reading the tables back *)

Lemma parse_all_app {A} (data_of : A -> Json) (mk : A -> Json -> QueueView)
      (l1 l2 : list A) :
  parse_all data_of mk (l1 ++ l2) =
  match parse_all data_of mk l1 with
  | Returned v1 =>
      match parse_all data_of mk l2 with
      | Returned v2 => Returned (v1 ++ v2)
      | Thrown e => Thrown e
      end
  | Thrown e => Thrown e
  end.
Proof.
  induction l1 as [|x l1 IH]; simpl.
  - now destruct (parse_all data_of mk l2).
  - destruct (JSON_parse (data_of x)); [|reflexivity].
    rewrite IH. destruct (parse_all data_of mk l1); [|reflexivity].
    now destruct (parse_all data_of mk l2).
Qed.

Lemma parse_all_Forall {A} (data_of : A -> Json) (mk : A -> Json -> QueueView)
      (P : QueueView -> Prop) :
  (forall row j, P (mk row j)) ->
  forall rows vs, parse_all data_of mk rows = Returned vs -> Forall P vs.
Proof.
  intros HP. induction rows as [|x rows IH]; simpl; intros vs H.
  - injection H as <-. constructor.
  - destruct (JSON_parse (data_of x)); [|discriminate].
    destruct (parse_all data_of mk rows); [|discriminate].
    injection H as <-. constructor; [apply HP | now apply IH].
Qed.

(** C9: every entry read back from the dead-letter store reports
    retry_count = 3; an entry inserted with any retry_count is read back,
    after the entries already there, with retry_count = 3. *)
Theorem getDeadLetterQueue_reports_three :
  forall (db : Database),
    (forall entries,
       result_of getDeadLetterQueue db = Returned entries ->
       Forall (fun v => v_retry_count v = 3) entries) /\
    (forall (item : QueueRow) (now : Z) (db' : Database) (before : list QueueView),
       addToDeadLetterQueue item now db = (db', Returned tt) ->
       result_of getDeadLetterQueue db = Returned before ->
       result_of getDeadLetterQueue db' =
       Returned (before ++
                 [mkView (q_id item) (q_task_id item) (q_operation item)
                         (q_data item) (q_created_at item) 3
                         (q_error_message item)])).
Proof.
  intros db. split.
  - intros entries H. unfold result_of, getDeadLetterQueue in H. simpl in H.
    revert H. apply parse_all_Forall. reflexivity.
  - intros item now db' before Hadd Hread.
    unfold addToDeadLetterQueue in Hadd.
    destruct (existsb _ (dead_letter_queue db)); [discriminate|].
    injection Hadd as <-.
    unfold result_of, getDeadLetterQueue in *. simpl in *.
    rewrite parse_all_app, Hread. reflexivity.
Qed.

Lemma getDeadLetterQueue_reports_three_witness :
  result_of getDeadLetterQueue
    (run_db (addToDeadLetterQueue
               (mkRow "q1" "t1" create (JText (JTask task_A)) pending
                      (SqlNum 1000) 7 (Some "boom")) 9) emptyDb)
  = Returned [mkView "q1" "t1" create (JText (JTask task_A)) (SqlNum 1000) 3
                     (Some "boom")].
Proof.
  apply (proj2 (getDeadLetterQueue_reports_three emptyDb)
               (mkRow "q1" "t1" create (JText (JTask task_A)) pending
                      (SqlNum 1000) 7 (Some "boom")) 9 _ []);
    reflexivity.
Defined.

(** ** Soft delete *)

Lemma getTaskById_found (i : string) (db : Database) (t : Task) :
  result_of (getTaskById i) db = Returned (Some t) ->
  find (fun row => same_id (id row) i) (tasks db) = Some t /\ id t = i.
Proof.
  unfold result_of, getTaskById; simpl. intros H. injection H as H.
  split; [exact H|]. apply find_some in H. now apply String.eqb_eq.
Qed.

(** C10: for a task that is stored with is_deleted = true, [getTask]
    returns null, while [deleteTask] (with a fresh id for the queue entry)
    returns true and appends one more pending delete entry for the task. *)
Theorem deleteTask_of_deleted_task :
  forall (db : Database) (i : string) (t : Task) (uuid : string) (now : Z),
    result_of (getTaskById i) db = Returned (Some t) ->
    is_deleted t = true ->
    queue_has uuid (sync_queue db) = false ->
    result_of (getTask i) db = Returned None /\
    exists db',
      deleteTask i uuid now db = (db', Returned true) /\
      sync_queue db' =
      sync_queue db ++
      [mkRow uuid i delete
             (JText (JTask (mkTask (id t) (title t) (description t) (completed t)
                                   (created_at t) now true pending (server_id t)
                                   (last_synced_at t))))
             pending (SqlNum now) 0 None].
Proof.
  intros db i t uuid now Hget Hdel Hfresh.
  apply getTaskById_found in Hget as [Hfind Hid].
  split.
  - unfold result_of, getTask, bind, getTaskById; simpl.
    rewrite Hfind, Hdel. reflexivity.
  - unfold deleteTask, bind, getTaskById, updateTask, Database_addToSyncQueue,
      insert_queue_row; simpl.
    rewrite Hfind; simpl. rewrite Hfresh; simpl.
    eexists. split; [reflexivity|]. simpl. now rewrite Hid.
Qed.

Lemma deleteTask_of_deleted_task_witness :
  result_of (getTask "t1")
    (mkDb [mkTask "t1" "x" None false 1 2 true pending None None] [] [])
  = Returned None /\
  result_of (deleteTask "t1" "q9" 3)
    (mkDb [mkTask "t1" "x" None false 1 2 true pending None None] [] [])
  = Returned true.
Proof.
  destruct (deleteTask_of_deleted_task
              (mkDb [mkTask "t1" "x" None false 1 2 true pending None None] [] [])
              "t1" (mkTask "t1" "x" None false 1 2 true pending None None)
              "q9" 3 eq_refl eq_refl eq_refl) as (Hget & db' & Hdel & _).
  split; [exact Hget|]. unfold result_of. now rewrite Hdel.
Defined.

(** ** Enqueueing through the task routes *)

Lemma queue_has_snoc (i : string) (q : list QueueRow) (row : QueueRow) :
  queue_has i (q ++ [row]) = queue_has i q || same_id (q_id row) i.
Proof.
  unfold queue_has. rewrite existsb_app. simpl. now rewrite orb_false_r.
Qed.

Lemma same_id_refl (i : string) : same_id i i = true.
Proof. apply String.eqb_refl. Qed.

Lemma same_id_neq (i j : string) : i <> j -> same_id i j = false.
Proof. intros H. now apply String.eqb_neq. Qed.

Lemma queue_has_own (q : list QueueRow) (r : QueueRow) :
  In r q -> queue_has (q_id r) q = true.
Proof.
  intros H. apply existsb_exists. exists r. split; [exact H | apply same_id_refl].
Qed.

Lemma no_old_row_is_new (f : QueueRow -> bool) (q : list QueueRow) :
  filter (fun r => f r && negb (queue_has (q_id r) q)) q = [].
Proof.
  assert (G : forall l, (forall r, In r l -> In r q) ->
                        filter (fun r => f r && negb (queue_has (q_id r) q)) l = []).
  { induction l as [|x l IH]; intros Hl; [reflexivity|]. simpl.
    rewrite (queue_has_own q x) by (apply Hl; now left).
    rewrite andb_false_r. apply IH. intros r Hr. apply Hl. now right. }
  apply G. auto.
Qed.

Lemma new_pending_entries_two (taskId : string) (before after : Database)
      (r1 r2 : QueueRow) :
  sync_queue after = sync_queue before ++ [r1; r2] ->
  q_task_id r1 = taskId -> q_task_id r2 = taskId ->
  q_status r1 = pending -> q_status r2 = pending ->
  queue_has (q_id r1) (sync_queue before) = false ->
  queue_has (q_id r2) (sync_queue before) = false ->
  new_pending_entries taskId before after = [r1; r2].
Proof.
  intros Hq T1 T2 S1 S2 F1 F2. unfold new_pending_entries.
  rewrite Hq, filter_app, no_old_row_is_new. simpl.
  unfold is_pending. rewrite T1, T2, S1, S2, F1, F2, same_id_refl. reflexivity.
Qed.

Lemma post_task_run (db : Database) (ttl : string) (description : option string)
      (uuid_task uuid_item uuid_route : string) (now : Z) :
  ttl <> "" ->
  existsb (fun row => same_id (id row) uuid_task) (tasks db) = false ->
  queue_has uuid_item (sync_queue db) = false ->
  queue_has uuid_route (sync_queue db) = false ->
  uuid_item <> uuid_route ->
  let task := mkTask uuid_task ttl (Some (string_or description "")) false
                     now now false pending None None in
  post_task (Some ttl) description uuid_task uuid_item uuid_route now db =
  (mkDb (tasks db ++ [task])
        (sync_queue db ++
         [mkRow uuid_item uuid_task create (JText (JTask task)) pending
                (SqlNum now) 0 None;
          mkRow uuid_route uuid_task create (JText (JTask task)) pending
                (SqlIso now) 0 None])
        (dead_letter_queue db),
   Returned (mkHttp 201 (TaskBody (Some task)))).
Proof.
  intros Httl Htask Hitem Hroute Hne task.
  unfold post_task, createTask, insertTask, Database_addToSyncQueue,
    addToSyncQueue, insert_queue_row; unfold_async; simpl.
  apply String.eqb_neq in Httl. rewrite Httl; simpl.
  rewrite Htask; simpl. rewrite Hitem; simpl.
  rewrite queue_has_snoc, Hroute; simpl.
  rewrite (same_id_neq _ _ Hne). unfold with_queue; simpl.
  now rewrite <- app_assoc.
Qed.

Lemma delete_task_run (db : Database) (i : string) (t : Task)
      (uuid_item uuid_route : string) (now : Z) :
  result_of (getTaskById i) db = Returned (Some t) ->
  queue_has uuid_item (sync_queue db) = false ->
  queue_has uuid_route (sync_queue db) = false ->
  uuid_item <> uuid_route ->
  exists db',
    delete_task i uuid_item uuid_route now db =
      (db', Returned (mkHttp 200 SuccessBody)) /\
    sync_queue db' =
    sync_queue db ++
    [mkRow uuid_item i delete
           (JText (JTask (mkTask (id t) (title t) (description t) (completed t)
                                 (created_at t) now true pending (server_id t)
                                 (last_synced_at t))))
           pending (SqlNum now) 0 None;
     mkRow uuid_route i delete (JText JEmpty) pending (SqlIso now) 0 None].
Proof.
  intros Hget Hitem Hroute Hne.
  apply getTaskById_found in Hget as [Hfind Hid].
  unfold delete_task, deleteTask, getTaskById, updateTask,
    Database_addToSyncQueue, addToSyncQueue, insert_queue_row; unfold_async;
    simpl.
  rewrite Hfind; simpl. rewrite Hitem; simpl.
  rewrite queue_has_snoc, Hroute; simpl.
  rewrite (same_id_neq _ _ Hne). simpl.
  eexists. split; [reflexivity|]. simpl. rewrite Hid. now rewrite <- app_assoc.
Qed.

Lemma put_task_run (db : Database) (i : string) (t : Task) (body : PartialTask)
      (uuid_item uuid_route : string) (now : Z) :
  result_of (getTaskById i) db = Returned (Some t) ->
  is_deleted t = false ->
  queue_has uuid_item (sync_queue db) = false ->
  queue_has uuid_route (sync_queue db) = false ->
  uuid_item <> uuid_route ->
  let updated := set_updated_pending (spread t (with_updated_at body now)) now in
  exists db',
    put_task i body uuid_item uuid_route now db =
      (db', Returned (mkHttp 200 (TaskBody (Some updated)))) /\
    sync_queue db' =
    sync_queue db ++
    [mkRow uuid_item (id updated) update (JText (JTask updated)) pending
           (SqlNum now) 0 None;
     mkRow uuid_route i update (JText (JTask updated)) pending (SqlIso now) 0 None].
Proof.
  intros Hget Hlive Hitem Hroute Hne updated.
  apply getTaskById_found in Hget as [Hfind Hid].
  unfold put_task, getTask, taskService_updateTask, getTaskById, updateTask,
    Database_addToSyncQueue, addToSyncQueue, insert_queue_row; unfold_async;
    simpl.
  rewrite Hfind, Hlive; simpl. rewrite Hfind; simpl. rewrite Hitem; simpl.
  rewrite queue_has_snoc, Hroute; simpl.
  rewrite (same_id_neq _ _ Hne). simpl.
  eexists. split; [reflexivity|]. simpl. now rewrite <- app_assoc.
Qed.

(** C2 (what the code does): a create, update or soft-delete that succeeds
    through the task routes leaves two new pending queue entries that
    reference the task, not one: the task service enqueues one and the route
    enqueues another. *)
Theorem task_routes_enqueue_twice :
  forall (db : Database) (uuid_item uuid_route : string) (now : Z),
    queue_has uuid_item (sync_queue db) = false ->
    queue_has uuid_route (sync_queue db) = false ->
    uuid_item <> uuid_route ->
    (forall (ttl : string) (description : option string) (uuid_task : string),
       ttl <> "" ->
       existsb (fun row => same_id (id row) uuid_task) (tasks db) = false ->
       exists db' task,
         post_task (Some ttl) description uuid_task uuid_item uuid_route now db
           = (db', Returned (mkHttp 201 (TaskBody (Some task)))) /\
         List.length (new_pending_entries (id task) db db') = 2%nat) /\
    (forall (i : string) (t : Task) (body : PartialTask),
       result_of (getTaskById i) db = Returned (Some t) ->
       is_deleted t = false ->
       p_id body = None ->
       exists db' updated,
         put_task i body uuid_item uuid_route now db
           = (db', Returned (mkHttp 200 (TaskBody (Some updated)))) /\
         List.length (new_pending_entries i db db') = 2%nat) /\
    (forall (i : string) (t : Task),
       result_of (getTaskById i) db = Returned (Some t) ->
       exists db',
         delete_task i uuid_item uuid_route now db
           = (db', Returned (mkHttp 200 SuccessBody)) /\
         List.length (new_pending_entries i db db') = 2%nat).
Proof.
  intros db uuid_item uuid_route now Hitem Hroute Hne. repeat split.
  - intros ttl description uuid_task Httl Htask.
    do 2 eexists. split.
    + apply post_task_run; assumption.
    + erewrite new_pending_entries_two; [reflexivity | reflexivity | ..];
        simpl; auto.
  - intros i t body Hget Hlive Hbody.
    destruct (put_task_run db i t body uuid_item uuid_route now)
      as (db' & Hrun & Hq); try assumption.
    exists db'. eexists. split; [exact Hrun|].
    erewrite new_pending_entries_two; [reflexivity | exact Hq | ..];
      simpl; auto.
    rewrite Hbody; simpl. now apply getTaskById_found in Hget.
  - intros i t Hget.
    destruct (delete_task_run db i t uuid_item uuid_route now)
      as (db' & Hrun & Hq); try assumption.
    exists db'. split; [exact Hrun|].
    erewrite new_pending_entries_two; [reflexivity | exact Hq | ..];
      simpl; auto.
Qed.

Lemma task_routes_enqueue_twice_witness :
  exists db' task,
    post_task (Some "x") None "t1" "q1" "q2" 5 emptyDb
      = (db', Returned (mkHttp 201 (TaskBody (Some task)))) /\
    List.length (new_pending_entries (id task) emptyDb db') = 2%nat.
Proof.
  refine (proj1 (task_routes_enqueue_twice emptyDb "q1" "q2" 5 eq_refl eq_refl _)
                "x" None "t1" _ eq_refl); discriminate.
Defined.

(** ** A failed batch *)

Lemma sync_throwing_post (db : Database) (post : PostOutcome) (message : string)
      (now : Z) :
  (forall items, processBatch items post now db = (db, Thrown message)) ->
  let items := order_by_task_created (filter is_pending (sync_queue db)) in
  sync post now db =
  (db, Returned
         (match items with
          | [] => mkSyncResult true 0 0 []
          | _ => mkSyncResult false 0 (count items)
                   (map (fun item =>
                           mkSyncError (q_id item) (known (q_operation item))
                                       message now) items)
          end)).
Proof.
  intros Hpost items. unfold sync, select_pending. unfold_async. fold items.
  destruct items as [|x rest] eqn:E; [reflexivity|].
  now rewrite Hpost.
Qed.

(** C1 (what the code does): when the post of the batch throws, on a
    transport failure or on a rejection by the authority, [sync] reports
    every pending entry as failed but leaves the database as it was: no
    entry is marked synced, and no retry_count changes. *)
Theorem sync_failed_batch_leaves_database :
  forall (db : Database) (message : string) (code : Z) (now : Z),
    run_db (sync (NetworkError message) now) db = db /\
    run_db (sync (HttpStatusError code message) now) db = db /\
    sync_queue (run_db (sync (HttpStatusError 400 message) now) db_A) = [entry_A] /\
    q_retry_count entry_A = 0.
Proof.
  intros db message code now. unfold run_db.
  rewrite !(sync_throwing_post _ _ message) by reflexivity. repeat split.
Qed.

(** C8 (what the code does): the task_id field of a reported error holds
    the id of the queue entry, on both paths: the entries of a batch whose
    post threw, and the client_id of a result with status error. *)
Theorem sync_errors_carry_queue_entry_id :
  forall (db : Database) (message : string) (now : Z),
    (exists res,
       result_of (sync (NetworkError message) now) db = Returned res /\
       map e_task_id (errors res) =
       map q_id (order_by_task_created (filter is_pending (sync_queue db)))) /\
    (exists res,
       result_of (sync (Resolved (mkResponse [error_for "q1" message])) now) db_A
         = Returned res /\
       map e_task_id (errors res) = [q_id entry_A] /\
       q_task_id entry_A = "t1" /\ q_id entry_A = "q1").
Proof.
  intros db message now. split.
  - unfold result_of. rewrite (sync_throwing_post _ _ message) by reflexivity.
    simpl.
    eexists. split; [reflexivity|].
    destruct (order_by_task_created _); [reflexivity|].
    simpl. now rewrite map_map.
  - eexists. split; [reflexivity|]. repeat split.
Qed.

(** ** The drain step *)

Section RowOrder.

Lemma string_compare_refl (s : string) : String.compare s s = Eq.
Proof.
  induction s as [|c s IH]; [reflexivity|]. simpl.
  unfold Ascii.compare. now rewrite N.compare_refl.
Qed.

Lemma string_compare_lt_trans (a b c : string) :
  String.compare a b = Lt -> String.compare b c = Lt -> String.compare a c = Lt.
Proof.
  revert b c. induction a as [|x a IH]; intros [|y b] [|z c]; simpl;
    try discriminate; try reflexivity.
  destruct (Ascii.compare x y) eqn:Exy; try discriminate;
    destruct (Ascii.compare y z) eqn:Eyz; try discriminate; intros Hab Hbc.
  - apply Ascii.compare_eq_iff in Exy, Eyz. subst.
    unfold Ascii.compare. rewrite N.compare_refl. now apply IH with b.
  - apply Ascii.compare_eq_iff in Exy. subst. now rewrite Eyz.
  - apply Ascii.compare_eq_iff in Eyz. subst. now rewrite Exy.
  - unfold Ascii.compare in *. rewrite N.compare_lt_iff in *.
    assert (H : (Ascii.N_of_ascii x < Ascii.N_of_ascii z)%N) by lia.
    apply N.compare_lt_iff in H. now rewrite H.
Qed.

Lemma string_compare_le_trans (a b c : string) :
  String.compare a b <> Gt -> String.compare b c <> Gt ->
  String.compare a c <> Gt.
Proof.
  intros Hab Hbc.
  destruct (String.compare a b) eqn:Eab; [| |congruence].
  - apply String.compare_eq_iff in Eab. now subst.
  - destruct (String.compare b c) eqn:Ebc; [| |congruence].
    + apply String.compare_eq_iff in Ebc. subst. now rewrite Eab.
    + now rewrite (string_compare_lt_trans a b c Eab Ebc).
Qed.

Lemma sqldate_compare_trans (a b c : SqlDate) :
  sqldate_compare a b <> Gt -> sqldate_compare b c <> Gt ->
  sqldate_compare a c <> Gt.
Proof.
  destruct a, b, c; simpl; try congruence.
  - rewrite ?Z.compare_gt_iff; lia.
  - apply string_compare_le_trans.
Qed.

Lemma sqldate_compare_total (a b : SqlDate) :
  sqldate_compare a b = Gt -> sqldate_compare b a <> Gt.
Proof.
  destruct a, b; simpl; try congruence.
  - rewrite ?Z.compare_gt_iff; lia.
  - rewrite (String.compare_antisym (toISOString ms0)). intros ->. discriminate.
Qed.

(** The comparison of the model against the order spelled out. *)
Lemma sqldate_compare_spec (a b : SqlDate) :
  sqldate_compare a b <> Gt <-> stored_before a b.
Proof.
  destruct a as [x|x], b as [y|y]; simpl.
  - reflexivity.
  - split; [trivial | discriminate].
  - split; [congruence | contradiction].
  - unfold String.leb.
    destruct (String.compare (toISOString x) (toISOString y)); split;
      congruence.
Qed.

Lemma row_leb_spec (a b : QueueRow) :
  row_leb a b = true <-> task_then_created a b.
Proof.
  unfold row_leb, row_compare, task_then_created.
  rewrite <- sqldate_compare_spec.
  destruct (String.compare (q_task_id a) (q_task_id b)) eqn:E.
  - apply String.compare_eq_iff in E. split.
    + intros H. right. split; [exact E|].
      intros G. now rewrite G in H.
    + intros [H|[_ H]]; [discriminate|].
      destruct (sqldate_compare _ _); congruence.
  - split; [now left | reflexivity].
  - split; [discriminate|]. intros [H|[H _]]; [discriminate|].
    rewrite H, string_compare_refl in E. discriminate.
Qed.

Lemma task_then_created_total (a b : QueueRow) :
  row_leb a b = false -> task_then_created b a.
Proof.
  unfold row_leb, row_compare, task_then_created.
  rewrite <- sqldate_compare_spec.
  rewrite (String.compare_antisym (q_task_id b) (q_task_id a)).
  destruct (String.compare (q_task_id a) (q_task_id b)) eqn:E; simpl.
  - apply String.compare_eq_iff in E. intros H. right. split; [now symmetry|].
    apply sqldate_compare_total.
    destruct (sqldate_compare _ _); congruence.
  - discriminate.
  - now left.
Qed.

Lemma task_then_created_trans (a b c : QueueRow) :
  task_then_created a b -> task_then_created b c -> task_then_created a c.
Proof.
  unfold task_then_created. rewrite <- !sqldate_compare_spec.
  intros [Hab|[Hab Dab]] [Hbc|[Hbc Dbc]].
  - left. eapply string_compare_lt_trans; eassumption.
  - left. now rewrite <- Hbc.
  - left. now rewrite Hab.
  - right. split; [congruence|]. eapply sqldate_compare_trans; eassumption.
Qed.

Lemma insert_sorted_perm (r : QueueRow) (l : list QueueRow) :
  Permutation (insert_sorted r l) (r :: l).
Proof.
  induction l as [|x l IH]; simpl; [reflexivity|].
  destruct (row_leb r x); [reflexivity|].
  rewrite IH. apply perm_swap.
Qed.

Lemma order_by_task_created_perm (l : list QueueRow) :
  Permutation (order_by_task_created l) l.
Proof.
  induction l as [|x l IH]; simpl; [reflexivity|].
  rewrite insert_sorted_perm. now constructor.
Qed.

Lemma insert_sorted_Sorted (r : QueueRow) (l : list QueueRow) :
  Sorted task_then_created l -> Sorted task_then_created (insert_sorted r l).
Proof.
  induction 1 as [|x l Hl IH Hhd]; simpl.
  - repeat constructor.
  - destruct (row_leb r x) eqn:E.
    + constructor; [now constructor|]. constructor. now apply row_leb_spec.
    + constructor; [exact IH|].
      destruct Hhd as [|y l' Hxy]; simpl.
      * constructor. now apply task_then_created_total.
      * destruct (row_leb r y); constructor;
          [now apply task_then_created_total | exact Hxy].
Qed.

Lemma order_by_task_created_sorted (l : list QueueRow) :
  StronglySorted task_then_created (order_by_task_created l).
Proof.
  apply Sorted_StronglySorted.
  - intros a b c. apply task_then_created_trans.
  - induction l as [|x l IH]; simpl; [constructor|].
    now apply insert_sorted_Sorted.
Qed.

End RowOrder.

(** What holds of the drain: it selects exactly the rows whose status is
    pending, hands them out sorted by task_id and then by the stored value
    of created_at, and leaves the database as it was; a cycle whose response
    names no entry changes nothing either. *)
Theorem select_pending_spec :
  forall (db : Database),
  exists items,
    select_pending db = (db, Returned items) /\
    (forall r, In r items <-> In r (sync_queue db) /\ q_status r = pending) /\
    Permutation items (filter is_pending (sync_queue db)) /\
    StronglySorted task_then_created items /\
    (forall now, run_db (sync (Resolved (mkResponse [])) now) db = db).
Proof.
  intros db. eexists. split; [reflexivity|].
  split; [|split; [apply order_by_task_created_perm|
                   split; [apply order_by_task_created_sorted|]]].
  - intros r. split.
    + intros H.
      apply (Permutation_in _ (order_by_task_created_perm _)) in H.
      apply filter_In in H as [H P]. split; [exact H|].
      unfold is_pending in P. now destruct (q_status r).
    + intros [H P].
      apply (Permutation_in _ (Permutation_sym (order_by_task_created_perm _))).
      apply filter_In. split; [exact H|]. unfold is_pending. now rewrite P.
  - intros now. unfold run_db, sync, select_pending. unfold_async.
    now destruct (order_by_task_created _).
Qed.

(** ** Recording a failure *)

Lemma unique_ids_eq (q : list QueueRow) (a b : QueueRow) :
  unique_ids q -> In a q -> In b q -> q_id a = q_id b -> a = b.
Proof.
  unfold unique_ids. induction q as [|x q IH]; simpl; [contradiction|].
  intros Hnd Ha Hb Hid. inversion Hnd as [|? ? Hx Hq]; subst.
  destruct Ha as [->|Ha], Hb as [->|Hb]; auto.
  - exfalso. apply Hx. rewrite Hid. now apply in_map.
  - exfalso. apply Hx. rewrite <- Hid. now apply in_map.
Qed.

Lemma update_rows_ids (i : string) (f : QueueRow -> QueueRow) (q : list QueueRow) :
  (forall row, q_id (f row) = q_id row) ->
  map q_id (update_rows i f q) = map q_id q.
Proof.
  intros Hf. unfold update_rows. rewrite map_map. apply map_ext. intros row.
  destruct (same_id (q_id row) i); [apply Hf | reflexivity].
Qed.

Lemma update_rows_In (f : QueueRow -> QueueRow) (q : list QueueRow) (e : QueueRow) :
  In e q -> In (f e) (update_rows (q_id e) f q).
Proof.
  intros H. apply in_map_iff. exists e. now rewrite same_id_refl.
Qed.

Lemma delete_rows_absent (i : string) (q : list QueueRow) :
  queue_has i (delete_rows i q) = false.
Proof.
  unfold queue_has, delete_rows. induction q as [|x q IH]; simpl; [reflexivity|].
  destruct (same_id (q_id x) i) eqn:E; simpl; [exact IH|]. now rewrite E.
Qed.

Lemma handleSyncError_below_ceiling (db : Database) (e : QueueRow)
      (message : string) (now : Z) :
  q_retry_count e + 1 < maxRetries ->
  handleSyncError e message now db =
  (with_queue db
     (update_rows (q_id e) (retry_row (q_retry_count e + 1) message)
                  (sync_queue db)),
   Returned tt).
Proof.
  intros H. unfold handleSyncError.
  destruct (Z.leb_spec maxRetries (q_retry_count e + 1)); [lia|]. reflexivity.
Qed.

Lemma handleSyncError_at_ceiling (db : Database) (e : QueueRow)
      (message : string) (now : Z) :
  maxRetries <= q_retry_count e + 1 ->
  dead_has (q_id e) (dead_letter_queue db) = false ->
  handleSyncError e message now db =
  (mkDb (tasks db)
        (delete_rows (q_id e) (sync_queue db))
        (dead_letter_queue db ++
         [mkDead (q_id e) (q_task_id e) (q_operation e) (JText (q_data e))
                 (q_created_at e) (Some message) now]),
   Returned tt).
Proof.
  intros H Hfresh. unfold handleSyncError, dead_has in *.
  destruct (Z.leb_spec maxRetries (q_retry_count e + 1)); [|lia].
  unfold addToDeadLetterQueue, delete_queue_row. unfold_async. simpl.
  now rewrite Hfresh.
Qed.

(** One recorded failure of a row of the queue. *)
Lemma handleSyncError_spec (db : Database) (e : QueueRow) (message : string)
      (now : Z) :
  unique_ids (sync_queue db) ->
  In e (sync_queue db) ->
  dead_has (q_id e) (dead_letter_queue db) = false ->
  exists db',
    handleSyncError e message now db = (db', Returned tt) /\
    tasks db' = tasks db /\
    (maxRetries <= q_retry_count e + 1 ->
       queue_has (q_id e) (sync_queue db') = false /\
       dead_letter_queue db' =
       dead_letter_queue db ++
       [mkDead (q_id e) (q_task_id e) (q_operation e) (JText (q_data e))
               (q_created_at e) (Some message) now]) /\
    (q_retry_count e + 1 < maxRetries ->
       dead_letter_queue db' = dead_letter_queue db /\
       unique_ids (sync_queue db') /\
       In (retried e message) (sync_queue db') /\
       q_status (retried e message) = pending /\
       q_retry_count (retried e message) = q_retry_count e + 1 /\
       q_error_message (retried e message) = Some message).
Proof.
  intros Hu He Hfresh.
  destruct (Z.leb_spec maxRetries (q_retry_count e + 1)) as [Hc|Hc].
  - eexists. split; [now apply handleSyncError_at_ceiling|]. simpl.
    split; [reflexivity|]. split; [|lia]. intros _.
    split; [apply delete_rows_absent | reflexivity].
  - eexists. split; [now apply handleSyncError_below_ceiling|]. simpl.
    split; [reflexivity|]. split; [lia|]. intros _.
    split; [reflexivity|]. split; [|split; [|repeat split]].
    + unfold unique_ids. now rewrite update_rows_ids.
    + apply (update_rows_In (retry_row (q_retry_count e + 1) message) _ e He).
Qed.

Lemma pending_selected (db : Database) (e : QueueRow) :
  In e (sync_queue db) -> q_status e = pending ->
  In e (order_by_task_created (filter is_pending (sync_queue db))).
Proof.
  intros He Hp.
  apply (Permutation_in _ (Permutation_sym (order_by_task_created_perm _))).
  apply filter_In. split; [exact He|]. unfold is_pending. now rewrite Hp.
Qed.

Lemma selected_in_queue (db : Database) (e : QueueRow) :
  In e (order_by_task_created (filter is_pending (sync_queue db))) ->
  In e (sync_queue db).
Proof.
  intros H. apply (Permutation_in _ (order_by_task_created_perm _)) in H.
  now apply filter_In in H.
Qed.

(** [toISOString] at instants whose text is known, and the byte order of
    the texts either side of the year 10000. *)
Lemma toISOString_examples :
  toISOString 0 = "1970-01-01T00:00:00.000Z" /\
  toISOString 1000 = "1970-01-01T00:00:01.000Z" /\
  toISOString (-1) = "1969-12-31T23:59:59.999Z" /\
  toISOString 951782400000 = "2000-02-29T00:00:00.000Z" /\
  toISOString 1700000000123 = "2023-11-14T22:13:20.123Z" /\
  toISOString 253402300799999 = "9999-12-31T23:59:59.999Z" /\
  toISOString 253402300800000 = "+010000-01-01T00:00:00.000Z" /\
  toISOString (-62167219200001) = "-000001-12-31T23:59:59.999Z" /\
  toISOString max_time = "+275760-09-13T00:00:00.000Z" /\
  sqldate_compare (SqlIso 253402300799999) (SqlIso 253402300800000) = Gt.
Proof. vm_compute. repeat split. Qed.

Lemma sorted_prefix_before {A} (R : A -> A -> Prop) (l1 : list A) (a : A)
      (rest : list A) :
  StronglySorted R (l1 ++ a :: rest) -> forall b, In b l1 -> R b a.
Proof.
  induction l1 as [|x l1 IH]; simpl; intros Hs b Hb; [contradiction|].
  apply StronglySorted_inv in Hs as [Hs Hx].
  destruct Hb as [->|Hb]; [|now apply IH].
  rewrite Forall_forall in Hx. apply Hx. apply in_or_app. right. now left.
Qed.

(** C7 (what the code does): the drain hands out exactly the pending rows
    and leaves the database alone, but not in the order of their creation.
    Within a task, every row whose created_at was bound as a number (the
    entries of the task service) is drained before every row whose
    created_at is an ISO text (the entries of the routes), whatever the two
    instants. After PUT /t1 at the clock 1000 and again at 2000 the drain is
    s1, s2, r1, r2: r1, created at 1000, comes after s2, created at 2000. *)
Theorem drain_ignores_creation_time :
  (forall (db : Database) (a b : QueueRow) (x y : Z),
     In a (sync_queue db) -> In b (sync_queue db) ->
     q_status a = pending -> q_status b = pending ->
     q_task_id a = q_task_id b ->
     q_created_at a = SqlNum x -> q_created_at b = SqlIso y ->
     exists items l1 l2 l3,
       select_pending db = (db, Returned items) /\
       (forall r, In r items <-> In r (sync_queue db) /\ q_status r = pending) /\
       items = l1 ++ a :: l2 ++ b :: l3) /\
  map (fun r => (q_id r, q_created_at r)) (sync_queue db_two_puts) =
    [("s1", SqlNum 1000); ("r1", SqlIso 1000);
     ("s2", SqlNum 2000); ("r2", SqlIso 2000)] /\
  (exists items,
     result_of select_pending db_two_puts = Returned items /\
     map (fun r => (q_id r, q_created_at r)) items =
       [("s1", SqlNum 1000); ("s2", SqlNum 2000);
        ("r1", SqlIso 1000); ("r2", SqlIso 2000)]).
Proof.
  split; [|split; [now vm_compute | eexists; split; [reflexivity | now vm_compute]]].
  intros db a b x y Ha Hb Hpa Hpb Htask Hca Hcb.
  set (items := order_by_task_created (filter is_pending (sync_queue db))).
  pose proof (pending_selected db a Ha Hpa) as Hia.
  pose proof (pending_selected db b Hb Hpb) as Hib.
  fold items in Hia, Hib.
  pose proof (order_by_task_created_sorted (filter is_pending (sync_queue db)))
    as Hsorted. fold items in Hsorted.
  destruct (in_split a items Hia) as (l1 & rest & Hsplit).
  assert (Hnot : ~ task_then_created b a).
  { unfold task_then_created. rewrite Htask, Hca, Hcb, string_compare_refl.
    simpl. intros [H|[_ H]]; [discriminate | exact H]. }
  assert (Hrest : In b rest).
  { rewrite Hsplit in Hib. apply in_app_or in Hib as [Hb1|[Hba|Hbr]].
    - exfalso. apply Hnot. rewrite Hsplit in Hsorted.
      now apply (sorted_prefix_before _ l1 a rest Hsorted).
    - exfalso. subst b. congruence.
    - exact Hbr. }
  destruct (in_split b rest Hrest) as (l2 & l3 & Hsplit2).
  exists items, l1, l2, l3. split; [reflexivity|]. split.
  - intros r. split.
    + intros H. split; [now apply selected_in_queue |].
      apply (Permutation_in _ (order_by_task_created_perm _)) in H.
      apply filter_In in H as [_ H]. unfold is_pending in H.
      now destruct (q_status r).
    + intros [H P]. now apply pending_selected.
  - now rewrite Hsplit, Hsplit2.
Qed.

Lemma drain_ignores_creation_time_witness :
  let s2 := nth 2 (sync_queue db_two_puts) entry_A in
  let r1 := nth 1 (sync_queue db_two_puts) entry_A in
  q_created_at s2 = SqlNum 2000 /\ q_created_at r1 = SqlIso 1000 /\
  exists items l1 l2 l3,
    select_pending db_two_puts = (db_two_puts, Returned items) /\
    items = l1 ++ s2 :: l2 ++ r1 :: l3.
Proof.
  intros s2 r1. split; [reflexivity|]. split; [reflexivity|].
  destruct (proj1 drain_ignores_creation_time db_two_puts s2 r1 2000 1000)
    as (items & l1 & l2 & l3 & Hrun & _ & Hsplit);
    try reflexivity.
  - vm_compute. tauto.
  - vm_compute. tauto.
  - now exists items, l1, l2, l3.
Defined.

Lemma find_item_selected (db : Database) (e : QueueRow) :
  unique_ids (sync_queue db) ->
  In e (sync_queue db) -> q_status e = pending ->
  find_item (order_by_task_created (filter is_pending (sync_queue db))) (q_id e)
  = Some e.
Proof.
  intros Hu He Hp. unfold find_item.
  destruct (find _ _) as [x|] eqn:F.
  - apply find_some in F as [Hx Hid]. apply String.eqb_eq in Hid.
    f_equal. apply (unique_ids_eq (sync_queue db)); auto.
    now apply selected_in_queue.
  - pose proof (find_none _ _ F e (pending_selected db e He Hp)) as Hne.
    simpl in Hne. now rewrite same_id_refl in Hne.
Qed.

(** A cycle whose only result is an error for [e] does to the database what
    [handleSyncError] does for [e]. *)
Lemma failing_cycle_run (db : Database) (e : QueueRow) (message : string)
      (now : Z) :
  unique_ids (sync_queue db) ->
  In e (sync_queue db) -> q_status e = pending ->
  run_db (failing_cycle (q_id e) message now) db =
  run_db (handleSyncError e (string_or (Some message) "Unknown error") now) db.
Proof.
  intros Hu He Hp.
  pose proof (find_item_selected db e Hu He Hp) as Hfind.
  pose proof (pending_selected db e He Hp) as Hin.
  unfold run_db, failing_cycle, sync, select_pending. unfold_async.
  destruct (order_by_task_created _) as [|x rest] eqn:E; [contradiction|].
  unfold processBatch, for_each, apply_result. unfold_async.
  unfold error_for. cbn [processed_items client_id]. rewrite Hfind.
  cbn [r_status resolved_data r_error].
  destruct (handleSyncError e _ now db) as [db' [u|err]]; reflexivity.
Qed.

Lemma failing_cycle_below_ceiling (db : Database) (e : QueueRow)
      (message : string) (now : Z) :
  unique_ids (sync_queue db) ->
  In e (sync_queue db) -> q_status e = pending ->
  q_retry_count e + 1 < maxRetries ->
  let db' := run_db (failing_cycle (q_id e) message now) db in
  unique_ids (sync_queue db') /\
  In (retried e (string_or (Some message) "Unknown error")) (sync_queue db') /\
  dead_letter_queue db' = dead_letter_queue db.
Proof.
  intros Hu He Hp Hc db'. subst db'.
  rewrite failing_cycle_run by assumption. unfold run_db.
  rewrite handleSyncError_below_ceiling by assumption. simpl.
  split; [|split; [|reflexivity]].
  - unfold unique_ids. now rewrite update_rows_ids.
  - apply (update_rows_In (retry_row (q_retry_count e + 1) _) _ e He).
Qed.

Lemma failing_cycle_at_ceiling (db : Database) (e : QueueRow)
      (message : string) (now : Z) :
  unique_ids (sync_queue db) ->
  In e (sync_queue db) -> q_status e = pending ->
  dead_has (q_id e) (dead_letter_queue db) = false ->
  maxRetries <= q_retry_count e + 1 ->
  let db' := run_db (failing_cycle (q_id e) message now) db in
  queue_has (q_id e) (sync_queue db') = false /\
  dead_has (q_id e) (dead_letter_queue db') = true.
Proof.
  intros Hu He Hp Hfresh Hc db'. subst db'.
  rewrite failing_cycle_run by assumption. unfold run_db.
  rewrite handleSyncError_at_ceiling by assumption. simpl.
  split; [apply delete_rows_absent|].
  unfold dead_has. rewrite existsb_app. simpl.
  now rewrite same_id_refl, orb_true_r.
Qed.

(** C6: recording a failure of a row [e] of the queue returns; when
    retry_count + 1 reaches 3 the row is written to the dead-letter store
    and no row with its id is left in the queue; otherwise the row stays in
    the queue with status pending, retry_count + 1 and the error message.
    Hence a fresh pending entry that fails in two cycles is pending with
    retry_count = 2, and after a third failing cycle it is in the
    dead-letter store and not in the queue. *)
Theorem record_failure_retry_ceiling :
  (forall (db : Database) (e : QueueRow) (message : string) (now : Z),
     unique_ids (sync_queue db) ->
     In e (sync_queue db) ->
     dead_has (q_id e) (dead_letter_queue db) = false ->
     exists db',
       handleSyncError e message now db = (db', Returned tt) /\
       tasks db' = tasks db /\
       (maxRetries <= q_retry_count e + 1 ->
          queue_has (q_id e) (sync_queue db') = false /\
          dead_letter_queue db' =
          dead_letter_queue db ++
          [mkDead (q_id e) (q_task_id e) (q_operation e) (JText (q_data e))
                  (q_created_at e) (Some message) now]) /\
       (q_retry_count e + 1 < maxRetries ->
          dead_letter_queue db' = dead_letter_queue db /\
          unique_ids (sync_queue db') /\
          In (retried e message) (sync_queue db') /\
          q_status (retried e message) = pending /\
          q_retry_count (retried e message) = q_retry_count e + 1 /\
          q_error_message (retried e message) = Some message)) /\
  (forall (db : Database) (e : QueueRow) (m1 m2 m3 : string) (n1 n2 n3 : Z),
     unique_ids (sync_queue db) ->
     In e (sync_queue db) ->
     q_status e = pending ->
     q_retry_count e = 0 ->
     dead_has (q_id e) (dead_letter_queue db) = false ->
     let db1 := run_db (failing_cycle (q_id e) m1 n1) db in
     let db2 := run_db (failing_cycle (q_id e) m2 n2) db1 in
     let db3 := run_db (failing_cycle (q_id e) m3 n3) db2 in
     (exists e2,
        In e2 (sync_queue db2) /\ q_id e2 = q_id e /\ q_status e2 = pending /\
        q_retry_count e2 = 2 /\
        dead_has (q_id e) (dead_letter_queue db2) = false) /\
     queue_has (q_id e) (sync_queue db3) = false /\
     dead_has (q_id e) (dead_letter_queue db3) = true).
Proof.
  split; [exact handleSyncError_spec|].
  intros db e m1 m2 m3 n1 n2 n3 Hu He Hp H0 Hfresh db1 db2 db3.
  destruct (failing_cycle_below_ceiling db e m1 n1) as (Hu1 & He1 & Hd1);
    try assumption; [unfold maxRetries; lia|]. fold db1 in Hu1, He1, Hd1.
  set (e1 := retried e (string_or (Some m1) "Unknown error")) in *.
  destruct (failing_cycle_below_ceiling db1 e1 m2 n2) as (Hu2 & He2 & Hd2);
    try assumption; [reflexivity | simpl; unfold maxRetries; lia|].
  change (q_id e1) with (q_id e) in *. fold db2 in Hu2, He2, Hd2.
  set (e2 := retried e1 (string_or (Some m2) "Unknown error")) in *.
  split.
  - exists e2. repeat split; [exact He2 | simpl; lia | congruence].
  - apply (failing_cycle_at_ceiling db2 e2 m3 n3); try assumption.
    + reflexivity.
    + simpl. congruence.
    + simpl. unfold maxRetries. lia.
Qed.

Lemma record_failure_retry_ceiling_witness :
  (exists db',
     handleSyncError entry_A "boom" 7 db_A = (db', Returned tt) /\
     In (retried entry_A "boom") (sync_queue db')) /\
  (exists e2,
     In e2 (sync_queue (run_db (failing_cycle "q1" "boom" 8)
                          (run_db (failing_cycle "q1" "boom" 7) db_A))) /\
     q_id e2 = "q1" /\ q_status e2 = pending /\ q_retry_count e2 = 2) /\
  queue_has "q1"
    (sync_queue (run_db (failing_cycle "q1" "boom" 9)
                   (run_db (failing_cycle "q1" "boom" 8)
                      (run_db (failing_cycle "q1" "boom" 7) db_A)))) = false /\
  dead_has "q1"
    (dead_letter_queue (run_db (failing_cycle "q1" "boom" 9)
                          (run_db (failing_cycle "q1" "boom" 8)
                             (run_db (failing_cycle "q1" "boom" 7) db_A)))) = true.
Proof.
  assert (Hu : unique_ids (sync_queue db_A))
    by (repeat constructor; simpl; tauto).
  assert (He : In entry_A (sync_queue db_A)) by (simpl; now left).
  split.
  - destruct (proj1 record_failure_retry_ceiling db_A entry_A "boom" 7 Hu He
                    eq_refl) as (db' & Hrun & _ & _ & Hbelow).
    exists db'. split; [exact Hrun|]. apply Hbelow. reflexivity.
  - destruct (proj2 record_failure_retry_ceiling db_A entry_A "boom" "boom"
                    "boom" 7 8 9 Hu He eq_refl eq_refl eq_refl)
      as ((e2 & H1 & H2 & H3 & H4 & _) & Hq & Hd).
    split; [|split; [exact Hq | exact Hd]].
    exists e2. auto.
Defined.

(** ** A successful item *)

Lemma resolveConflict_pure (a b : Json) (op1 op2 : Operation) (db : Database) :
  fst (resolveConflict a b op1 op2 db) = db.
Proof.
  unfold resolveConflict.
  destruct (updated_time a); [|reflexivity].
  destruct (updated_time b); [|reflexivity].
  destruct (js_gt _ _); [reflexivity|]. now destruct (js_gt _ _).
Qed.

Lemma find_item_id (items : list QueueRow) (i : string) (item : QueueRow) :
  find_item items i = Some item -> q_id item = i.
Proof.
  intros H. apply find_some in H as [_ H]. now apply String.eqb_eq.
Qed.

(** What one step of the loop can do to the two tables: the queue is left
    alone, or its rows with the result's client_id are rewritten or deleted;
    the tasks are left alone, or one task version with status synced is
    written. *)
Lemma apply_result_shape (items : list QueueRow) (now : Z) (x : ProcessedItem)
      (db : Database) :
  let db1 := fst (apply_result items now x db) in
  (sync_queue db1 = sync_queue db \/
   (exists f, (forall row, q_id (f row) = q_id row) /\
              sync_queue db1 = update_rows (client_id x) f (sync_queue db)) \/
   sync_queue db1 = delete_rows (client_id x) (sync_queue db)) /\
  (tasks db1 = tasks db \/
   exists U, sync_status U = synced /\
             (r_status x <> st_conflict -> server_id U <> None) /\
             tasks db1 = replace_task U (tasks db)).
Proof.
  unfold apply_result.
  destruct (find_item items (client_id x)) as [item|] eqn:F; [|simpl; auto].
  apply find_item_id in F. rewrite <- F.
  assert (Herr : forall m,
    let db1 := fst (handleSyncError item m now db) in
    (sync_queue db1 = sync_queue db \/
     (exists f, (forall row, q_id (f row) = q_id row) /\
                sync_queue db1 = update_rows (q_id item) f (sync_queue db)) \/
     sync_queue db1 = delete_rows (q_id item) (sync_queue db)) /\
    tasks db1 = tasks db).
  { intros m. unfold handleSyncError.
    destruct (maxRetries <=? q_retry_count item + 1).
    - unfold addToDeadLetterQueue, delete_queue_row. unfold_async. simpl.
      destruct (existsb _ _); simpl; auto.
    - simpl. split; [|reflexivity]. right. left. eexists. split; [|reflexivity].
      reflexivity. }
  destruct (r_status x) eqn:S.
  - unfold set_synced_clear, update_queue, updateTaskAfterSync, getTaskById,
      updateTask. unfold_async. simpl.
    destruct (find _ (tasks db)) as [t|]; simpl.
    + split.
      * right. left. exists synced_clear_row. split; reflexivity.
      * right. eexists. split; [|split; [|reflexivity]]; simpl; congruence.
    + split; [|now left].
      right. left. exists synced_clear_row. split; reflexivity.
  - destruct (resolved_data x) as [serverTask|].
    + destruct (JSON_parse (q_data item)) as [localTask|]; [|simpl; auto].
      unfold_async.
      pose proof (resolveConflict_pure localTask (JTask serverTask)
                    (q_operation item) (or_else (r_operation x) update) db) as P.
      destruct (resolveConflict _ _ _ _ db) as [db2 [res|err]]; simpl in P;
        subst db2; [|simpl; auto].
      unfold saveResolvedTask, set_synced, update_queue, updateTask.
      destruct (resolved_task res); simpl;
        (split; [right; left; exists synced_row; split; reflexivity|]);
        auto.
      right. eexists. split; [|split; [|reflexivity]]; simpl; congruence.
    + destruct (Herr (string_or (r_error x) "Unknown error")) as [Hq Ht].
      split; [exact Hq | now left].
  - destruct (Herr (string_or (r_error x) "Unknown error")) as [Hq Ht].
    destruct (resolved_data x); (split; [exact Hq | now left]).
Qed.

Lemma queue_has_update_rows (i j : string) (f : QueueRow -> QueueRow)
      (q : list QueueRow) :
  (forall row, q_id (f row) = q_id row) ->
  queue_has i (update_rows j f q) = queue_has i q.
Proof.
  intros Hf. unfold queue_has, update_rows.
  induction q as [|x q IH]; simpl; [reflexivity|]. rewrite IH. f_equal.
  destruct (same_id (q_id x) j); [now rewrite Hf | reflexivity].
Qed.

Lemma queue_has_delete_other (i j : string) (q : list QueueRow) :
  j <> i -> queue_has i (delete_rows j q) = queue_has i q.
Proof.
  intros Hne. unfold queue_has, delete_rows.
  induction q as [|x q IH]; simpl; [reflexivity|].
  destruct (same_id (q_id x) j) eqn:E; simpl; [|now rewrite IH].
  apply String.eqb_eq in E. rewrite IH, E, (same_id_neq _ _ Hne). reflexivity.
Qed.

Lemma update_rows_other (i j : string) (f : QueueRow -> QueueRow)
      (q : list QueueRow) (row : QueueRow) :
  (forall r, q_id (f r) = q_id r) -> j <> i ->
  In row (update_rows j f q) -> q_id row = i -> In row q.
Proof.
  intros Hf Hne Hin Hid. apply in_map_iff in Hin as (row0 & Heq & H0).
  destruct (same_id (q_id row0) j) eqn:E; [|now subst].
  apply String.eqb_eq in E. subst row. rewrite Hf in Hid. congruence.
Qed.

Lemma update_rows_own (i : string) (f : QueueRow -> QueueRow)
      (q : list QueueRow) (row : QueueRow) :
  (forall r, q_id (f r) = q_id r) ->
  In row (update_rows i f q) -> q_id row = i -> exists row0, row = f row0.
Proof.
  intros Hf Hin Hid. apply in_map_iff in Hin as (row0 & Heq & H0).
  destruct (same_id (q_id row0) i) eqn:E; [now exists row0|].
  subst row0. now rewrite Hid, same_id_refl in E.
Qed.

Lemma replace_task_stored (U : Task) (taskId : string) (l : list Task) :
  existsb (fun row => same_id (id row) taskId) (replace_task U l) =
  existsb (fun row => same_id (id row) taskId) l.
Proof.
  unfold replace_task. induction l as [|x l IH]; simpl; [reflexivity|].
  rewrite IH. f_equal. now destruct (same_id (id x) (id U)).
Qed.

Lemma replace_task_In (U row : Task) (l : list Task) :
  In row (replace_task U l) ->
  In row l \/
  (id row = id U /\ sync_status row = sync_status U /\
   server_id row = server_id U).
Proof.
  intros Hin. apply in_map_iff in Hin as (row0 & Heq & H0).
  destruct (same_id (id row0) (id U)) eqn:E; [|left; now subst].
  right. apply String.eqb_eq in E. subst row. simpl. auto.
Qed.

Lemma replace_task_own (U row : Task) (l : list Task) :
  In row (replace_task U l) -> id row = id U ->
  sync_status row = sync_status U /\ server_id row = server_id U.
Proof.
  intros Hin Hid. apply in_map_iff in Hin as (row0 & Heq & H0).
  destruct (same_id (id row0) (id U)) eqn:E; [subst row; simpl; auto|].
  subst row0. now rewrite Hid, same_id_refl in E.
Qed.

Section SuccessfulEntry.

Variables (items : list QueueRow) (now : Z) (e : QueueRow).
Hypothesis e_found : find_item items (q_id e) = Some e.

(** A result for another entry leaves the rows of [e] alone, and no step
    takes a task away, or its status synced. *)
Lemma apply_result_other (x : ProcessedItem) (db : Database) :
  let db1 := fst (apply_result items now x db) in
  (client_id x <> q_id e ->
     (row_kept (q_id e) db -> row_kept (q_id e) db1) /\
     (rows_synced (q_id e) db -> rows_synced (q_id e) db1)) /\
  (task_stored (q_task_id e) db -> task_stored (q_task_id e) db1) /\
  (task_synced (q_task_id e) db -> task_synced (q_task_id e) db1) /\
  (r_status x <> st_conflict ->
     task_has_server_id (q_task_id e) db ->
     task_has_server_id (q_task_id e) db1).
Proof.
  intros db1. destruct (apply_result_shape items now x db) as [Hq Ht].
  fold db1 in Hq, Ht. split; [intros Hne; split|split; [|split]].
  - unfold row_kept.
    destruct Hq as [->|[(f & Hf & ->)| ->]]; auto.
    + now rewrite queue_has_update_rows.
    + now rewrite queue_has_delete_other.
  - unfold rows_synced. intros H row Hin Hid. apply H; [|exact Hid].
    destruct Hq as [Hq|[(f & Hf & Hq)|Hq]]; rewrite Hq in Hin; auto.
    + now apply (update_rows_other (q_id e) (client_id x) f).
    + unfold delete_rows in Hin. now apply filter_In in Hin.
  - unfold task_stored. destruct Ht as [->|(U & _ & _ & ->)]; auto.
    now rewrite replace_task_stored.
  - unfold task_synced. intros H row Hin Hid.
    destruct Ht as [Ht|(U & HU & _ & Ht)]; rewrite Ht in Hin; auto.
    apply replace_task_In in Hin as [Hin|(_ & Hs & _)]; auto. congruence.
  - unfold task_has_server_id. intros Hnc H row Hin Hid.
    destruct Ht as [Ht|(U & _ & HU & Ht)]; rewrite Ht in Hin; auto.
    apply replace_task_In in Hin as [Hin|(_ & _ & Hs)]; auto.
    rewrite Hs. now apply HU.
Qed.

(** The success result of [e] itself: what it leaves in the queue ... *)
Lemma apply_result_own_queue (x : ProcessedItem) (db : Database) :
  client_id x = q_id e -> r_status x = st_success ->
  let db1 := fst (apply_result items now x db) in
  (row_kept (q_id e) db -> row_kept (q_id e) db1) /\
  rows_synced (q_id e) db1.
Proof.
  intros Hid Hs. unfold apply_result. rewrite Hid, e_found, Hs.
  unfold set_synced_clear, update_queue, updateTaskAfterSync, getTaskById,
    updateTask. unfold_async. simpl.
  unfold row_kept, rows_synced.
  destruct (find _ (tasks db)); simpl; split.
  all: try (intros H; now rewrite queue_has_update_rows).
  all: intros row Hin Hrow; apply update_rows_own in Hin as [row0 ->]; auto.
Qed.

(** ... and what it leaves of a task that is stored. *)
Lemma apply_result_own_task (x : ProcessedItem) (db : Database) :
  client_id x = q_id e -> r_status x = st_success ->
  task_stored (q_task_id e) db ->
  let db1 := fst (apply_result items now x db) in
  task_stored (q_task_id e) db1 /\ task_synced (q_task_id e) db1 /\
  task_has_server_id (q_task_id e) db1.
Proof.
  intros Hid Hs Hstored. unfold apply_result. rewrite Hid, e_found, Hs.
  unfold set_synced_clear, update_queue, updateTaskAfterSync, getTaskById,
    updateTask. unfold_async. simpl.
  unfold task_stored in Hstored.
  destruct (find (fun row => same_id (id row) (q_task_id e)) (tasks db))
    as [t|] eqn:F.
  - apply find_some in F as [_ Ht]. apply String.eqb_eq in Ht. simpl.
    repeat split.
    + unfold task_stored. simpl. now rewrite replace_task_stored.
    + intros row Hin Hrow. simpl in Hin.
      apply replace_task_own in Hin as [H _]; [exact H|]. simpl. congruence.
    + intros row Hin Hrow. simpl in Hin.
      apply replace_task_own in Hin as [_ H]; [|simpl; congruence].
      rewrite H. discriminate.
  - exfalso. apply existsb_exists in Hstored as (row & Hin & Hrow).
    apply (find_none _ _ F) in Hin. simpl in Hin. congruence.
Qed.

End SuccessfulEntry.

(** The loop over the results, when it runs to its end: the rows of [e] ... *)
Lemma batch_loop_queue (items : list QueueRow) (now : Z) (e : QueueRow)
      (results : list ProcessedItem) :
  find_item items (q_id e) = Some e ->
  forall db db',
    for_each results (apply_result items now) db = (db', Returned tt) ->
    (forall x, In x results -> client_id x = q_id e -> r_status x = st_success) ->
    row_kept (q_id e) db ->
    row_kept (q_id e) db' /\
    (rows_synced (q_id e) db \/ (exists x, In x results /\ client_id x = q_id e) ->
     rows_synced (q_id e) db').
Proof.
  intros Hfind. induction results as [|x l IH]; intros db db' Hrun Hok Hk.
  - simpl in Hrun. injection Hrun as <-. split; [exact Hk|].
    intros [H|(x & [] & _)]. exact H.
  - simpl in Hrun. unfold bind in Hrun.
    destruct (apply_result items now x db) as [db1 [[]|err]] eqn:E;
      [|discriminate].
    assert (E1 : db1 = fst (apply_result items now x db)) by now rewrite E.
    assert (Hok' : forall y, In y l -> client_id y = q_id e ->
                             r_status y = st_success)
      by (intros y Hy; apply Hok; now right).
    destruct (string_dec (client_id x) (q_id e)) as [Heq|Hne].
    + destruct (apply_result_own_queue items now e Hfind x db Heq
                  (Hok x (or_introl eq_refl) Heq)) as (Hk1 & Hs1).
      rewrite <- E1 in *.
      destruct (IH db1 db' Hrun Hok' (Hk1 Hk)) as (H1 & H2).
      split; [exact H1|]. intros _. apply H2. now left.
    + destruct (apply_result_other items now e x db) as (Hq & _).
      rewrite <- E1 in *. destruct (Hq Hne) as [Hk1 Hs1].
      destruct (IH db1 db' Hrun Hok' (Hk1 Hk)) as (H1 & H2).
      split; [exact H1|].
      intros [Ha|(y & [<-|Hy] & Hid)]; [| contradiction |].
      * apply H2. left. auto.
      * apply H2. right. now exists y.
Qed.

(** ... and its task. *)
Lemma batch_loop_task (items : list QueueRow) (now : Z) (e : QueueRow)
      (results : list ProcessedItem) :
  find_item items (q_id e) = Some e ->
  forall db db',
    for_each results (apply_result items now) db = (db', Returned tt) ->
    (forall x, In x results -> client_id x = q_id e -> r_status x = st_success) ->
    task_stored (q_task_id e) db ->
    task_stored (q_task_id e) db' /\
    (task_synced (q_task_id e) db \/
     (exists x, In x results /\ client_id x = q_id e) ->
     task_synced (q_task_id e) db') /\
    (no_conflict results ->
     task_has_server_id (q_task_id e) db \/
     (exists x, In x results /\ client_id x = q_id e) ->
     task_has_server_id (q_task_id e) db').
Proof.
  intros Hfind. induction results as [|x l IH]; intros db db' Hrun Hok Ht.
  - simpl in Hrun. injection Hrun as <-. split; [exact Ht|]. split.
    + intros [H|(x & [] & _)]. exact H.
    + intros _ [H|(x & [] & _)]. exact H.
  - simpl in Hrun. unfold bind in Hrun.
    destruct (apply_result items now x db) as [db1 [[]|err]] eqn:E;
      [|discriminate].
    assert (E1 : db1 = fst (apply_result items now x db)) by now rewrite E.
    assert (Hok' : forall y, In y l -> client_id y = q_id e ->
                             r_status y = st_success)
      by (intros y Hy; apply Hok; now right).
    destruct (string_dec (client_id x) (q_id e)) as [Heq|Hne].
    + destruct (apply_result_own_task items now e Hfind x db Heq
                  (Hok x (or_introl eq_refl) Heq) Ht) as (Ht1 & Hts1 & Hsid1).
      rewrite <- E1 in *.
      destruct (IH db1 db' Hrun Hok' Ht1) as (H1 & H2 & H3).
      split; [exact H1|]. split; [intros _; apply H2; now left|].
      intros Hnc _. apply H3; [now inversion Hnc | now left].
    + destruct (apply_result_other items now e x db)
        as (_ & Ht1 & Hts1 & Hsid1).
      rewrite <- E1 in *.
      destruct (IH db1 db' Hrun Hok' (Ht1 Ht)) as (H1 & H2 & H3).
      split; [exact H1|]. split.
      * intros [Ha|(y & [<-|Hy] & Hid)]; [| contradiction |].
        -- apply H2. left. auto.
        -- apply H2. right. now exists y.
      * intros Hnc Hd. inversion Hnc as [|? ? Hx Hl]; subst.
        apply H3; [exact Hl|].
        destruct Hd as [Ha|(y & [<-|Hy] & Hid)]; [| contradiction |].
        -- left. auto.
        -- right. now exists y.
Qed.

Lemma sync_resolved_applied (db db' : Database) (body : BatchSyncResponse)
      (now : Z) (res : SyncResult) :
  sync (Resolved body) now db = (db', Returned res) ->
  success res = true ->
  order_by_task_created (filter is_pending (sync_queue db)) <> [] ->
  for_each (processed_items body)
           (apply_result (order_by_task_created
                            (filter is_pending (sync_queue db))) now) db
  = (db', Returned tt).
Proof.
  unfold sync, select_pending, processBatch. unfold_async.
  destruct (order_by_task_created _) as [|x rest]; [congruence|].
  intros Hrun Hs _.
  destruct (for_each _ _ db) as [db1 [[]|err]].
  - now injection Hrun as <- _.
  - injection Hrun as _ <-. discriminate.
Qed.

(** C3 (as amended): in a cycle that applies its batch without an exception,
    an entry whose results are all success (and there is one) is still a
    row of sync_queue afterwards, with status synced, so the next drain does
    not select it; if its task is stored, the task's sync_status is synced
    afterwards, and its server_id is set provided the batch holds no
    conflict result. *)
Theorem sync_success_marks_entry_synced :
  forall (db : Database) (body : BatchSyncResponse) (now : Z) (e : QueueRow)
         (r : ProcessedItem) (db' : Database) (res : SyncResult),
    unique_ids (sync_queue db) ->
    In e (sync_queue db) ->
    q_status e = pending ->
    In r (processed_items body) ->
    client_id r = q_id e ->
    (forall x, In x (processed_items body) -> client_id x = q_id e ->
               r_status x = st_success) ->
    sync (Resolved body) now db = (db', Returned res) ->
    success res = true ->
    queue_has (q_id e) (sync_queue db') = true /\
    (forall row, In row (sync_queue db') -> q_id row = q_id e ->
                 q_status row = synced) /\
    (forall items row, result_of select_pending db' = Returned items ->
                       In row items -> q_id row <> q_id e) /\
    (forall t, result_of (getTaskById (q_task_id e)) db = Returned (Some t) ->
       exists t',
         result_of (getTaskById (q_task_id e)) db' = Returned (Some t') /\
         sync_status t' = synced /\
         (no_conflict (processed_items body) ->
          exists sid, server_id t' = Some sid)).
Proof.
  intros db body now e r db' res Hu He Hp Hr Hid Hok Hrun Hs.
  pose proof (find_item_selected db e Hu He Hp) as Hfind.
  pose proof (pending_selected db e He Hp) as Hsel.
  apply sync_resolved_applied in Hrun; [|exact Hs|].
  2:{ intros Hnil. now rewrite Hnil in Hsel. }
  assert (Hk : row_kept (q_id e) db) by now apply queue_has_own.
  assert (Hex : exists x, In x (processed_items body) /\ client_id x = q_id e)
    by now exists r.
  destruct (batch_loop_queue _ now e _ Hfind db db' Hrun Hok Hk) as (Hk' & Hs').
  specialize (Hs' (or_intror Hex)).
  split; [exact Hk'|]. split; [exact Hs'|]. split.
  - intros items row Hsel' Hin Hrow.
    unfold result_of, select_pending in Hsel'. simpl in Hsel'.
    injection Hsel' as <-.
    apply (Permutation_in _ (order_by_task_created_perm _)) in Hin.
    apply filter_In in Hin as [Hin Hpend].
    unfold is_pending in Hpend. rewrite (Hs' row Hin Hrow) in Hpend.
    discriminate.
  - intros t Ht. apply getTaskById_found in Ht as [Ht _].
    assert (Hst : task_stored (q_task_id e) db).
    { apply existsb_exists. exists t. apply find_some in Ht. exact Ht. }
    destruct (batch_loop_task _ now e _ Hfind db db' Hrun Hok Hst)
      as (Hst' & Hsy & Hsid).
    specialize (Hsy (or_intror Hex)).
    unfold result_of, getTaskById. simpl.
    destruct (find (fun row => same_id (id row) (q_task_id e)) (tasks db'))
      as [t'|] eqn:F.
    + exists t'. split; [reflexivity|].
      apply find_some in F as [Hin Hrow]. apply String.eqb_eq in Hrow.
      split; [now apply Hsy|].
      intros Hnc. specialize (Hsid Hnc (or_intror Hex) t' Hin Hrow).
      destruct (server_id t') as [sid|]; [now exists sid | contradiction].
    + exfalso. apply existsb_exists in Hst' as (row & Hin & Hrow).
      apply (find_none _ _ F) in Hin. simpl in Hin. congruence.
Qed.

Lemma sync_success_marks_entry_synced_witness :
  let db' := run_db (sync (Resolved (mkResponse [success_for "q1" "srv1"])) 7)
                    db_A in
  queue_has "q1" (sync_queue db') = true /\
  (forall row, In row (sync_queue db') -> q_id row = "q1" ->
               q_status row = synced) /\
  (forall items row, result_of select_pending db' = Returned items ->
                     In row items -> q_id row <> "q1") /\
  (forall t, result_of (getTaskById "t1") db_A = Returned (Some t) ->
     exists t',
       result_of (getTaskById "t1") db' = Returned (Some t') /\
       sync_status t' = synced /\
       (no_conflict [success_for "q1" "srv1"] ->
        exists sid, server_id t' = Some sid)).
Proof.
  refine (sync_success_marks_entry_synced db_A
            (mkResponse [success_for "q1" "srv1"]) 7 entry_A
            (success_for "q1" "srv1") _ _ _ _ eq_refl _ eq_refl _ eq_refl eq_refl).
  - repeat constructor. simpl. tauto.
  - simpl. now left.
  - simpl. now left.
  - intros x [<-|[]] _. reflexivity.
Defined.

(** C3 (as stated) fails: after a cycle in which the authority answers
    success for the only pending entry, the entry is still a row of
    sync_queue. *)
Lemma sync_success_keeps_the_row :
  ~ (forall (db : Database) (body : BatchSyncResponse) (now : Z) (e : QueueRow)
            (r : ProcessedItem) (db' : Database) (res : SyncResult),
       unique_ids (sync_queue db) ->
       In e (sync_queue db) ->
       q_status e = pending ->
       In r (processed_items body) ->
       client_id r = q_id e ->
       r_status r = st_success ->
       sync (Resolved body) now db = (db', Returned res) ->
       queue_has (q_id e) (sync_queue db') = false /\
       (forall t',
          result_of (getTaskById (q_task_id e)) db' = Returned (Some t') ->
          sync_status t' = synced /\ server_id t' <> None)).
Proof.
  intros claim.
  destruct (claim db_A (mkResponse [success_for "q1" "srv1"]) 7 entry_A
                  (success_for "q1" "srv1") _ _
                  ltac:(repeat constructor; simpl; tauto)
                  (or_introl eq_refl) eq_refl (or_introl eq_refl)
                  eq_refl eq_refl eq_refl) as [Habsent _].
  discriminate Habsent.
Qed.

(** ** The primary key of sync_queue

    [unique_ids], which the theorems on a cycle assume, holds of the empty
    queue and is kept by every statement the services run. *)

Lemma queue_has_false (i : string) (q : list QueueRow) :
  queue_has i q = false -> ~ In i (map q_id q).
Proof.
  intros H Hin. apply in_map_iff in Hin as (row & <- & Hrow).
  now rewrite queue_has_own in H.
Qed.

Lemma insert_queue_row_unique (row : QueueRow) (db : Database) :
  unique_ids (sync_queue db) ->
  unique_ids (sync_queue (fst (insert_queue_row row db))).
Proof.
  intros Hu. unfold insert_queue_row.
  destruct (queue_has (q_id row) (sync_queue db)) eqn:E; [exact Hu|].
  unfold unique_ids in *. simpl. rewrite map_app. simpl.
  apply NoDup_app_remove_l with (l := []). simpl.
  apply (Permutation_NoDup (l := q_id row :: map q_id (sync_queue db))).
  - apply Permutation_cons_append.
  - constructor; [now apply queue_has_false | exact Hu].
Qed.

Lemma delete_rows_unique (i : string) (q : list QueueRow) :
  unique_ids q -> unique_ids (delete_rows i q).
Proof.
  unfold unique_ids, delete_rows. induction q as [|x q IH]; simpl; [auto|].
  intros Hnd. inversion Hnd as [|? ? Hx Hq]; subst.
  destruct (negb (same_id (q_id x) i)); simpl; [|now apply IH].
  constructor; [|now apply IH].
  intros Hin. apply Hx. apply in_map_iff in Hin as (row & Hid & Hrow).
  apply filter_In in Hrow as [Hrow _]. rewrite <- Hid. now apply in_map.
Qed.

Lemma apply_result_unique (items : list QueueRow) (now : Z) (x : ProcessedItem)
      (db : Database) :
  unique_ids (sync_queue db) ->
  unique_ids (sync_queue (fst (apply_result items now x db))).
Proof.
  intros Hu.
  destruct (apply_result_shape items now x db) as [[->|[(f & Hf & ->)| ->]] _].
  - exact Hu.
  - unfold unique_ids. now rewrite update_rows_ids.
  - now apply delete_rows_unique.
Qed.

Lemma for_each_unique (items : list QueueRow) (now : Z)
      (results : list ProcessedItem) :
  forall db,
    unique_ids (sync_queue db) ->
    unique_ids (sync_queue (fst (for_each results (apply_result items now) db))).
Proof.
  induction results as [|x l IH]; intros db Hu; [exact Hu|].
  simpl. unfold bind.
  pose proof (apply_result_unique items now x db Hu) as H1.
  destruct (apply_result items now x db) as [db1 [[]|err]]; simpl in *.
  - now apply IH.
  - exact H1.
Qed.

Lemma sync_unique (post : PostOutcome) (now : Z) (db : Database) :
  unique_ids (sync_queue db) ->
  unique_ids (sync_queue (run_db (sync post now) db)).
Proof.
  intros Hu. unfold run_db, sync, select_pending, processBatch. unfold_async.
  destruct (order_by_task_created _) as [|x rest]; [exact Hu|].
  destruct post as [m|c m|body]; simpl; try exact Hu.
  pose proof (for_each_unique (x :: rest) now (processed_items body) db Hu) as H.
  destruct (for_each _ _ db) as [db1 [[]|err]]; exact H.
Qed.

(** * Further properties of the code *)

(** ** The tasks table *)

Lemma with_tasks_same (db : Database) : with_tasks db (tasks db) = db.
Proof. now destruct db. Qed.

Lemma find_snoc_fresh (i : string) (l : list Task) (t : Task) :
  existsb (fun row => same_id (id row) (id t)) l = false ->
  find (fun row => same_id (id row) i) (l ++ [t]) =
  match find (fun row => same_id (id row) i) l with
  | Some u => Some u
  | None => if same_id (id t) i then Some t else None
  end.
Proof.
  intros _. induction l as [|x l IH]; simpl; [reflexivity|].
  now destruct (same_id (id x) i).
Qed.

Lemma find_stored (i : string) (l : list Task) :
  existsb (fun row => same_id (id row) i) l = false ->
  find (fun row => same_id (id row) i) l = None.
Proof.
  induction l as [|x l IH]; simpl; [reflexivity|].
  destruct (same_id (id x) i); simpl; [discriminate | exact IH].
Qed.

Lemma find_replace_task_same (U : Task) (l : list Task) :
  find (fun row => same_id (id row) (id U)) (replace_task U l) =
  option_map (set_task_columns U) (find (fun row => same_id (id row) (id U)) l).
Proof.
  unfold replace_task. induction l as [|x l IH]; simpl; [reflexivity|].
  destruct (same_id (id x) (id U)) eqn:E; simpl; rewrite E; [reflexivity|exact IH].
Qed.

Lemma find_replace_task_other (U : Task) (i : string) (l : list Task) :
  i <> id U ->
  find (fun row => same_id (id row) i) (replace_task U l) =
  find (fun row => same_id (id row) i) l.
Proof.
  intros Hne. unfold replace_task. induction l as [|x l IH]; simpl; [reflexivity|].
  destruct (same_id (id x) (id U)) eqn:E; simpl.
  - apply String.eqb_eq in E. rewrite E, (same_id_neq (id U) i) by congruence.
    exact IH.
  - now rewrite IH.
Qed.

Lemma replace_task_missing (U : Task) (l : list Task) :
  find (fun row => same_id (id row) (id U)) l = None -> replace_task U l = l.
Proof.
  unfold replace_task. induction l as [|x l IH]; simpl; [reflexivity|].
  destruct (same_id (id x) (id U)); [discriminate|].
  intros H. now rewrite IH.
Qed.

Lemma replace_task_ids (U : Task) (l : list Task) :
  map id (replace_task U l) = map id l.
Proof.
  unfold replace_task. rewrite map_map. apply map_ext. intros x.
  now destruct (same_id (id x) (id U)).
Qed.

Lemma replace_task_created (U : Task) (l : list Task) :
  map created_at (replace_task U l) = map created_at l.
Proof.
  unfold replace_task. rewrite map_map. apply map_ext. intros x.
  now destruct (same_id (id x) (id U)).
Qed.

(** X1: inserting a task whose id is not stored succeeds, the task is then
    found under its id, every other id is looked up as before and the two
    queues are untouched; inserting under a stored id throws and changes
    nothing. *)
Theorem insertTask_then_getTaskById :
  forall (db : Database) (t : Task),
    (existsb (fun row => same_id (id row) (id t)) (tasks db) = false ->
     exists db',
       insertTask t db = (db', Returned tt) /\
       result_of (getTaskById (id t)) db' = Returned (Some t) /\
       (forall j, j <> id t ->
          result_of (getTaskById j) db' = result_of (getTaskById j) db) /\
       sync_queue db' = sync_queue db /\
       dead_letter_queue db' = dead_letter_queue db) /\
    (existsb (fun row => same_id (id row) (id t)) (tasks db) = true ->
     exists message, insertTask t db = (db, Thrown message)).
Proof.
  intros db t. unfold insertTask. split; intros H; rewrite H.
  - eexists. split; [reflexivity|]. unfold result_of, getTaskById. simpl.
    repeat split.
    + rewrite find_snoc_fresh, find_stored, same_id_refl by exact H. reflexivity.
    + intros j Hj. rewrite find_snoc_fresh by exact H.
      destruct (find _ (tasks db)); [reflexivity|].
      rewrite same_id_neq by congruence. reflexivity.
  - eexists. reflexivity.
Qed.

Lemma insertTask_then_getTaskById_witness :
  result_of (getTaskById "t1") (run_db (insertTask task_A) emptyDb)
    = Returned (Some task_A) /\
  exists message, insertTask task_A db_A = (db_A, Thrown message).
Proof.
  split.
  - destruct (proj1 (insertTask_then_getTaskById emptyDb task_A) eq_refl)
      as (db' & Hrun & Hget & _).
    unfold run_db. rewrite Hrun. exact Hget.
  - exact (proj2 (insertTask_then_getTaskById db_A task_A) eq_refl).
Defined.

(** X2: [Database.updateTask] rewrites the stored row of the task's id and
    keeps that row's id and created_at; under an id that is not stored it
    changes nothing and does not throw; it never adds or removes a row and
    leaves every other id as it was. *)
Theorem updateTask_lookup :
  forall (db : Database) (U : Task),
  exists db',
    updateTask U db = (db', Returned tt) /\
    (forall t, result_of (getTaskById (id U)) db = Returned (Some t) ->
       result_of (getTaskById (id U)) db' =
       Returned (Some (set_task_columns U t)) /\
       id (set_task_columns U t) = id t /\
       created_at (set_task_columns U t) = created_at t) /\
    (result_of (getTaskById (id U)) db = Returned None -> db' = db) /\
    (forall j, j <> id U ->
       result_of (getTaskById j) db' = result_of (getTaskById j) db) /\
    map id (tasks db') = map id (tasks db) /\
    sync_queue db' = sync_queue db.
Proof.
  intros db U. eexists. split; [reflexivity|].
  unfold result_of, getTaskById. simpl. repeat split.
  - rewrite find_replace_task_same. injection H as ->. reflexivity.
  - intros H. injection H as H. rewrite replace_task_missing by exact H.
    apply with_tasks_same.
  - intros j Hj. now rewrite find_replace_task_other.
  - apply replace_task_ids.
Qed.

Lemma updateTask_lookup_witness :
  result_of (getTaskById "t1") (run_db (updateTask task_B) db_A)
    = Returned (Some (set_task_columns task_B task_A)) /\
  run_db (updateTask task_B) emptyDb = emptyDb.
Proof.
  destruct (updateTask_lookup db_A task_B) as (db' & Hrun & Hfound & _).
  destruct (updateTask_lookup emptyDb task_B) as (db0 & Hrun0 & _ & Hmiss & _).
  unfold run_db. rewrite Hrun, Hrun0. split.
  - exact (proj1 (Hfound task_A eq_refl)).
  - exact (Hmiss eq_refl).
Defined.

(** ** The task service *)

Lemma replace_task_rows (U row : Task) (l : list Task) :
  In row (replace_task U l) -> id row = id U ->
  exists row0, In row0 l /\ row = set_task_columns U row0.
Proof.
  intros Hin Hid. apply in_map_iff in Hin as (row0 & Heq & H0).
  destruct (same_id (id row0) (id U)) eqn:E; [now exists row0|].
  subst row0. now rewrite Hid, same_id_refl in E.
Qed.

(** X3: [createTask] with an unused task id and an unused entry id returns
    the new task (pending, not deleted, no server id, title defaulting to
    "Untitled Task"); the task is then returned by [getTask], listed by
    [getTasksNeedingSync], and [getSyncQueue] reads back one more entry
    whose data is the very task that was snapshotted. *)
Theorem createTask_round_trip :
  forall (db : Database) (data : PartialTask) (uuid_task uuid_item : string)
         (now : Z),
    existsb (fun row => same_id (id row) (or_else (p_id data) uuid_task))
            (tasks db) = false ->
    queue_has uuid_item (sync_queue db) = false ->
    exists db' task,
      createTask data uuid_task uuid_item now db = (db', Returned task) /\
      id task = or_else (p_id data) uuid_task /\
      title task = or_else (p_title data) "Untitled Task" /\
      completed task = or_else (p_completed data) false /\
      sync_status task = pending /\ is_deleted task = false /\
      server_id task = None /\
      result_of (getTask (id task)) db' = Returned (Some task) /\
      (exists ts, result_of getTasksNeedingSync db' = Returned ts /\ In task ts) /\
      (forall before,
         result_of getSyncQueue db = Returned before ->
         result_of getSyncQueue db' =
         Returned (before ++ [mkView uuid_item (id task) create (JTask task)
                                     (SqlNum now) 0 None])).
Proof.
  intros db data uuid_task uuid_item now Htask Hitem.
  unfold createTask, insertTask, Database_addToSyncQueue, insert_queue_row.
  unfold_async. simpl. rewrite Htask. simpl. rewrite Hitem.
  do 2 eexists. split; [reflexivity|]. simpl. repeat split.
  - unfold result_of, getTask, getTaskById. unfold_async. simpl.
    rewrite find_snoc_fresh, find_stored, same_id_refl by exact Htask.
    reflexivity.
  - unfold result_of, getTasksNeedingSync, getAllTasks. unfold_async. simpl.
    eexists. split; [reflexivity|].
    apply filter_In. split; [|reflexivity].
    apply filter_In. split; [|reflexivity].
    apply in_or_app. right. now left.
  - intros before Hread. unfold result_of, getSyncQueue in *. simpl in *.
    rewrite parse_all_app, Hread. reflexivity.
Qed.

Lemma createTask_round_trip_witness :
  exists db' task,
    createTask emptyPartial "t1" "q1" 5 emptyDb = (db', Returned task) /\
    title task = "Untitled Task" /\
    result_of (getTask "t1") db' = Returned (Some task) /\
    result_of getSyncQueue db' =
    Returned [mkView "q1" "t1" create (JTask task) (SqlNum 5) 0 None].
Proof.
  destruct (createTask_round_trip emptyDb emptyPartial "t1" "q1" 5 eq_refl
              eq_refl)
    as (db' & task & Hrun & Hid & Htitle & _ & _ & _ & _ & Hget & _ & Hq).
  exists db', task. split; [exact Hrun|]. split; [exact Htitle|].
  simpl in Hid. rewrite Hid in *. split; [exact Hget|].
  exact (Hq [] eq_refl).
Defined.

(** X4: [createTask] is not atomic. Under a task id that is already stored
    it throws and changes nothing; when only the id drawn for the queue
    entry is taken, it throws after the task row has been inserted, which
    leaves a stored task without any queue entry. *)
Theorem createTask_failures :
  forall (db : Database) (data : PartialTask) (uuid_task uuid_item : string)
         (now : Z),
    (existsb (fun row => same_id (id row) (or_else (p_id data) uuid_task))
             (tasks db) = true ->
     exists message,
       createTask data uuid_task uuid_item now db = (db, Thrown message)) /\
    (existsb (fun row => same_id (id row) (or_else (p_id data) uuid_task))
             (tasks db) = false ->
     queue_has uuid_item (sync_queue db) = true ->
     exists message db',
       createTask data uuid_task uuid_item now db = (db', Thrown message) /\
       sync_queue db' = sync_queue db /\
       exists task,
         result_of (getTaskById (or_else (p_id data) uuid_task)) db'
           = Returned (Some task) /\
         sync_status task = pending).
Proof.
  intros db data uuid_task uuid_item now.
  unfold createTask, insertTask, Database_addToSyncQueue, insert_queue_row.
  unfold_async. simpl. split.
  - intros H. rewrite H. eexists. reflexivity.
  - intros Htask Hitem. rewrite Htask. simpl. rewrite Hitem.
    do 2 eexists. split; [reflexivity|]. split; [reflexivity|].
    eexists. unfold result_of, getTaskById. simpl.
    rewrite find_snoc_fresh, find_stored by exact Htask. simpl.
    rewrite same_id_refl. split; reflexivity.
Qed.

Lemma createTask_failures_witness :
  (exists message,
     createTask emptyPartial "t1" "q2" 5 db_A = (db_A, Thrown message)) /\
  (exists message db',
     createTask emptyPartial "t2" "q1" 5 db_A = (db', Thrown message) /\
     sync_queue db' = [entry_A] /\
     exists task, result_of (getTaskById "t2") db' = Returned (Some task)).
Proof.
  split.
  - exact (proj1 (createTask_failures db_A emptyPartial "t1" "q2" 5) eq_refl).
  - destruct (proj2 (createTask_failures db_A emptyPartial "t2" "q1" 5)
                    eq_refl eq_refl)
      as (message & db' & Hrun & Hq & task & Hget & _).
    exists message, db'. split; [exact Hrun|]. split; [exact Hq|].
    now exists task.
Defined.

(** X5: [TaskService.updateTask] on a stored task, with updates that carry
    no id: the returned task has the task's id, status pending and
    updated_at = now whatever the updates say; the stored row takes the
    returned columns but keeps its own created_at; one pending update entry
    with the returned task as data is appended. *)
Theorem taskService_updateTask_stored :
  forall (db : Database) (i : string) (t : Task) (updates : PartialTask)
         (uuid_item : string) (now : Z),
    result_of (getTaskById i) db = Returned (Some t) ->
    p_id updates = None ->
    queue_has uuid_item (sync_queue db) = false ->
    exists db' updated,
      taskService_updateTask i updates uuid_item now db
        = (db', Returned (Some updated)) /\
      id updated = i /\ sync_status updated = pending /\
      updated_at updated = now /\
      title updated = or_else (p_title updates) (title t) /\
      result_of (getTaskById i) db' =
        Returned (Some (set_task_columns updated t)) /\
      created_at (set_task_columns updated t) = created_at t /\
      sync_queue db' =
      sync_queue db ++
      [mkRow uuid_item i update (JText (JTask updated)) pending (SqlNum now) 0
             None].
Proof.
  intros db i t updates uuid_item now Hget Hid Hfresh.
  apply getTaskById_found in Hget as [Hfind Hi].
  unfold taskService_updateTask, getTaskById, updateTask,
    Database_addToSyncQueue, insert_queue_row. unfold_async. simpl.
  rewrite Hfind. simpl. rewrite Hfresh.
  do 2 eexists. split; [reflexivity|]. simpl. rewrite Hid. simpl.
  repeat split; try assumption.
  - unfold result_of. simpl.
    set (U := set_updated_pending (spread t updates) now).
    assert (HU : id U = i) by (unfold U; simpl; now rewrite Hid).
    rewrite <- HU in Hfind |- *. rewrite find_replace_task_same, Hfind.
    reflexivity.
  - now rewrite Hi.
Qed.

Lemma taskService_updateTask_stored_witness :
  exists db' updated,
    taskService_updateTask "t1"
      (mkPartial None (Some "y") None None (Some 1) (Some 2) None (Some synced)
                 None None) "q2" 9 db_A
      = (db', Returned (Some updated)) /\
    sync_status updated = pending /\ updated_at updated = 9 /\
    created_at updated = 1 /\
    result_of (getTaskById "t1") db' =
      Returned (Some (set_task_columns updated task_A)) /\
    created_at (set_task_columns updated task_A) = 1000.
Proof.
  destruct (taskService_updateTask_stored db_A "t1" task_A
              (mkPartial None (Some "y") None None (Some 1) (Some 2) None
                         (Some synced) None None) "q2" 9 eq_refl eq_refl eq_refl)
    as (db' & updated & Hrun & _ & Hs & Hu & _ & Hget & Hc & _).
  exists db', updated. split; [exact Hrun|].
  split; [exact Hs|]. split; [exact Hu|].
  split; [now injection Hrun as _ <-|].
  split; [exact Hget | exact Hc].
Defined.

(** X6: when the updates carry another id, [TaskService.updateTask] leaves
    the addressed task as it was: the UPDATE and the queue entry go to the
    id of the updates, and the call still returns a task. *)
Theorem taskService_updateTask_other_id :
  forall (db : Database) (i j : string) (t : Task) (updates : PartialTask)
         (uuid_item : string) (now : Z),
    result_of (getTaskById i) db = Returned (Some t) ->
    p_id updates = Some j ->
    j <> i ->
    queue_has uuid_item (sync_queue db) = false ->
    exists db' updated,
      taskService_updateTask i updates uuid_item now db
        = (db', Returned (Some updated)) /\
      id updated = j /\
      result_of (getTaskById i) db' = Returned (Some t) /\
      (result_of (getTaskById j) db = Returned None -> tasks db' = tasks db) /\
      sync_queue db' =
      sync_queue db ++
      [mkRow uuid_item j update (JText (JTask updated)) pending (SqlNum now) 0
             None].
Proof.
  intros db i j t updates uuid_item now Hget Hid Hne Hfresh.
  apply getTaskById_found in Hget as [Hfind Hi].
  unfold taskService_updateTask, getTaskById, updateTask,
    Database_addToSyncQueue, insert_queue_row. unfold_async. simpl.
  rewrite Hfind. simpl. rewrite Hfresh.
  do 2 eexists. split; [reflexivity|]. simpl. rewrite Hid. simpl.
  repeat split.
  - unfold result_of. simpl.
    rewrite find_replace_task_other by (simpl; rewrite Hid; simpl; congruence).
    now rewrite Hfind.
  - unfold result_of. simpl. intros H. injection H as H.
    apply replace_task_missing. simpl. now rewrite Hid.
Qed.

Lemma taskService_updateTask_other_id_witness :
  exists db' updated,
    taskService_updateTask "t1"
      (mkPartial (Some "t2") (Some "y") None None None None None None None None)
      "q2" 9 db_A
      = (db', Returned (Some updated)) /\
    id updated = "t2" /\
    result_of (getTaskById "t1") db' = Returned (Some task_A) /\
    tasks db' = tasks db_A.
Proof.
  destruct (taskService_updateTask_other_id db_A "t1" "t2" task_A
              (mkPartial (Some "t2") (Some "y") None None None None None None
                         None None) "q2" 9 eq_refl eq_refl)
    as (db' & updated & Hrun & Hid & Hget & Hmiss & _);
    [discriminate | reflexivity|].
  exists db', updated. repeat (split; [assumption|]). now apply Hmiss.
Defined.

(** X7: after [deleteTask] on a stored task the row is still there, with
    is_deleted set, status pending and updated_at = now and its other
    columns unchanged, but [getTask] no longer returns it and
    [getAllTasks] lists no task of that id; no row is added or removed. *)
Theorem deleteTask_hides_task :
  forall (db : Database) (i : string) (t : Task) (uuid_item : string) (now : Z),
    result_of (getTaskById i) db = Returned (Some t) ->
    queue_has uuid_item (sync_queue db) = false ->
    exists db',
      deleteTask i uuid_item now db = (db', Returned true) /\
      result_of (getTaskById i) db' =
        Returned (Some (mkTask (id t) (title t) (description t) (completed t)
                               (created_at t) now true pending (server_id t)
                               (last_synced_at t))) /\
      result_of (getTask i) db' = Returned None /\
      (forall ts x, result_of getAllTasks db' = Returned ts ->
                    In x ts -> id x <> i) /\
      map id (tasks db') = map id (tasks db).
Proof.
  intros db i t uuid_item now Hget Hfresh.
  apply getTaskById_found in Hget as [Hfind Hi].
  unfold deleteTask, getTaskById, updateTask, Database_addToSyncQueue,
    insert_queue_row. unfold_async. simpl.
  rewrite Hfind. simpl. rewrite Hfresh.
  eexists. split; [reflexivity|].
  set (D := mkTask (id t) (title t) (description t) (completed t)
                   (created_at t) now true pending (server_id t)
                   (last_synced_at t)).
  assert (Hfound : find (fun row => same_id (id row) i) (replace_task D (tasks db))
                   = Some D).
  { replace i with (id D) by exact Hi. rewrite find_replace_task_same.
    change (id D) with (id t). rewrite Hi, Hfind. reflexivity. }
  unfold result_of, getTask, getTaskById, getAllTasks. unfold_async. simpl.
  rewrite Hfound. simpl. repeat split.
  - intros ts x Hts Hx Hid. injection Hts as <-.
    apply filter_In in Hx as [Hx Hlive].
    apply replace_task_rows in Hx as (row0 & _ & ->); [discriminate|].
    simpl. congruence.
  - apply replace_task_ids.
Qed.

Lemma deleteTask_hides_task_witness :
  exists db',
    deleteTask "t1" "q2" 9 db_A = (db', Returned true) /\
    result_of (getTask "t1") db' = Returned None /\
    result_of getAllTasks db' = Returned [].
Proof.
  destruct (deleteTask_hides_task db_A "t1" task_A "q2" 9 eq_refl eq_refl)
    as (db' & Hrun & _ & Hget & _).
  exists db'. split; [exact Hrun|]. split; [exact Hget|].
  injection Hrun as <-. reflexivity.
Defined.

(** X8: under an id that is not stored the task service changes nothing and
    does not throw: [getTask] and [updateTask] return null, [deleteTask]
    returns false, [updateTaskAfterSync] and [saveResolvedTask] return
    without writing, and none of them enqueues anything. *)
Theorem task_service_missing_id :
  forall (db : Database) (i : string),
    result_of (getTaskById i) db = Returned None ->
    getTask i db = (db, Returned None) /\
    (forall updates uuid_item now,
       taskService_updateTask i updates uuid_item now db = (db, Returned None)) /\
    (forall uuid_item now, deleteTask i uuid_item now db = (db, Returned false)) /\
    (forall serverId now, updateTaskAfterSync i serverId now db = (db, Returned tt)) /\
    (forall t now, id t = i -> saveResolvedTask (JTask t) now db = (db, Returned tt)).
Proof.
  intros db i H. unfold result_of, getTaskById in H. simpl in H.
  injection H as H.
  unfold getTask, taskService_updateTask, deleteTask, updateTaskAfterSync,
    saveResolvedTask, getTaskById, updateTask. unfold_async. simpl.
  rewrite H. repeat split.
  intros t now Hid. subst i.
  rewrite replace_task_missing by exact H. now rewrite with_tasks_same.
Qed.

Lemma task_service_missing_id_witness :
  deleteTask "t9" "q2" 9 db_A = (db_A, Returned false) /\
  taskService_updateTask "t9" emptyPartial "q2" 9 db_A = (db_A, Returned None).
Proof.
  destruct (task_service_missing_id db_A "t9" eq_refl) as (_ & Hu & Hd & _).
  split; [apply Hd | apply Hu].
Defined.

(** ** The sync cycle *)

Lemma sync_cases (post : PostOutcome) (now : Z) (db : Database) :
  let items := order_by_task_created (filter is_pending (sync_queue db)) in
  (items = [] /\ sync post now db = (db, Returned (mkSyncResult true 0 0 []))) \/
  (items <> [] /\
   exists db1,
     ((exists body,
         post = Resolved body /\
         for_each (processed_items body) (apply_result items now) db
           = (db1, Returned tt) /\
         sync post now db =
         (db1, Returned
                 (mkSyncResult true
                    (count (filter (has_status st_success) (processed_items body)))
                    (count (filter (has_status st_error) (processed_items body)))
                    (map (fun r =>
                            mkSyncError (client_id r)
                              (match find_item items (client_id r) with
                               | Some i => known (q_operation i)
                               | None => unknown
                               end)
                              (string_or (r_error r) "Unknown error") now)
                         (filter (has_status st_error) (processed_items body)))))) \/
      (exists message,
         processBatch items post now db = (db1, Thrown message) /\
         sync post now db =
         (db1, Returned
                 (mkSyncResult false 0 (count items)
                    (map (fun item =>
                            mkSyncError (q_id item) (known (q_operation item))
                                        message now) items)))))).
Proof.
  intros items. unfold sync, select_pending. unfold_async. fold items.
  destruct items as [|x rest] eqn:E; [left; now split|].
  right. split; [discriminate|].
  destruct post as [m|c m|body]; simpl.
  - exists db. right. exists m. now split.
  - exists db. right. exists m. now split.
  - unfold_async.
    destruct (for_each (processed_items body) (apply_result (x :: rest) now) db)
      as [db1 [[]|err]] eqn:F.
    + exists db1. left. exists body. repeat split. exact F.
    + exists db1. right. exists err. split; reflexivity.
Qed.

(** X9: [sync] never throws: whatever the post does and whatever the
    database holds, it returns a summary. A summary with success = false
    reports no synced item and every drained entry as failed, one error
    per entry; a summary with success = true counts the results with status
    success and with status error and lists one error per error result. *)
Theorem sync_always_reports :
  forall (post : PostOutcome) (now : Z) (db : Database),
  exists res,
    result_of (sync post now) db = Returned res /\
    let items := order_by_task_created (filter is_pending (sync_queue db)) in
    (success res = false ->
       synced_items res = 0 /\ failed_items res = count items /\
       List.length (errors res) = List.length items) /\
    (success res = true ->
       items = [] /\ synced_items res = 0 /\ failed_items res = 0 /\
       errors res = [] \/
       exists body,
         post = Resolved body /\
         synced_items res =
           count (filter (has_status st_success) (processed_items body)) /\
         failed_items res =
           count (filter (has_status st_error) (processed_items body)) /\
         count (errors res) = failed_items res).
Proof.
  intros post now db. unfold result_of.
  destruct (sync_cases post now db)
    as [[Hnil ->]|[Hne (db1 & [(body & -> & _ & ->)|(m & _ & ->)])]]; simpl;
    eexists; (split; [reflexivity|]); split; try discriminate; intros _.
  - left. now repeat split.
  - right. exists body. repeat split. simpl. unfold count.
    now rewrite length_map.
  - repeat split. simpl. now rewrite length_map.
Qed.

Lemma nothing_pending (q : list QueueRow) :
  (forall row, In row q -> q_status row <> pending) ->
  order_by_task_created (filter is_pending q) = [].
Proof.
  intros H.
  assert (E : filter is_pending q = []).
  { induction q as [|x q IH]; simpl; [reflexivity|].
    unfold is_pending at 1.
    destruct (q_status x) eqn:S.
    - exfalso. apply (H x); [now left | exact S].
    - apply IH. intros row Hr. apply H. now right.
    - apply IH. intros row Hr. apply H. now right. }
  now rewrite E.
Qed.

(** X10: when no row of the queue is pending, [sync] reports success with
    zero counts and leaves the database alone, also when the authority is
    unreachable or would reject the batch: nothing is sent. This is the
    case after [clearSyncQueue], which empties the queue and nothing else. *)
Theorem sync_nothing_pending :
  forall (post : PostOutcome) (now : Z) (db : Database),
    ((forall row, In row (sync_queue db) -> q_status row <> pending) ->
     sync post now db = (db, Returned (mkSyncResult true 0 0 []))) /\
    (exists db0,
       clearSyncQueue db = (db0, Returned tt) /\
       sync_queue db0 = [] /\ tasks db0 = tasks db /\
       dead_letter_queue db0 = dead_letter_queue db /\
       sync post now db0 = (db0, Returned (mkSyncResult true 0 0 []))).
Proof.
  intros post now db. split.
  - intros H. unfold sync, select_pending. unfold_async.
    now rewrite nothing_pending.
  - eexists. split; [reflexivity|]. repeat split.
Qed.

Lemma sync_nothing_pending_witness :
  sync (NetworkError "down") 7
       (mkDb [task_A]
             [mkRow "q1" "t1" create (JText (JTask task_A)) synced (SqlNum 1000)
                    0 None] [])
  = (mkDb [task_A]
          [mkRow "q1" "t1" create (JText (JTask task_A)) synced (SqlNum 1000)
                 0 None] [],
     Returned (mkSyncResult true 0 0 [])).
Proof.
  apply (proj1 (sync_nothing_pending (NetworkError "down") 7 _)).
  intros row [<-|[]]. discriminate.
Defined.

Lemma for_each_unmatched (items : list QueueRow) (now : Z)
      (results : list ProcessedItem) (db : Database) :
  (forall x, In x results -> find_item items (client_id x) = None) ->
  for_each results (apply_result items now) db = (db, Returned tt).
Proof.
  induction results as [|x l IH]; intros H; [reflexivity|].
  simpl. unfold bind, apply_result at 1.
  rewrite (H x) by now left. simpl. apply IH. intros y Hy. apply H. now right.
Qed.

(** X11: results that name no drained entry are skipped by the loop, so a
    response made of such results changes nothing in the database; the
    summary still counts them by status, and the errors it lists for them
    carry the operation 'unknown'. *)
Theorem sync_unmatched_results :
  forall (body : BatchSyncResponse) (now : Z) (db : Database),
    let items := order_by_task_created (filter is_pending (sync_queue db)) in
    (forall x, In x (processed_items body) ->
               find_item items (client_id x) = None) ->
    items <> [] ->
    exists res,
      sync (Resolved body) now db = (db, Returned res) /\
      success res = true /\
      synced_items res =
        count (filter (has_status st_success) (processed_items body)) /\
      failed_items res =
        count (filter (has_status st_error) (processed_items body)) /\
      Forall (fun err => e_operation err = unknown) (errors res).
Proof.
  intros body now db items Hun Hne.
  destruct (sync_cases (Resolved body) now db)
    as [[Hnil _]|[_ (db1 & [(b & Hb & Hrun & Hs)|(m & Hthrow & _)])]].
  - contradiction.
  - injection Hb as <-. fold items in Hrun, Hs.
    rewrite for_each_unmatched in Hrun by exact Hun. injection Hrun as <-.
    eexists. split; [exact Hs|]. simpl. repeat split.
    apply Forall_forall. intros err Herr.
    apply in_map_iff in Herr as (x & <- & Hx). simpl.
    apply filter_In in Hx as [Hx _]. now rewrite (Hun x Hx).
  - fold items in Hthrow. simpl in Hthrow. unfold bind in Hthrow.
    rewrite for_each_unmatched in Hthrow by exact Hun. discriminate.
Qed.

Lemma sync_unmatched_results_witness :
  exists res,
    sync (Resolved (mkResponse [success_for "q7" "srv7"; error_for "q8" "boom"]))
         7 db_A = (db_A, Returned res) /\
    synced_items res = 1 /\ failed_items res = 1.
Proof.
  destruct (sync_unmatched_results
              (mkResponse [success_for "q7" "srv7"; error_for "q8" "boom"]) 7 db_A)
    as (res & Hrun & _ & Hs & Hf & _).
  - intros x [<-|[<-|[]]]; reflexivity.
  - discriminate.
  - exists res. split; [exact Hrun|]. split; [exact Hs | exact Hf].
Defined.

(** A cycle whose response holds one result, for the pending entry [e]. *)
Lemma sync_one_result (db db1 : Database) (e : QueueRow) (r : ProcessedItem)
      (now : Z) :
  unique_ids (sync_queue db) ->
  In e (sync_queue db) -> q_status e = pending ->
  client_id r = q_id e ->
  apply_result [e] now r db = (db1, Returned tt) ->
  sync (Resolved (mkResponse [r])) now db =
  (db1, Returned
          (mkSyncResult true
             (count (filter (has_status st_success) [r]))
             (count (filter (has_status st_error) [r]))
             (map (fun x => mkSyncError (client_id x) (known (q_operation e))
                                        (string_or (r_error x) "Unknown error")
                                        now)
                  (filter (has_status st_error) [r])))).
Proof.
  intros Hu He Hp Hid Hrun.
  pose proof (find_item_selected db e Hu He Hp) as Hfind.
  assert (Hsame : forall items,
            find_item items (q_id e) = Some e ->
            apply_result items now r db = apply_result [e] now r db).
  { intros items Hf. unfold apply_result. rewrite Hid, Hf.
    unfold find_item. simpl. now rewrite same_id_refl. }
  destruct (sync_cases (Resolved (mkResponse [r])) now db)
    as [[Hnil _]|[_ (db2 & [(b & Hb & Hloop & Hs)|(m & Hthrow & _)])]].
  - pose proof (pending_selected db e He Hp) as Hin. now rewrite Hnil in Hin.
  - injection Hb as <-. simpl in Hloop. unfold bind in Hloop.
    rewrite (Hsame _ Hfind), Hrun in Hloop. injection Hloop as <-.
    rewrite Hs. simpl. do 2 f_equal. f_equal.
    destruct (has_status st_error r); [|reflexivity]. simpl.
    now rewrite Hid, Hfind.
  - simpl in Hthrow. unfold bind in Hthrow.
    rewrite (Hsame _ Hfind), Hrun in Hthrow. discriminate.
Qed.

(** X12: a conflict result that carries the server's version, for a pending
    entry whose data is a task snapshot, both updated_at values being time
    values of a Date: the later of the two versions (the server's on a tie)
    is written over the stored row of the winner's own id, with status
    synced and last_synced_at = now; the entry is marked synced and keeps
    its retry_count and error_message; the summary counts the conflict
    neither as synced nor as failed. *)
Theorem sync_conflict_writes_winner :
  forall (db : Database) (e : QueueRow) (localTask serverTask : Task) (now : Z),
    unique_ids (sync_queue db) ->
    In e (sync_queue db) ->
    q_status e = pending ->
    q_data e = JText (JTask localTask) ->
    in_date_range (updated_at localTask) ->
    in_date_range (updated_at serverTask) ->
    let winner := if updated_at serverTask <? updated_at localTask
                  then localTask else serverTask in
    sync (Resolved (mkResponse [conflict_for (q_id e) (Some serverTask)])) now db
    = (mkDb (replace_task (as_synced winner now) (tasks db))
            (update_rows (q_id e) synced_row (sync_queue db))
            (dead_letter_queue db),
       Returned (mkSyncResult true 0 0 [])).
Proof.
  intros db e l s now Hu He Hp Hdata Hl Hs winner.
  apply (sync_one_result db _ e (conflict_for (q_id e) (Some s)) now Hu He Hp
                         eq_refl).
  unfold apply_result, find_item. simpl. rewrite same_id_refl. simpl.
  rewrite Hdata. simpl. unfold_async. rewrite resolveConflict_tasks.
  rewrite (time_clip_in_range _ Hl), (time_clip_in_range _ Hs), js_gt_some.
  unfold winner. destruct (updated_at s <? updated_at l); reflexivity.
Qed.

Lemma sync_conflict_writes_winner_witness :
  sync (Resolved (mkResponse [conflict_for "q1" (Some task_B)])) 7 db_A
  = (mkDb [set_task_columns (as_synced task_B 7) task_A]
          [synced_row entry_A] [],
     Returned (mkSyncResult true 0 0 [])).
Proof.
  refine (sync_conflict_writes_winner db_A entry_A task_A task_B 7 _ _ eq_refl
                                      eq_refl _ _).
  - repeat constructor. simpl. tauto.
  - simpl. now left.
  - now vm_compute.
  - now vm_compute.
Defined.

(** X13: a conflict on an entry whose data is the empty object (what the
    DELETE route enqueues) always takes the server's version: the snapshot
    has no updated_at to compare. *)
Theorem sync_conflict_empty_snapshot :
  forall (db : Database) (e : QueueRow) (serverTask : Task) (now : Z),
    unique_ids (sync_queue db) ->
    In e (sync_queue db) ->
    q_status e = pending ->
    q_data e = JText JEmpty ->
    sync (Resolved (mkResponse [conflict_for (q_id e) (Some serverTask)])) now db
    = (mkDb (replace_task (as_synced serverTask now) (tasks db))
            (update_rows (q_id e) synced_row (sync_queue db))
            (dead_letter_queue db),
       Returned (mkSyncResult true 0 0 [])).
Proof.
  intros db e s now Hu He Hp Hdata.
  apply (sync_one_result db _ e (conflict_for (q_id e) (Some s)) now Hu He Hp
                         eq_refl).
  unfold apply_result, find_item. simpl. rewrite same_id_refl. simpl.
  rewrite Hdata. simpl. unfold_async. unfold resolveConflict. simpl.
  destruct (time_clip (updated_at s)); reflexivity.
Qed.

Lemma sync_conflict_empty_snapshot_witness :
  sync (Resolved (mkResponse [conflict_for "q2" (Some task_A')])) 7
       (mkDb [task_B]
             [mkRow "q2" "t1" delete (JText JEmpty) pending (SqlIso 3000) 0 None]
             [])
  = (mkDb [set_task_columns (as_synced task_A' 7) task_B]
          [mkRow "q2" "t1" delete (JText JEmpty) synced (SqlIso 3000) 0 None]
          [],
     Returned (mkSyncResult true 0 0 [])).
Proof.
  refine (sync_conflict_empty_snapshot
            (mkDb [task_B]
                  [mkRow "q2" "t1" delete (JText JEmpty) pending (SqlIso 3000)
                         0 None] [])
            (mkRow "q2" "t1" delete (JText JEmpty) pending (SqlIso 3000) 0 None)
            task_A' 7 _ _ eq_refl eq_refl).
  - repeat constructor. simpl. tauto.
  - simpl. now left.
Defined.

(** X14: a conflict result without a server version is handled as a
    failure of the entry, with the generic message when the result has no
    error text, but the summary reports it neither as failed nor among the
    errors. *)
Theorem sync_conflict_without_version :
  forall (db : Database) (e : QueueRow) (now : Z),
    unique_ids (sync_queue db) ->
    In e (sync_queue db) ->
    q_status e = pending ->
    dead_has (q_id e) (dead_letter_queue db) = false ->
    sync (Resolved (mkResponse [conflict_for (q_id e) None])) now db
    = (run_db (handleSyncError e "Unknown error" now) db,
       Returned (mkSyncResult true 0 0 [])) /\
    (q_retry_count e + 1 < maxRetries ->
     In (retried e "Unknown error")
        (sync_queue
           (run_db (sync (Resolved (mkResponse [conflict_for (q_id e) None])) now)
                   db))).
Proof.
  intros db e now Hu He Hp Hfresh.
  destruct (handleSyncError_spec db e "Unknown error" now Hu He Hfresh)
    as (db1 & Hrun & _ & _ & Hbelow).
  assert (Hsync : sync (Resolved (mkResponse [conflict_for (q_id e) None])) now db
                  = (db1, Returned (mkSyncResult true 0 0 []))).
  { apply (sync_one_result db _ e (conflict_for (q_id e) None) now Hu He Hp
                           eq_refl).
    unfold apply_result, find_item. simpl. rewrite same_id_refl. simpl.
    exact Hrun. }
  unfold run_db. rewrite Hsync, Hrun. split; [reflexivity|].
  intros Hc. now apply Hbelow.
Qed.

Lemma sync_conflict_without_version_witness :
  sync (Resolved (mkResponse [conflict_for "q1" None])) 7 db_A
  = (mkDb [task_A] [retried entry_A "Unknown error"] [],
     Returned (mkSyncResult true 0 0 [])).
Proof.
  refine (proj1 (sync_conflict_without_version db_A entry_A 7 _ _ eq_refl
                                               eq_refl)).
  - repeat constructor. simpl. tauto.
  - simpl. now left.
Defined.

(** ** What a cycle keeps *)

Lemma apply_result_dead (items : list QueueRow) (now : Z) (x : ProcessedItem)
      (db : Database) :
  exists l,
    dead_letter_queue (fst (apply_result items now x db)) =
    dead_letter_queue db ++ l.
Proof.
  unfold apply_result.
  destruct (find_item items (client_id x)) as [item|];
    [|exists []; simpl; now rewrite app_nil_r].
  assert (Herr : forall m, exists l,
            dead_letter_queue (fst (handleSyncError item m now db)) =
            dead_letter_queue db ++ l).
  { intros m. unfold handleSyncError.
    destruct (maxRetries <=? q_retry_count item + 1).
    - unfold addToDeadLetterQueue, delete_queue_row. unfold_async. simpl.
      destruct (existsb _ _); simpl.
      + exists []. now rewrite app_nil_r.
      + eexists. reflexivity.
    - exists []. simpl. now rewrite app_nil_r. }
  destruct (r_status x).
  - unfold set_synced_clear, update_queue, updateTaskAfterSync, getTaskById,
      updateTask. unfold_async. simpl.
    exists []. rewrite app_nil_r. now destruct (find _ (tasks db)).
  - destruct (resolved_data x) as [serverTask|]; [|apply Herr].
    exists []. rewrite app_nil_r.
    destruct (JSON_parse (q_data item)) as [localTask|]; [|reflexivity].
    unfold_async.
    pose proof (resolveConflict_pure localTask (JTask serverTask)
                  (q_operation item) (or_else (r_operation x) update) db) as P.
    destruct (resolveConflict _ _ _ _ db) as [db2 [res|err]]; simpl in P;
      subst db2; [|reflexivity].
    unfold saveResolvedTask, set_synced, update_queue, updateTask.
    now destruct (resolved_task res).
  - destruct (resolved_data x); apply Herr.
Qed.

Lemma update_rows_incl (i : string) (f : QueueRow -> QueueRow) (q : list QueueRow) :
  (forall row, q_id (f row) = q_id row) ->
  incl (map q_id (update_rows i f q)) (map q_id q).
Proof. intros Hf. rewrite update_rows_ids by exact Hf. apply incl_refl. Qed.

Lemma delete_rows_incl (i : string) (q : list QueueRow) :
  incl (map q_id (delete_rows i q)) (map q_id q).
Proof.
  intros j Hj. apply in_map_iff in Hj as (row & <- & Hrow).
  apply filter_In in Hrow as [Hrow _]. now apply in_map.
Qed.

Lemma apply_result_keeps (items : list QueueRow) (now : Z) (x : ProcessedItem)
      (db : Database) :
  let db1 := fst (apply_result items now x db) in
  map id (tasks db1) = map id (tasks db) /\
  map created_at (tasks db1) = map created_at (tasks db) /\
  incl (map q_id (sync_queue db1)) (map q_id (sync_queue db)) /\
  exists l, dead_letter_queue db1 = dead_letter_queue db ++ l.
Proof.
  intros db1. destruct (apply_result_shape items now x db) as [Hq Ht].
  fold db1 in Hq, Ht.
  assert (Hids : map id (tasks db1) = map id (tasks db) /\
                 map created_at (tasks db1) = map created_at (tasks db)).
  { destruct Ht as [->|(U & _ & _ & ->)]; [now split|].
    split; [apply replace_task_ids | apply replace_task_created]. }
  destruct Hids as [H1 H2]. repeat split; try assumption.
  - destruct Hq as [->|[(f & Hf & ->)| ->]].
    + apply incl_refl.
    + now apply update_rows_incl.
    + apply delete_rows_incl.
  - apply apply_result_dead.
Qed.

Lemma for_each_keeps (items : list QueueRow) (now : Z)
      (results : list ProcessedItem) :
  forall db,
    let db1 := fst (for_each results (apply_result items now) db) in
    map id (tasks db1) = map id (tasks db) /\
    map created_at (tasks db1) = map created_at (tasks db) /\
    incl (map q_id (sync_queue db1)) (map q_id (sync_queue db)) /\
    exists l, dead_letter_queue db1 = dead_letter_queue db ++ l.
Proof.
  induction results as [|x rest IH]; intros db.
  - simpl. repeat split; try apply incl_refl. exists []. now rewrite app_nil_r.
  - simpl. unfold bind.
    pose proof (apply_result_keeps items now x db) as Hx. simpl in Hx.
    destruct (apply_result items now x db) as [db1 [[]|err]]; simpl in *;
      [|exact Hx].
    destruct Hx as (H1 & H2 & H3 & l1 & H4).
    destruct (IH db1) as (K1 & K2 & K3 & l2 & K4).
    repeat split.
    + now rewrite K1.
    + now rewrite K2.
    + eapply incl_tran; eassumption.
    + exists (l1 ++ l2). now rewrite K4, H4, app_assoc.
Qed.

Lemma sync_run_db (post : PostOutcome) (now : Z) (db : Database) :
  run_db (sync post now) db = db \/
  exists body,
    post = Resolved body /\
    run_db (sync post now) db =
    fst (for_each (processed_items body)
                  (apply_result (order_by_task_created
                                   (filter is_pending (sync_queue db))) now) db).
Proof.
  unfold run_db, sync, select_pending, processBatch. unfold_async.
  destruct (order_by_task_created _) as [|x rest]; [now left|].
  destruct post as [m|c m|body]; simpl; try now left.
  right. exists body. split; [reflexivity|].
  now destruct (for_each _ _ db) as [db1 [[]|err]].
Qed.

(** X15: whatever the authority answers, a cycle never inserts or deletes
    a task and never changes a task's id or created_at; it adds no row to
    the queue (the ids of the queue afterwards are among those before) and
    keeps them unique; and it only appends to the dead-letter table. *)
Theorem sync_keeps_tables :
  forall (post : PostOutcome) (now : Z) (db : Database),
    let db' := run_db (sync post now) db in
    map id (tasks db') = map id (tasks db) /\
    map created_at (tasks db') = map created_at (tasks db) /\
    incl (map q_id (sync_queue db')) (map q_id (sync_queue db)) /\
    (exists l, dead_letter_queue db' = dead_letter_queue db ++ l) /\
    (unique_ids (sync_queue db) -> unique_ids (sync_queue db')).
Proof.
  intros post now db db'. subst db'.
  split; [|split; [|split; [|split]]]; try apply sync_unique.
  all: destruct (sync_run_db post now db) as [->|(body & _ & ->)];
    try reflexivity; try apply incl_refl;
    try (exists []; now rewrite app_nil_r); apply for_each_keeps.
Qed.

Lemma dead_has_app (i : string) (d l : list DeadLetterRow) :
  dead_has i d = true -> dead_has i (d ++ l) = true.
Proof. unfold dead_has. rewrite existsb_app. now intros ->. Qed.

Lemma queue_has_incl (i : string) (q q' : list QueueRow) :
  incl (map q_id q') (map q_id q) ->
  queue_has i q = false -> queue_has i q' = false.
Proof.
  intros Hincl H. destruct (queue_has i q') eqn:E; [|reflexivity].
  apply existsb_exists in E as (row & Hrow & Hid). apply String.eqb_eq in Hid.
  assert (Hin : In i (map q_id q)) by (apply Hincl; subst i; now apply in_map).
  now apply queue_has_false in H.
Qed.

(** X16: the dead-letter table is terminal. Once the failing cycle at the
    retry ceiling has moved an entry there, any later cycle, whatever the
    authority answers (also results that name the entry again), leaves it
    in the dead-letter table and out of the queue. *)
Theorem dead_letter_is_terminal :
  forall (db : Database) (e : QueueRow) (message : string) (now : Z),
    unique_ids (sync_queue db) ->
    In e (sync_queue db) ->
    q_status e = pending ->
    dead_has (q_id e) (dead_letter_queue db) = false ->
    maxRetries <= q_retry_count e + 1 ->
    forall (post : PostOutcome) (later : Z),
      let db1 := run_db (failing_cycle (q_id e) message now) db in
      let db2 := run_db (sync post later) db1 in
      queue_has (q_id e) (sync_queue db2) = false /\
      dead_has (q_id e) (dead_letter_queue db2) = true.
Proof.
  intros db e message now Hu He Hp Hfresh Hc post later db1 db2.
  destruct (failing_cycle_at_ceiling db e message now Hu He Hp Hfresh Hc)
    as [Hq Hd]. fold db1 in Hq, Hd.
  destruct (sync_run_db post later db1) as [E|(body & _ & E)];
    fold db2 in E; rewrite E; [now split|].
  destruct (for_each_keeps
              (order_by_task_created (filter is_pending (sync_queue db1)))
              later (processed_items body) db1) as (_ & _ & Hincl & l & Hdl).
  split.
  - eapply queue_has_incl; eassumption.
  - rewrite Hdl. now apply dead_has_app.
Qed.

Lemma dead_letter_is_terminal_witness :
  let db0 := mkDb [task_A]
                  [mkRow "q1" "t1" create (JText (JTask task_A)) pending
                         (SqlNum 1000) 2 (Some "boom")] [] in
  let db2 := run_db (sync (Resolved (mkResponse [success_for "q1" "srv1"])) 9)
                    (run_db (failing_cycle "q1" "boom" 8) db0) in
  queue_has "q1" (sync_queue db2) = false /\
  dead_has "q1" (dead_letter_queue db2) = true.
Proof.
  refine (dead_letter_is_terminal
            (mkDb [task_A]
                  [mkRow "q1" "t1" create (JText (JTask task_A)) pending
                         (SqlNum 1000) 2 (Some "boom")] [])
            (mkRow "q1" "t1" create (JText (JTask task_A)) pending
                   (SqlNum 1000) 2 (Some "boom"))
            "boom" 8 _ _ eq_refl eq_refl _
            (Resolved (mkResponse [success_for "q1" "srv1"])) 9).
  - repeat constructor. simpl. tauto.
  - simpl. now left.
  - discriminate.
Defined.

(** ** Sequences of results *)

Lemma apply_result_success_run (items : list QueueRow) (now : Z) (e : QueueRow)
      (r : ProcessedItem) (db : Database) :
  find_item items (client_id r) = Some e ->
  r_status r = st_success ->
  exists db1,
    apply_result items now r db = (db1, Returned tt) /\
    sync_queue db1 = update_rows (q_id e) synced_clear_row (sync_queue db) /\
    dead_letter_queue db1 = dead_letter_queue db.
Proof.
  intros Hfind Hs. unfold apply_result. rewrite Hfind, Hs.
  unfold set_synced_clear, update_queue, updateTaskAfterSync, getTaskById,
    updateTask. unfold_async. simpl.
  destruct (find _ (tasks db)); eexists; (split; [reflexivity|]); split;
    reflexivity.
Qed.

Lemma handleSyncError_already_dead (db : Database) (e : QueueRow)
      (message : string) (now : Z) :
  maxRetries <= q_retry_count e + 1 ->
  dead_has (q_id e) (dead_letter_queue db) = true ->
  exists thrown, handleSyncError e message now db = (db, Thrown thrown).
Proof.
  intros Hc Hd. unfold handleSyncError, dead_has in *.
  destruct (Z.leb_spec maxRetries (q_retry_count e + 1)); [|lia].
  unfold addToDeadLetterQueue. unfold_async. simpl. rewrite Hd.
  eexists. reflexivity.
Qed.

(** X17: results applied before an exception stay applied, and the summary
    does not say so. When the response holds a success for [e1] and then
    two error results for [e2], which is at the retry ceiling, the second
    of them makes the insert into the dead-letter table throw: [sync]
    reports success = false, zero synced and every drained entry as
    failed, while [e1] is marked synced and [e2] is in the dead-letter
    table and out of the queue. *)
Theorem sync_partial_application :
  forall (db : Database) (e1 e2 : QueueRow) (sid m1 m2 : string) (now : Z),
    unique_ids (sync_queue db) ->
    In e1 (sync_queue db) -> q_status e1 = pending ->
    In e2 (sync_queue db) -> q_status e2 = pending ->
    q_id e1 <> q_id e2 ->
    maxRetries <= q_retry_count e2 + 1 ->
    dead_has (q_id e2) (dead_letter_queue db) = false ->
    exists db' res,
      sync (Resolved (mkResponse [success_for (q_id e1) sid;
                                  error_for (q_id e2) m1;
                                  error_for (q_id e2) m2])) now db
        = (db', Returned res) /\
      success res = false /\ synced_items res = 0 /\
      failed_items res =
        count (order_by_task_created (filter is_pending (sync_queue db))) /\
      queue_has (q_id e1) (sync_queue db') = true /\
      rows_synced (q_id e1) db' /\
      queue_has (q_id e2) (sync_queue db') = false /\
      dead_has (q_id e2) (dead_letter_queue db') = true.
Proof.
  intros db e1 e2 sid m1 m2 now Hu He1 Hp1 He2 Hp2 Hne Hc Hfresh.
  set (items := order_by_task_created (filter is_pending (sync_queue db))).
  pose proof (find_item_selected db e1 Hu He1 Hp1) as Hf1.
  pose proof (find_item_selected db e2 Hu He2 Hp2) as Hf2.
  fold items in Hf1, Hf2.
  destruct (apply_result_success_run items now e1 (success_for (q_id e1) sid) db
              Hf1 eq_refl) as (da & Ha & Hqa & Hda).
  assert (Hb : apply_result items now (error_for (q_id e2) m1) da =
               handleSyncError e2 (string_or (Some m1) "Unknown error") now da).
  { unfold apply_result. simpl. now rewrite Hf2. }
  rewrite handleSyncError_at_ceiling in Hb by (try assumption; now rewrite Hda).
  set (dbb := mkDb (tasks da) (delete_rows (q_id e2) (sync_queue da))
                   (dead_letter_queue da ++
                    [mkDead (q_id e2) (q_task_id e2) (q_operation e2)
                            (JText (q_data e2)) (q_created_at e2)
                            (Some (string_or (Some m1) "Unknown error")) now]))
    in *.
  assert (Hdead : dead_has (q_id e2) (dead_letter_queue dbb) = true).
  { unfold dbb, dead_has. simpl. rewrite existsb_app. simpl.
    now rewrite same_id_refl, orb_true_r. }
  destruct (handleSyncError_already_dead dbb e2
              (string_or (Some m2) "Unknown error") now Hc Hdead) as (thrown & Hc3).
  assert (Hthrow : processBatch items
                     (Resolved (mkResponse [success_for (q_id e1) sid;
                                            error_for (q_id e2) m1;
                                            error_for (q_id e2) m2])) now db
                   = (dbb, Thrown thrown)).
  { assert (Hc' : apply_result items now (error_for (q_id e2) m2) dbb =
                  (dbb, Thrown thrown)).
    { unfold apply_result. simpl. rewrite Hf2. exact Hc3. }
    unfold processBatch. simpl. unfold bind. now rewrite Ha, Hb, Hc'. }
  destruct (sync_cases (Resolved (mkResponse [success_for (q_id e1) sid;
                                              error_for (q_id e2) m1;
                                              error_for (q_id e2) m2])) now db)
    as [[Hnil _]|[_ (db1 & [(b & Hb' & Hloop & _)|(m & Hth & Hs)])]].
  - pose proof (pending_selected db e1 He1 Hp1) as Hin. now rewrite Hnil in Hin.
  - exfalso. injection Hb' as <-. fold items in Hloop.
    unfold processBatch in Hthrow. unfold bind in Hthrow.
    now rewrite Hloop in Hthrow.
  - fold items in Hth, Hs. rewrite Hthrow in Hth. injection Hth as <- <-.
    exists dbb. eexists. split; [exact Hs|]. simpl.
    repeat split.
    + rewrite queue_has_delete_other by congruence. rewrite Hqa.
      rewrite queue_has_update_rows by reflexivity. now apply queue_has_own.
    + intros row Hin Hid. simpl in Hin. apply filter_In in Hin as [Hin _].
      rewrite Hqa in Hin. apply update_rows_own in Hin as [row0 ->]; auto.
    + apply delete_rows_absent.
    + exact Hdead.
Qed.

Lemma sync_partial_application_witness :
  let e2 := mkRow "q2" "t1" update (JText (JTask task_A)) pending (SqlNum 2000)
                  2 (Some "boom") in
  exists db' res,
    sync (Resolved (mkResponse [success_for "q1" "srv1"; error_for "q2" "a";
                                error_for "q2" "b"])) 9
         (mkDb [task_A] [entry_A; e2] [])
      = (db', Returned res) /\
    success res = false /\ synced_items res = 0 /\
    rows_synced "q1" db' /\
    dead_has "q2" (dead_letter_queue db') = true.
Proof.
  intros e2.
  destruct (sync_partial_application (mkDb [task_A] [entry_A; e2] []) entry_A e2
              "srv1" "a" "b" 9)
    as (db' & res & Hrun & Hs & Hn & _ & _ & Hrows & _ & Hdead);
    try reflexivity.
  - repeat constructor; simpl; intuition discriminate.
  - simpl. now left.
  - simpl. right. now left.
  - discriminate.
  - exists db', res. repeat (split; [assumption|]). exact Hdead.
Defined.

(** X18: an entry that failed once and then succeeds ends as a row with
    status synced and no error message that keeps the retry_count of the
    failure; nothing is written to the dead-letter table. *)
Theorem sync_success_after_failure :
  forall (db : Database) (e : QueueRow) (message sid : string) (n1 n2 : Z),
    unique_ids (sync_queue db) ->
    In e (sync_queue db) ->
    q_status e = pending ->
    q_retry_count e + 1 < maxRetries ->
    let db1 := run_db (failing_cycle (q_id e) message n1) db in
    let db2 := run_db (sync (Resolved (mkResponse [success_for (q_id e) sid])) n2)
                      db1 in
    In (mkRow (q_id e) (q_task_id e) (q_operation e) (q_data e) synced
              (q_created_at e) (q_retry_count e + 1) None) (sync_queue db2) /\
    rows_synced (q_id e) db2 /\
    dead_letter_queue db2 = dead_letter_queue db.
Proof.
  intros db e message sid n1 n2 Hu He Hp Hc db1 db2.
  destruct (failing_cycle_below_ceiling db e message n1 Hu He Hp Hc)
    as (Hu1 & He1 & Hd1). fold db1 in Hu1, He1, Hd1.
  set (e1 := retried e (string_or (Some message) "Unknown error")) in *.
  destruct (apply_result_success_run [e1] n2 e1 (success_for (q_id e) sid) db1)
    as (dbx & Hrun & Hq & Hd); [|reflexivity|].
  { unfold find_item. simpl. now rewrite same_id_refl. }
  pose proof (sync_one_result db1 dbx e1 (success_for (q_id e) sid) n2 Hu1 He1
                              eq_refl eq_refl Hrun) as Hsync.
  assert (E : db2 = dbx) by (unfold db2, run_db; now rewrite Hsync).
  rewrite E, Hq, Hd, Hd1. repeat split.
  - apply (update_rows_In synced_clear_row _ e1 He1).
  - intros row Hin Hid. rewrite Hq in Hin.
    apply update_rows_own in Hin as [row0 ->]; auto.
Qed.

Lemma sync_success_after_failure_witness :
  sync_queue
    (run_db (sync (Resolved (mkResponse [success_for "q1" "srv1"])) 8)
            (run_db (failing_cycle "q1" "boom" 7) db_A))
  = [mkRow "q1" "t1" create (JText (JTask task_A)) synced (SqlNum 1000) 1 None].
Proof.
  destruct (sync_success_after_failure db_A entry_A "boom" "srv1" 7 8)
    as (Hin & _ & _).
  - repeat constructor. simpl. tauto.
  - simpl. now left.
  - reflexivity.
  - reflexivity.
  - reflexivity.
Defined.

(** ** The task routes *)

(** X19: on a task that is stored but soft-deleted, GET /:id and PUT /:id
    answer 404 and change nothing, while DELETE /:id answers 200 and
    appends two more pending delete entries; POST / without a title (absent
    or empty) answers 400 and changes nothing. *)
Theorem task_routes_on_deleted_task :
  forall (db : Database) (i : string) (t : Task),
    result_of (getTaskById i) db = Returned (Some t) ->
    is_deleted t = true ->
    get_task i db = (db, Returned (mkHttp 404 (ErrorBody "Task not found"))) /\
    (forall body uuid_item uuid_route now,
       put_task i body uuid_item uuid_route now db
       = (db, Returned (mkHttp 404 (ErrorBody "Task not found")))) /\
    (forall uuid_item uuid_route now,
       queue_has uuid_item (sync_queue db) = false ->
       queue_has uuid_route (sync_queue db) = false ->
       uuid_item <> uuid_route ->
       exists db',
         delete_task i uuid_item uuid_route now db
           = (db', Returned (mkHttp 200 SuccessBody)) /\
         List.length (sync_queue db') = S (S (List.length (sync_queue db)))) /\
    (forall description uuid_task uuid_item uuid_route now,
       post_task None description uuid_task uuid_item uuid_route now db
         = (db, Returned (mkHttp 400 (ErrorBody "Title is required"))) /\
       post_task (Some "") description uuid_task uuid_item uuid_route now db
         = (db, Returned (mkHttp 400 (ErrorBody "Title is required")))).
Proof.
  intros db i t Hget Hdel.
  pose proof Hget as Hget'. apply getTaskById_found in Hget' as [Hfind _].
  split; [|split; [|split]].
  - unfold get_task, getTask, getTaskById. unfold_async. simpl.
    now rewrite Hfind, Hdel.
  - intros body uuid_item uuid_route now.
    unfold put_task, getTask, getTaskById. unfold_async. simpl.
    now rewrite Hfind, Hdel.
  - intros uuid_item uuid_route now Hi Hr Hne.
    destruct (delete_task_run db i t uuid_item uuid_route now Hget Hi Hr Hne)
      as (db' & Hrun & Hq).
    exists db'. split; [exact Hrun|]. rewrite Hq, length_app. simpl. lia.
  - intros. split; reflexivity.
Qed.

Lemma task_routes_on_deleted_task_witness :
  let db := mkDb [mkTask "t1" "x" None false 1 2 true pending None None] [] [] in
  get_task "t1" db = (db, Returned (mkHttp 404 (ErrorBody "Task not found"))) /\
  put_task "t1" emptyPartial "q1" "q2" 9 db
    = (db, Returned (mkHttp 404 (ErrorBody "Task not found"))) /\
  exists db',
    delete_task "t1" "q1" "q2" 9 db = (db', Returned (mkHttp 200 SuccessBody)) /\
    List.length (sync_queue db') = 2%nat.
Proof.
  intros db.
  destruct (task_routes_on_deleted_task db "t1"
              (mkTask "t1" "x" None false 1 2 true pending None None)
              eq_refl eq_refl) as (Hget & Hput & Hdel & _).
  split; [exact Hget|]. split; [apply Hput|].
  apply Hdel; [reflexivity | reflexivity | discriminate].
Defined.

(** X20: a 500 answer of POST / does not mean that nothing was stored.
    When the id drawn for the route's own queue entry is already taken,
    the handler answers 500 with the constraint error after the task and
    the service's queue entry have been written. *)
Theorem post_task_500_after_insert :
  forall (db : Database) (ttl : string) (description : option string)
         (uuid_task uuid_item uuid_route : string) (now : Z),
    ttl <> "" ->
    existsb (fun row => same_id (id row) uuid_task) (tasks db) = false ->
    queue_has uuid_item (sync_queue db) = false ->
    queue_has uuid_route (sync_queue db) = true \/ uuid_route = uuid_item ->
    let task := mkTask uuid_task ttl (Some (string_or description "")) false
                       now now false pending None None in
    exists message,
      post_task (Some ttl) description uuid_task uuid_item uuid_route now db =
      (mkDb (tasks db ++ [task])
            (sync_queue db ++
             [mkRow uuid_item uuid_task create (JText (JTask task)) pending
                    (SqlNum now) 0 None])
            (dead_letter_queue db),
       Returned (mkHttp 500 (ErrorBody message))).
Proof.
  intros db ttl description uuid_task uuid_item uuid_route now Httl Htask Hitem
         Hroute task.
  unfold post_task, createTask, insertTask, Database_addToSyncQueue,
    addToSyncQueue, insert_queue_row; unfold_async; simpl.
  apply String.eqb_neq in Httl. rewrite Httl; simpl.
  rewrite Htask; simpl. rewrite Hitem; simpl.
  rewrite queue_has_snoc. simpl.
  assert (E : queue_has uuid_route (sync_queue db) || same_id uuid_item uuid_route
              = true).
  { destruct Hroute as [->| ->]; [reflexivity|].
    rewrite same_id_refl. apply orb_true_r. }
  rewrite E. eexists. reflexivity.
Qed.

Lemma post_task_500_after_insert_witness :
  exists db' message,
    post_task (Some "x") None "t1" "q1" "q1" 5 emptyDb
      = (db', Returned (mkHttp 500 (ErrorBody message))) /\
    List.length (tasks db') = 1%nat /\ List.length (sync_queue db') = 1%nat.
Proof.
  destruct (post_task_500_after_insert emptyDb "x" None "t1" "q1" "q1" 5)
    as (message & Hrun); [discriminate | reflexivity | reflexivity | now right|].
  eexists. exists message. split; [exact Hrun|]. split; reflexivity.
Defined.

(** X21: a task created through POST / is answered by GET /:id with status
    200 and the same task, and GET / lists it. *)
Theorem post_task_then_get :
  forall (db : Database) (ttl : string) (description : option string)
         (uuid_task uuid_item uuid_route : string) (now : Z),
    ttl <> "" ->
    existsb (fun row => same_id (id row) uuid_task) (tasks db) = false ->
    queue_has uuid_item (sync_queue db) = false ->
    queue_has uuid_route (sync_queue db) = false ->
    uuid_item <> uuid_route ->
    exists db' task,
      post_task (Some ttl) description uuid_task uuid_item uuid_route now db
        = (db', Returned (mkHttp 201 (TaskBody (Some task)))) /\
      get_task uuid_task db' = (db', Returned (mkHttp 200 (TaskBody (Some task)))) /\
      exists ts,
        get_tasks db' = (db', Returned (mkList 200 (TasksBody ts))) /\
        In task ts.
Proof.
  intros db ttl description uuid_task uuid_item uuid_route now Httl Htask Hitem
         Hroute Hne.
  do 2 eexists. split; [now apply post_task_run|].
  unfold get_task, get_tasks, taskService_getAllTasks, getTask, getTaskById,
    getAllTasks. unfold_async. simpl.
  rewrite find_snoc_fresh by exact Htask.
  rewrite find_stored by exact Htask. simpl. rewrite same_id_refl.
  split; [reflexivity|].
  eexists. split; [reflexivity|].
  apply filter_In. split; [|reflexivity]. apply in_or_app. right. now left.
Qed.

Lemma post_task_then_get_witness :
  exists db' task,
    post_task (Some "x") None "t1" "q1" "q2" 5 emptyDb
      = (db', Returned (mkHttp 201 (TaskBody (Some task)))) /\
    get_task "t1" db' = (db', Returned (mkHttp 200 (TaskBody (Some task)))).
Proof.
  destruct (post_task_then_get emptyDb "x" None "t1" "q1" "q2" 5)
    as (db' & task & Hpost & Hget & _);
    try reflexivity; try discriminate.
  now exists db', task.
Defined.

(** ** The sync routes *)

(** X22: POST /sync never answers 500. When the health probe throws it
    answers 503 and neither reads nor writes the queue, whatever the batch
    endpoint would do; when the probe resolves it answers 200 with the
    summary of [sync] and leaves the database as [sync] leaves it, also
    when the post of the batch throws. *)
Theorem post_sync_answers :
  forall (health : GetOutcome) (post : PostOutcome) (now : Z) (db : Database),
    (forall message,
       health = GetThrew message ->
       post_sync health post now db
         = (db, Returned (mkSyncHttp 503 (UnreachableBody now)))) /\
    (health = GetResolved ->
     exists res,
       result_of (sync post now) db = Returned res /\
       post_sync health post now db
         = (run_db (sync post now) db,
            Returned (mkSyncHttp 200 (SummaryBody res)))) /\
    (forall resp,
       result_of (post_sync health post now) db = Returned resp ->
       sync_code resp <> 500).
Proof.
  intros health post now db.
  assert (Hsync : exists db1 res, sync post now db = (db1, Returned res)).
  { destruct (sync_cases post now db)
      as [[_ ->]|[_ (db1 & [(b & _ & _ & ->)|(m & _ & ->)])]]; eauto. }
  destruct Hsync as (db1 & res & Hsync).
  split; [|split].
  - intros message ->. reflexivity.
  - intros ->. exists res. unfold result_of, run_db. rewrite Hsync. simpl.
    split; [reflexivity|].
    unfold post_sync, checkConnectivity. unfold_async. simpl.
    now rewrite Hsync.
  - intros resp. unfold result_of, post_sync, checkConnectivity. unfold_async.
    destruct health as [|m]; simpl.
    + rewrite Hsync. intros H. injection H as <-. discriminate.
    + intros H. injection H as <-. discriminate.
Qed.

Lemma post_sync_answers_witness :
  post_sync (GetThrew "timeout") (Resolved (mkResponse [success_for "q1" "s"])) 7
            db_A
    = (db_A, Returned (mkSyncHttp 503 (UnreachableBody 7))) /\
  exists res,
    post_sync GetResolved (NetworkError "down") 7 db_A
      = (db_A, Returned (mkSyncHttp 200 (SummaryBody res))) /\
    success res = false.
Proof.
  split.
  - exact (proj1 (post_sync_answers (GetThrew "timeout")
                    (Resolved (mkResponse [success_for "q1" "s"])) 7 db_A)
                 "timeout" eq_refl).
  - destruct (proj1 (proj2 (post_sync_answers GetResolved (NetworkError "down")
                              7 db_A)) eq_refl) as (res & Hres & Hrun).
    exists res. split; [exact Hrun|]. now injection Hres as <-.
Defined.

Lemma count_pending_drained (q : list QueueRow) :
  count (filter (has_queue_status pending) q) =
  count (order_by_task_created (filter is_pending q)).
Proof.
  unfold count. apply f_equal.
  rewrite (Permutation_length (order_by_task_created_perm (filter is_pending q))).
  apply f_equal. apply filter_ext. intros row.
  unfold has_queue_status, is_pending. now destruct (q_status row).
Qed.

Lemma queue_size_not_synced (q : list QueueRow) :
  count (filter (has_queue_status pending) q) + 0 +
  count (filter (has_queue_status error) q) =
  count (filter (fun row => negb (has_queue_status synced row)) q).
Proof.
  assert (G : forall (p e n : QueueRow -> bool),
            (forall row, n row = p row || e row) ->
            (forall row, p row && e row = false) ->
            (List.length (filter p q) + List.length (filter e q))%nat =
            List.length (filter n q)).
  { intros p e n Hn Hpe. induction q as [|x q IH]; [reflexivity|].
    simpl. rewrite Hn. specialize (Hpe x).
    destruct (p x), (e x); simpl in *; try discriminate; rewrite <- IH; lia. }
  unfold count. rewrite Z.add_0_r, <- Nat2Z.inj_add. apply f_equal.
  apply G; intros row; unfold has_queue_status; now destruct (q_status row).
Qed.

(** X23: GET /status answers 200 and changes nothing. Its
    pending_sync_count is the number of entries the next cycle drains (and
    so the failed_items that cycle reports if its post throws), rows with
    status synced are not part of sync_queue_size, dead_letter is the size
    of the dead-letter table, and is_online is the outcome of the probe. *)
Theorem get_status_reports :
  forall (health : GetOutcome) (db : Database),
  exists body,
    get_status health db = (db, Returned (mkStatusHttp 200 (StatusBody body))) /\
    pending_sync_count body =
      count (order_by_task_created (filter is_pending (sync_queue db))) /\
    (forall message now res,
       result_of (sync (NetworkError message) now) db = Returned res ->
       success res = false ->
       failed_items res = pending_sync_count body) /\
    sync_queue_size body =
      count (filter (fun row => negb (has_queue_status synced row)) (sync_queue db)) /\
    dead_letter body = count (dead_letter_queue db) /\
    (is_online body = true <-> health = GetResolved).
Proof.
  intros health db.
  unfold get_status, count_status, count_dead_letter, max_last_synced_at,
    checkConnectivity. unfold_async.
  destruct health as [|m]; simpl; eexists; (split; [reflexivity|]); simpl.
  all: split; [apply count_pending_drained|].
  all: split;
    [intros message now res Hres Hfail; unfold result_of in Hres;
     rewrite (sync_throwing_post db _ message) in Hres by reflexivity;
     simpl in Hres; injection Hres as <-;
     rewrite count_pending_drained;
     destruct (order_by_task_created _); [discriminate | reflexivity]|].
  all: split; [apply queue_size_not_synced|].
  all: split; [reflexivity|]; split; congruence.
Qed.

Lemma get_status_reports_witness :
  exists body,
    get_status GetResolved db_A
      = (db_A, Returned (mkStatusHttp 200 (StatusBody body))) /\
    pending_sync_count body = 1 /\
    forall res,
      result_of (sync (NetworkError "down") 7) db_A = Returned res ->
      failed_items res = 1.
Proof.
  destruct (get_status_reports GetResolved db_A)
    as (body & Hrun & Hp & Hfail & _).
  exists body. split; [exact Hrun|]. split; [exact Hp|].
  intros res Hres. rewrite (Hfail "down" 7 res Hres); [exact Hp|].
  now injection Hres as <-.
Defined.

(** ** The batch endpoint and a cycle against it *)

(** X24: the integrity check of POST /batch. A request as [processBatch]
    builds it is accepted, and every accepted request is answered with one
    success item per row, in order, that echoes the row's id as client_id
    and its task_id as server_id; a request whose rows digest differently
    from the checksum it carries is answered 400 and nothing is processed. *)
Theorem post_batch_integrity :
  forall (sha256_hex : list QueueRow -> string) (now server_now : Z),
    (forall items,
       post_batch sha256_hex (batchRequest sha256_hex items now) server_now
       = Accepted (map (echo server_now) items)) /\
    (forall req processed,
       post_batch sha256_hex req server_now = Accepted processed ->
       map echo_client_id processed = map q_id (req_items req) /\
       map echo_server_id processed = map q_task_id (req_items req) /\
       Forall (fun x => echo_status x = st_success) processed) /\
    (forall sent received,
       sha256_hex received <> sha256_hex sent ->
       post_batch sha256_hex (mkRequest received now (sha256_hex sent)) server_now
       = ChecksumMismatch server_now).
Proof.
  intros sha now server_now. split; [|split].
  - intros items. unfold post_batch, batchRequest. simpl.
    now rewrite String.eqb_refl.
  - intros req processed. unfold post_batch.
    destruct (sha (req_items req) =? checksum req)%string; [|discriminate].
    intros H. injection H as <-. rewrite !map_map. simpl.
    repeat split. apply Forall_forall. intros x Hx.
    apply in_map_iff in Hx as (row & <- & _). reflexivity.
  - intros sent received Hne. unfold post_batch. simpl.
    apply String.eqb_neq in Hne. now rewrite Hne.
Qed.

Lemma post_batch_integrity_witness :
  let sha := fun items : list QueueRow =>
               match items with [] => "none" | _ => "some" end in
  post_batch sha (mkRequest [] 7 (sha [entry_A])) 8 = ChecksumMismatch 8 /\
  map echo_client_id
      match post_batch sha (batchRequest sha [entry_A] 7) 8 with
      | Accepted processed => processed
      | ChecksumMismatch _ => []
      end = ["q1"].
Proof.
  intros sha.
  destruct (post_batch_integrity sha 7 8) as (Hok & Hecho & Hbad).
  split.
  - apply (Hbad [entry_A] []). discriminate.
  - rewrite Hok. exact (proj1 (Hecho _ _ (Hok [entry_A]))).
Defined.

Lemma apply_result_success_full (items : list QueueRow) (now : Z) (e : QueueRow)
      (r : ProcessedItem) (db : Database) :
  find_item items (client_id r) = Some e ->
  r_status r = st_success ->
  exists db1,
    apply_result items now r db = (db1, Returned tt) /\
    sync_queue db1 = update_rows (q_id e) synced_clear_row (sync_queue db) /\
    dead_letter_queue db1 = dead_letter_queue db /\
    ((tasks db1 = tasks db /\
      forall row, In row (tasks db) -> id row <> q_task_id e) \/
     exists U, id U = q_task_id e /\ sync_status U = synced /\
               server_id U = Some (r_server_id r) /\
               tasks db1 = replace_task U (tasks db)).
Proof.
  intros Hfind Hs. unfold apply_result. rewrite Hfind, Hs.
  unfold set_synced_clear, update_queue, updateTaskAfterSync, getTaskById,
    updateTask. unfold_async. simpl.
  destruct (find _ (tasks db)) as [t|] eqn:F; eexists;
    (split; [reflexivity|]); (split; [reflexivity|]); (split; [reflexivity|]).
  - right.
    exists (mkTask (id t) (title t) (description t) (completed t) (created_at t)
                   (updated_at t) (is_deleted t) synced (Some (r_server_id r))
                   (Some now)).
    simpl. apply find_some in F as [_ F]. apply String.eqb_eq in F.
    repeat split. exact F.
  - left. split; [reflexivity|]. intros row Hrow Hid.
    apply (find_none _ _ F) in Hrow. simpl in Hrow.
    now rewrite Hid, same_id_refl in Hrow.
Qed.

Lemma marked_rows (its q : list QueueRow) (row : QueueRow) :
  In row (fold_left (fun q it => update_rows (q_id it) synced_clear_row q) its q) ->
  q_status row = synced \/ (In row q /\ ~ In (q_id row) (map q_id its)).
Proof.
  revert q. induction its as [|it rest IH]; intros q Hin; simpl in *.
  - right. split; [exact Hin | tauto].
  - apply IH in Hin as [Hs|[Hin Hrest]]; [now left|].
    apply in_map_iff in Hin as (row0 & Heq & H0).
    destruct (same_id (q_id row0) (q_id it)) eqn:E.
    + left. now subst row.
    + right. subst row0. split; [exact H0|].
      intros [Hid|Hid]; [|contradiction].
      now rewrite Hid, same_id_refl in E.
Qed.

Lemma marked_ids (its q : list QueueRow) :
  map q_id (fold_left (fun q it => update_rows (q_id it) synced_clear_row q) its q)
  = map q_id q.
Proof.
  revert q. induction its as [|it rest IH]; intros q; simpl; [reflexivity|].
  rewrite IH. now apply update_rows_ids.
Qed.

(** The loop over the answer of the mock authority for the rows [its]. *)
Lemma echo_loop (items : list QueueRow) (now : Z)
      (rd : QueueRow -> option Task) (its : list QueueRow) :
  (forall it, In it its -> find_item items (q_id it) = Some it) ->
  forall db,
  exists db1,
    for_each (map (fun it => mkProcessed (q_id it) (q_task_id it) st_success
                                         (rd it) None None) its)
             (apply_result items now) db = (db1, Returned tt) /\
    sync_queue db1 =
      fold_left (fun q it => update_rows (q_id it) synced_clear_row q) its
                (sync_queue db) /\
    dead_letter_queue db1 = dead_letter_queue db /\
    map id (tasks db1) = map id (tasks db) /\
    (forall taskId,
       (forall row, In row (tasks db) -> id row = taskId ->
                    sync_status row = synced /\ server_id row = Some taskId) \/
       In taskId (map q_task_id its) ->
       forall row, In row (tasks db1) -> id row = taskId ->
                   sync_status row = synced /\ server_id row = Some taskId).
Proof.
  induction its as [|it rest IH]; intros Hfind db.
  - exists db. simpl. do 4 (split; [reflexivity|]).
    intros taskId [H|[]]. exact H.
  - destruct (apply_result_success_full items now it
                (mkProcessed (q_id it) (q_task_id it) st_success (rd it) None None)
                db (Hfind it (or_introl eq_refl)) eq_refl)
      as (da & Ha & Hqa & Hda & Hta).
    destruct (IH (fun x Hx => Hfind x (or_intror Hx)) da)
      as (db1 & Hrun & Hq & Hd & Hids & Htasks).
    exists db1. simpl. unfold bind. rewrite Ha.
    split; [exact Hrun|]. split; [now rewrite Hq, Hqa|].
    split; [now rewrite Hd, Hda|]. split.
    + rewrite Hids. destruct Hta as [[-> _]|(U & _ & _ & _ & ->)]; [reflexivity|].
      apply replace_task_ids.
    + intros taskId Hcase. apply Htasks.
      destruct (string_dec taskId (q_task_id it)) as [->|Hne].
      * left. intros row Hrow Hid.
        destruct Hta as [[Hsame Hnone]|(U & HU & Hs & Hsid & Heq)].
        -- rewrite Hsame in Hrow. now apply Hnone in Hrow.
        -- rewrite Heq in Hrow.
           apply replace_task_own in Hrow as [H1 H2]; [|congruence].
           simpl in Hsid. split; congruence.
      * destruct Hcase as [H|[H|H]]; [| congruence |now right].
        left. intros row Hrow Hid.
        destruct Hta as [[Hsame _]|(U & HU & _ & _ & Heq)].
        -- rewrite Hsame in Hrow. now apply H.
        -- rewrite Heq in Hrow.
           apply replace_task_In in Hrow as [Hrow|(Hid' & _)]; [now apply H|].
           congruence.
Qed.

Lemma selected_is_pending (db : Database) (e : QueueRow) :
  In e (order_by_task_created (filter is_pending (sync_queue db))) ->
  q_status e = pending.
Proof.
  intros H. apply (Permutation_in _ (order_by_task_created_perm _)) in H.
  apply filter_In in H as [_ H]. unfold is_pending in H.
  now destruct (q_status e).
Qed.

Lemma filter_map_all {A B} (f : A -> B) (p : B -> bool) (l : list A) :
  (forall a, p (f a) = true) -> filter p (map f l) = map f l.
Proof.
  intros H. induction l as [|x l IH]; simpl; [reflexivity|].
  now rewrite H, IH.
Qed.

Lemma filter_map_none {A B} (f : A -> B) (p : B -> bool) (l : list A) :
  (forall a, p (f a) = false) -> filter p (map f l) = [].
Proof.
  intros H. induction l as [|x l IH]; simpl; [reflexivity|].
  now rewrite H, IH.
Qed.

(** X25: a cycle against the mock authority of POST /batch. The request
    passes the integrity check, every drained entry is answered with
    success, and the cycle reports all of them as synced and none as
    failed; afterwards no row is pending, no row has left the queue, the
    dead-letter table is as before, and the stored task of every drained
    entry has status synced and its own id as server_id. *)
Theorem sync_with_mock_drains :
  forall (sha256_hex : list QueueRow -> string)
         (typed : EchoData -> option Task) (now server_now : Z) (db : Database),
    unique_ids (sync_queue db) ->
    exists db' res,
      sync_with_mock sha256_hex typed now server_now db = (db', Returned res) /\
      success res = true /\
      synced_items res =
        count (order_by_task_created (filter is_pending (sync_queue db))) /\
      failed_items res = 0 /\
      errors res = [] /\
      result_of select_pending db' = Returned [] /\
      map q_id (sync_queue db') = map q_id (sync_queue db) /\
      dead_letter_queue db' = dead_letter_queue db /\
      (forall e t,
         In e (sync_queue db) -> q_status e = pending ->
         result_of (getTaskById (q_task_id e)) db = Returned (Some t) ->
         exists t',
           result_of (getTaskById (q_task_id e)) db' = Returned (Some t') /\
           sync_status t' = synced /\ server_id t' = Some (q_task_id e)).
Proof.
  intros sha typed now sn db Hu.
  unfold sync_with_mock, post_batch, batchRequest. simpl.
  rewrite String.eqb_refl. simpl. rewrite map_map. simpl.
  set (items := order_by_task_created (filter is_pending (sync_queue db))).
  set (rd := fun it : QueueRow => typed (mkEchoData (q_data it) (q_task_id it) sn)).
  set (f := fun it : QueueRow =>
              mkProcessed (q_id it) (q_task_id it) st_success (rd it) None None).
  change (map _ items) with (map f items).
  assert (Hfind : forall it, In it items -> find_item items (q_id it) = Some it).
  { intros it Hit. apply find_item_selected; [exact Hu | |].
    - now apply selected_in_queue.
    - now apply (selected_is_pending db). }
  destruct (echo_loop items now rd items Hfind db)
    as (db1 & Hloop & Hq & Hd & Hids & Htasks).
  fold f in Hloop.
  destruct (sync_cases (Resolved (mkResponse (map f items))) now db)
    as [[Hnil Hs]|[_ (db2 & [(b & Hb & Hrun & Hs)|(m & Hth & _)])]].
  - fold items in Hnil. rewrite Hs. exists db. eexists. split; [reflexivity|]. simpl.
    rewrite Hnil. repeat split.
    + unfold result_of, select_pending. simpl. fold items. now rewrite Hnil.
    + intros e t He Hp _. pose proof (pending_selected db e He Hp) as Hin.
      fold items in Hin. now rewrite Hnil in Hin.
  - injection Hb as <-. fold items in Hrun, Hs. simpl in Hrun, Hs.
    rewrite Hloop in Hrun.
    injection Hrun as <-. rewrite Hs.
    exists db1. eexists. split; [reflexivity|]. simpl.
    rewrite (filter_map_all f (has_status st_success)) by reflexivity.
    rewrite (filter_map_none f (has_status st_error)) by reflexivity.
    split; [reflexivity|]. split; [unfold count; now rewrite length_map|].
    split; [reflexivity|]. split; [reflexivity|]. split; [|split; [|split]].
    + unfold result_of, select_pending. simpl. f_equal.
      apply nothing_pending. intros row Hrow Hpend. rewrite Hq in Hrow.
      apply marked_rows in Hrow as [Hs'|[Hin Hnot]]; [congruence|].
      apply Hnot. apply in_map. now apply pending_selected.
    + rewrite Hq. apply marked_ids.
    + exact Hd.
    + intros e t He Hp Ht. apply getTaskById_found in Ht as [Ht _].
      unfold result_of, getTaskById. simpl.
      destruct (find (fun row => same_id (id row) (q_task_id e)) (tasks db1))
        as [t'|] eqn:F.
      * exists t'. split; [reflexivity|].
        apply find_some in F as [Hin Hid]. apply String.eqb_eq in Hid.
        apply (Htasks (q_task_id e)); [|exact Hin | exact Hid].
        right. apply in_map. now apply pending_selected.
      * exfalso. apply find_some in Ht as [Hin Hid].
        assert (Hex : In (id t) (map id (tasks db1)))
          by (rewrite Hids; now apply in_map).
        apply in_map_iff in Hex as (row & Hrow & Hin').
        apply (find_none _ _ F) in Hin'. simpl in Hin'.
        rewrite Hrow in Hin'. congruence.
  - fold items in Hth. simpl in Hth. unfold bind in Hth.
    rewrite Hloop in Hth. discriminate.
Qed.

Lemma sync_with_mock_drains_witness :
  exists db' res,
    sync_with_mock (fun _ => "digest") (fun _ => None) 7 8 db_A
      = (db', Returned res) /\
    synced_items res = 1 /\
    result_of select_pending db' = Returned [] /\
    exists t',
      result_of (getTaskById "t1") db' = Returned (Some t') /\
      sync_status t' = synced /\ server_id t' = Some "t1".
Proof.
  destruct (sync_with_mock_drains (fun _ => "digest") (fun _ => None) 7 8 db_A)
    as (db' & res & Hrun & _ & Hn & _ & _ & Hnone & _ & _ & Htask).
  - repeat constructor. simpl. tauto.
  - exists db', res. split; [exact Hrun|]. split; [exact Hn|].
    split; [exact Hnone|].
    apply (Htask entry_A task_A); [simpl; now left | reflexivity | reflexivity].
Defined.

(** ** Reading a dead-lettered entry back *)

(** X26: an entry that [handleSyncError] moves to the dead-letter table is
    read back by [getDeadLetterQueue] after the entries already there, with
    its id, task_id, operation and created_at and the message of the
    failure; its data comes back as the stored JSON text, one level of
    encoding above the value [getSyncQueue] returned for the same row. *)
Theorem dead_letter_read_back :
  forall (db : Database) (e : QueueRow) (message : string) (now : Z)
         (j : Json) (before : list QueueView),
    maxRetries <= q_retry_count e + 1 ->
    dead_has (q_id e) (dead_letter_queue db) = false ->
    q_data e = JSON_stringify j ->
    result_of getDeadLetterQueue db = Returned before ->
    let db' := run_db (handleSyncError e message now) db in
    result_of getDeadLetterQueue db' =
      Returned (before ++
                [mkView (q_id e) (q_task_id e) (q_operation e) (JSON_stringify j)
                        (q_created_at e) 3 (Some message)]) /\
    (forall views, result_of getSyncQueue (mkDb [] [e] []) = Returned views ->
                   map v_data views = [j]).
Proof.
  intros db e message now j before Hc Hfresh Hdata Hread db'. subst db'.
  unfold run_db. rewrite handleSyncError_at_ceiling by assumption.
  unfold result_of, getDeadLetterQueue, getSyncQueue in *. simpl in *.
  rewrite parse_all_app, Hread. simpl. rewrite Hdata. simpl.
  split; [reflexivity|]. intros views H. now injection H as <-.
Qed.

Lemma dead_letter_read_back_witness :
  let e := mkRow "q1" "t1" create (JText (JTask task_A)) pending (SqlNum 1000) 2
                 None in
  result_of getDeadLetterQueue
            (run_db (handleSyncError e "boom" 9) (mkDb [task_A] [e] []))
  = Returned [mkView "q1" "t1" create (JText (JTask task_A)) (SqlNum 1000) 3
                     (Some "boom")].
Proof.
  intros e.
  refine (proj1 (dead_letter_read_back (mkDb [task_A] [e] []) e "boom" 9
                   (JTask task_A) [] _ eq_refl eq_refl eq_refl)).
  reflexivity.
Defined.

(** ** After a successful item, on the read side *)

(** X27: in a cycle that applies its batch without an exception, once the
    results of a pending entry are all success (and there is one),
    [getTasksNeedingSync] lists no task with the entry's task id. *)
Theorem synced_task_needs_no_sync :
  forall (db : Database) (body : BatchSyncResponse) (now : Z) (e : QueueRow)
         (r : ProcessedItem) (db' : Database) (res : SyncResult),
    unique_ids (sync_queue db) ->
    In e (sync_queue db) ->
    q_status e = pending ->
    In r (processed_items body) ->
    client_id r = q_id e ->
    (forall x, In x (processed_items body) -> client_id x = q_id e ->
               r_status x = st_success) ->
    sync (Resolved body) now db = (db', Returned res) ->
    success res = true ->
    exists ts,
      result_of getTasksNeedingSync db' = Returned ts /\
      forall t, In t ts -> id t <> q_task_id e.
Proof.
  intros db body now e r db' res Hu He Hp Hr Hid Hok Hrun Hs.
  pose proof (find_item_selected db e Hu He Hp) as Hfind.
  pose proof (pending_selected db e He Hp) as Hsel.
  apply sync_resolved_applied in Hrun; [|exact Hs|].
  2:{ intros Hnil. now rewrite Hnil in Hsel. }
  assert (Hex : exists x, In x (processed_items body) /\ client_id x = q_id e)
    by now exists r.
  unfold result_of, getTasksNeedingSync, getAllTasks. unfold_async. simpl.
  eexists. split; [reflexivity|].
  intros t Ht Htid.
  apply filter_In in Ht as [Ht Hneeds]. apply filter_In in Ht as [Ht _].
  assert (Hst : task_stored (q_task_id e) db').
  { apply existsb_exists. exists t. split; [exact Ht|].
    rewrite Htid. apply same_id_refl. }
  assert (Hst0 : task_stored (q_task_id e) db).
  { unfold task_stored in *.
    destruct (existsb (fun row => same_id (id row) (q_task_id e)) (tasks db))
      eqn:E; [reflexivity|].
    exfalso.
    destruct (for_each_keeps
                (order_by_task_created (filter is_pending (sync_queue db))) now
                (processed_items body) db) as (Hids & _).
    rewrite Hrun in Hids. simpl in Hids.
    assert (Hin : In (id t) (map id (tasks db))) by (rewrite <- Hids; now apply in_map).
    apply in_map_iff in Hin as (row & Hrow & Hin).
    assert (existsb (fun row => same_id (id row) (q_task_id e)) (tasks db) = true).
    { apply existsb_exists. exists row. split; [exact Hin|].
      rewrite Hrow, Htid. apply same_id_refl. }
    congruence. }
  destruct (batch_loop_task _ now e _ Hfind db db' Hrun Hok Hst0)
    as (_ & Hsy & _).
  specialize (Hsy (or_intror Hex) t Ht Htid).
  unfold needs_sync in Hneeds. rewrite Hsy in Hneeds. discriminate.
Qed.

Lemma synced_task_needs_no_sync_witness :
  result_of getTasksNeedingSync db_A = Returned [task_A] /\
  exists ts,
    result_of getTasksNeedingSync
      (run_db (sync (Resolved (mkResponse [success_for "q1" "srv1"])) 7) db_A)
      = Returned ts /\
    forall t, In t ts -> id t <> "t1".
Proof.
  split; [reflexivity|].
  refine (synced_task_needs_no_sync db_A (mkResponse [success_for "q1" "srv1"]) 7
            entry_A (success_for "q1" "srv1") _ _ _ _ eq_refl _ eq_refl _
            eq_refl eq_refl).
  - repeat constructor. simpl. tauto.
  - simpl. now left.
  - simpl. now left.
  - intros x [<-|[]] _. reflexivity.
Defined.

(** ** Instances *)

Lemma sync_always_reports_witness :
  (exists res,
     result_of (sync (NetworkError "down") 7) db_A = Returned res /\
     synced_items res = 0 /\ failed_items res = 1) /\
  (exists res,
     result_of (sync (Resolved (mkResponse [success_for "q1" "srv1"])) 7) db_A
       = Returned res /\
     synced_items res = 1 /\ failed_items res = 0).
Proof.
  split.
  - destruct (sync_always_reports (NetworkError "down") 7 db_A)
      as (res & Hres & Hfail & _).
    exists res. split; [exact Hres|].
    assert (Hs : success res = false) by now injection Hres as <-.
    destruct (Hfail Hs) as (H1 & H2 & _). split; [exact H1 | exact H2].
  - destruct (sync_always_reports
                (Resolved (mkResponse [success_for "q1" "srv1"])) 7 db_A)
      as (res & Hres & _ & Hok).
    exists res. split; [exact Hres|].
    assert (Hs : success res = true) by now injection Hres as <-.
    destruct (Hok Hs) as [(Hnil & _)|(body & Hb & H1 & H2 & _)];
      [discriminate|].
    injection Hb as <-. split; [exact H1 | exact H2].
Defined.

Lemma sync_keeps_tables_witness :
  let db' := run_db (sync (Resolved (mkResponse [error_for "q1" "boom"])) 7)
                    (mkDb [task_A]
                          [mkRow "q1" "t1" create (JText (JTask task_A)) pending
                                 (SqlNum 1000) 2 None] []) in
  map id (tasks db') = ["t1"] /\
  unique_ids (sync_queue db') /\
  exists l, dead_letter_queue db' = [] ++ l.
Proof.
  intros db'.
  destruct (sync_keeps_tables (Resolved (mkResponse [error_for "q1" "boom"])) 7
              (mkDb [task_A]
                    [mkRow "q1" "t1" create (JText (JTask task_A)) pending
                           (SqlNum 1000) 2 None] []))
    as (Hids & _ & _ & Hdead & Huniq).
  split; [exact Hids|]. split; [|exact Hdead].
  apply Huniq. repeat constructor. simpl. tauto.
Defined.
